(** * Smart-meter telemetry simulator (app.py): replay loop and payload builder

    A shallow embedding of the CSV-replay publisher: the row store, the
    fallback-safe field extractors, the payload builder, the broker
    connection manager, the replay loop and the lock-guarded shared state,
    followed by the properties of the specification that were checked
    against them. *)

From Stdlib Require Import ZArith List String Ascii Bool Arith Lia.
From Stdlib Require Import Floats.SpecFloat.
From Stdlib Require Import Numbers.DecimalString.
Import ListNotations.
Local Open Scope string_scope.
Local Open Scope list_scope.
Local Open Scope nat_scope.

(** ** Python values the program relies on *)

Module Py.

(** Exception classes that occur in app.py and in the calls it makes. *)
Inductive exn : Type :=
  | KeyError
  | ValueError
  | TypeError
  | IndexError
  | ZeroDivisionError
  | OSError (msg : string)
  | FileNotFoundError
  | EmptyDataError
  | ParserError.

(** [isinstance(e, OSError)]: FileNotFoundError derives from OSError. *)
Definition is_OSError (e : exn) : bool :=
  match e with
  | OSError _ | FileNotFoundError => true
  | _ => false
  end.

(** [str(exc)]. *)
Definition exn_str (e : exn) : string :=
  match e with
  | OSError msg => msg
  | FileNotFoundError => "[Errno 2] No such file or directory"
  | EmptyDataError => "No columns to parse from file"
  | ParserError => "Error tokenizing data"
  | _ => ""
  end.

(** A computation either returns a value or raises. *)
Inductive result (A : Type) : Type :=
  | Ok (a : A)
  | Raise (e : exn).
Arguments Ok {A} a.
Arguments Raise {A} e.

Definition bind {A B} (r : result A) (k : A -> result B) : result B :=
  match r with
  | Ok a => k a
  | Raise e => Raise e
  end.

(** [try: body except <classes>: handler]. *)
Definition try_except {A} (body : result A) (caught : exn -> bool)
    (handler : exn -> result A) : result A :=
  match body with
  | Ok a => Ok a
  | Raise e => if caught e then handler e else Raise e
  end.

Notation "x <- c ;; k" := (bind c (fun x => k))
  (at level 61, c at next level, right associativity).

(** *** Floats: IEEE 754 binary64, as CPython's [float] *)

Definition prec : Z := 53.
Definition emax : Z := 1024.
Definition float : Type := spec_float.

Definition isnan (x : float) : bool :=
  match x with S754_nan => true | _ => false end.

Definition isfinite (x : float) : bool :=
  match x with
  | S754_zero _ | S754_finite _ _ _ => true
  | _ => false
  end.

(** Round the rational [p / q] ([0 <= p], [0 < q]) to the nearest integer,
    ties to the even one. *)
Definition half_even (p q : Z) : Z :=
  let (d, r) := Z.div_eucl p q in
  match (2 * r ?= q)%Z with
  | Lt => d
  | Gt => (d + 1)%Z
  | Eq => if Z.even d then d else (d + 1)%Z
  end.

(** The binary64 value nearest to [(-1)^s * k / 10^n] (ties to even): what
    reading the decimal text "k e-n" gives. *)
Definition of_decimal (s : bool) (k : Z) (n : nat) : float :=
  match k with
  | Z0 => S754_zero s
  | Zpos p =>
      SFdiv prec emax (S754_finite s p 0)
            (S754_finite false (Z.to_pos (10 ^ Z.of_nat n)) 0)
  | Zneg _ => S754_nan
  end.

(** [float(i)] for an integer. *)
Definition of_int (i : Z) : float := binary_normalize prec emax i 0 false.

(** [round(x, ndigits)] on a float with [ndigits >= 0]
    (float.__round__): non-finite values round to themselves; beyond
    NDIGITS_MAX = 323 digits [x] is returned as it is; otherwise the exact
    value of [x] is rounded half-even to [ndigits] decimals and the decimal
    obtained is read back as the nearest float. *)
Definition NDIGITS_MAX : nat := 323.

Definition round (x : float) (ndigits : nat) : float :=
  match x with
  | S754_finite s m e =>
      if NDIGITS_MAX <? ndigits then x
      else
        let scaled := (Zpos m * 10 ^ Z.of_nat ndigits)%Z in
        let k := half_even (scaled * 2 ^ Z.max e 0) (2 ^ Z.max (- e) 0) in
        of_decimal s k ndigits
  | _ => x
  end.

(** *** Strings

    A [str] is held as its UTF-8 text, one [ascii] per byte. *)

(** The white space [str.strip()] removes is every character for which
    [str.isspace()] holds. In UTF-8:
    - one byte: U+0009..U+000D, U+001C..U+0020;
    - two bytes: U+0085 (C2 85), U+00A0 (C2 A0);
    - three bytes: U+1680 (E1 9A 80); U+2000..U+200A, U+2028, U+2029,
      U+202F (E2 80 80..8A, A8, A9, AF); U+205F (E2 81 9F);
      U+3000 (E3 80 80). *)
Definition isspace1 (a : nat) : bool :=
  ((9 <=? a) && (a <=? 13)) || ((28 <=? a) && (a <=? 32)).

Definition isspace2 (a b : nat) : bool :=
  (a =? 194) && ((b =? 133) || (b =? 160)).

Definition isspace3 (a b c : nat) : bool :=
  ((a =? 225) && (b =? 154) && (c =? 128)) ||
  ((a =? 226) && (b =? 128) &&
   (((128 <=? c) && (c <=? 138)) || (c =? 168) || (c =? 169) || (c =? 175))) ||
  ((a =? 226) && (b =? 129) && (c =? 159)) ||
  ((a =? 227) && (b =? 128) && (c =? 128)).

(** [s] is one white-space character. *)
Definition isspace (s : string) : bool :=
  match map nat_of_ascii (list_ascii_of_string s) with
  | [a] => isspace1 a
  | [a; b] => isspace2 a b
  | [a; b; c] => isspace3 a b c
  | _ => false
  end.

Fixpoint lstrip (s : string) : string :=
  match s with
  | String a r =>
      if isspace (String a EmptyString) then lstrip r
      else
        match r with
        | String b r2 =>
            if isspace (String a (String b EmptyString)) then lstrip r2
            else
              match r2 with
              | String c r3 =>
                  if isspace (String a (String b (String c EmptyString)))
                  then lstrip r3 else s
              | EmptyString => s
              end
        | EmptyString => s
        end
  | EmptyString => EmptyString
  end.

(** What is left of the tail is put back behind its first byte; a
    character that then stands alone and is white space goes too. *)
Fixpoint rstrip (s : string) : string :=
  match s with
  | String a r =>
      let t := String a (rstrip r) in
      if isspace t then EmptyString else t
  | EmptyString => EmptyString
  end.

Definition strip (s : string) : string := rstrip (lstrip s).

(** Decimal text of a natural number, left-padded with zeros to [width]
    characters: the "%02d"-style fields of [strftime]. *)
Fixpoint zfill (pad : nat) (s : string) : string :=
  match pad with
  | O => s
  | S pad' => zfill pad' (String "0" s)
  end.

Definition decimal (width n : nat) : string :=
  let s := NilZero.string_of_uint (Nat.to_uint n) in
  zfill (width - String.length s) s.

(** [datetime.now(timezone.utc)]: a reading of the wall clock. *)
Record datetime : Type := {
  year : nat; month : nat; day : nat;
  hour : nat; minute : nat; second : nat
}.

(** [dt.strftime("%Y-%m-%dT%H:%M:%SZ")]. *)
Definition strftime (dt : datetime) : string :=
  (decimal 4 (year dt) ++ "-" ++ decimal 2 (month dt) ++ "-" ++
   decimal 2 (day dt) ++ "T" ++ decimal 2 (hour dt) ++ ":" ++
   decimal 2 (minute dt) ++ ":" ++ decimal 2 (second dt) ++ "Z")%string.

End Py.
Import Py.

(** A decimal literal as Python reads it: [lit 1235 4] is [0.1235]. *)
Definition lit (k : Z) (n : nat) : float :=
  of_decimal (k <? 0)%Z (Z.abs k) n.

(** ** Configuration *)

Definition MQTT_BROKER : string := "localhost".
Definition MQTT_PORT : nat := 1883.
Definition MQTT_TOPIC : string := "vpp/telemetry/main_bus".
Definition ASSET_ID : string := "mumbai_campus_node_01".
Definition PUBLISH_INTERVAL : nat := 2.
(** 50.0 = 7036874417766400 * 2^-47. *)
Definition NOMINAL_FREQ_HZ : float := S754_finite false 7036874417766400 (-47).

(** COL_MAP: internal key -> CSV column name. *)
Inductive key : Type :=
  | timestamp | voltage | current | power_cons | react_power
  | power_factor | solar | wind | grid_supply | v_fluct.

Definition COL_MAP (k : key) : string :=
  match k with
  | timestamp => "Timestamp"
  | voltage => "Voltage (V)"
  | current => "Current (A)"
  | power_cons => "Power Consumption (kW)"
  | react_power => "Reactive Power (kVAR)"
  | power_factor => "Power Factor"
  | solar => "Solar Power (kW)"
  | wind => "Wind Power (kW)"
  | grid_supply => "Grid Supply (kW)"
  | v_fluct => "Voltage Fluctuation (%)"
  end.

(** The keys in the order [COL_MAP.items()] yields them. *)
Definition COL_MAP_keys : list key :=
  [timestamp; voltage; current; power_cons; react_power;
   power_factor; solar; wind; grid_supply; v_fluct].

(** ** Row store *)

(** A cell of a row as pandas holds it after [read_csv]. The program only
    asks three things of a cell: [pd.notna], [float()] and [str()].
    - [CNum f text]: a numeric scalar (numpy float64, int64 or bool) whose
      [float()] is [f] and whose [str()] is [text]; NaN marks a missing
      value;
    - [CStr s num]: a text cell; [num] is what [float(s)] yields, [None]
      when it raises ValueError. *)
Inductive cell : Type :=
  | CNum (f : float) (text : string)
  | CStr (s : string) (num : option float).

(** A row ([pd.Series]): labelled cells in column order; labels can repeat
    once the column names are stripped. *)
Definition Row : Type := list (string * cell).

(** What [row[col]] evaluates to: a scalar, or a sub-series when the label
    occurs more than once. *)
Inductive value : Type :=
  | Scalar (c : cell)
  | SubSeries (cs : list cell).

Definition getitem (row : Row) (col : string) : result value :=
  match filter (fun kv => String.eqb (fst kv) col) row with
  | [] => Raise KeyError
  | [(_, c)] => Ok (Scalar c)
  | kvs => Ok (SubSeries (map snd kvs))
  end.

(** [pd.notna(val)] used as a condition: the truth value of the boolean
    series obtained from a sub-series is ambiguous (ValueError). *)
Definition notna (val : value) : result bool :=
  match val with
  | Scalar (CNum f _) => Ok (negb (isnan f))
  | Scalar (CStr _ _) => Ok true
  | SubSeries _ => Raise ValueError
  end.

(** [float(val)]. *)
Definition to_float (val : value) : result float :=
  match val with
  | Scalar (CNum f _) => Ok f
  | Scalar (CStr _ (Some f)) => Ok f
  | Scalar (CStr _ None) => Raise ValueError
  | SubSeries _ => Raise TypeError
  end.

(** [str(c)] of a scalar. *)
Definition to_str (c : cell) : string :=
  match c with
  | CNum _ text => text
  | CStr s _ => s
  end.

Record DataFrame : Type := {
  columns : list string;
  records : list (list cell)
}.

(** [len(_df)]. *)
Definition len (df : DataFrame) : nat := List.length (records df).

(** [_df.iloc[idx]] for [idx >= 0]. *)
Definition iloc (df : DataFrame) (idx : nat) : result Row :=
  match nth_error (records df) idx with
  | Some rec => Ok (combine (columns df) rec)
  | None => Raise IndexError
  end.

(** ** Field extractors *)

Definition zero : float := S754_zero false.

Definition _safe_float (row : Row) (col : string) (default : float)
    : result float :=
  try_except
    (val <- getitem row col ;;
     present <- notna val ;;
     if present then (f <- to_float val ;; Ok (round f 6)) else Ok default)
    (fun e => match e with
              | KeyError | ValueError | TypeError => true
              | _ => false
              end)
    (fun _ => Ok default).

Definition _safe_str (row : Row) (col : string) (default : string)
    : result string :=
  try_except
    (val <- getitem row col ;;
     present <- notna val ;;
     match val with
     | Scalar c => if present then Ok (to_str c) else Ok default
     | SubSeries _ => Ok default  (* not reached: [notna] has raised *)
     end)
    (fun e => match e with
              | KeyError | ValueError => true
              | _ => false
              end)
    (fun _ => Ok default).

(** ** Payload builder *)

Record Header : Type := {
  asset_id : string;
  header_timestamp : string;
  status : string
}.

Record GridState : Type := {
  voltage_v : float;
  current_a : float;
  frequency_hz : float;
  grid_power_factor : float;
  voltage_fluctuation : float
}.

Record EnergyFlow : Type := {
  load_kw : float;
  solar_gen_kw : float;
  wind_gen_kw : float;
  grid_supply_kw : float;
  reactive_power_kvar : float
}.

Record Payload : Type := {
  header : Header;
  grid_state : GridState;
  energy_flow : EnergyFlow
}.

(** [build_payload(row)]; [now] is the reading of the UTC clock the call
    takes when the row has no usable timestamp. *)
Definition build_payload (now : datetime) (row : Row) : result Payload :=
  ts_raw <- _safe_str row (COL_MAP timestamp) "" ;;
  let timestamp :=
    match ts_raw with
    | EmptyString => strftime now
    | _ => ts_raw
    end in
  voltage <- _safe_float row (COL_MAP voltage) zero ;;
  current_a <- _safe_float row (COL_MAP current) zero ;;
  power_cons <- _safe_float row (COL_MAP power_cons) zero ;;
  react_pwr <- _safe_float row (COL_MAP react_power) zero ;;
  pwr_factor <- _safe_float row (COL_MAP power_factor) zero ;;
  solar <- _safe_float row (COL_MAP solar) zero ;;
  wind <- _safe_float row (COL_MAP wind) zero ;;
  grid_supply <- _safe_float row (COL_MAP grid_supply) zero ;;
  v_fluct <- _safe_float row (COL_MAP v_fluct) zero ;;
  Ok {| header := {| asset_id := ASSET_ID;
                     header_timestamp := timestamp;
                     status := "online" |};
        grid_state := {| voltage_v := round voltage 4;
                         current_a := round current_a 4;
                         frequency_hz := NOMINAL_FREQ_HZ;
                         grid_power_factor := round pwr_factor 6;
                         voltage_fluctuation := round v_fluct 6 |};
        energy_flow := {| load_kw := round power_cons 4;
                          solar_gen_kw := round solar 4;
                          wind_gen_kw := round wind 4;
                          grid_supply_kw := round grid_supply 4;
                          reactive_power_kvar := round react_pwr 4 |} |}.

(** ** Shared state, guarded by [_state_lock] *)

Record State : Type := {
  last_payload : option Payload;
  row_index : nat;
  total_rows : nat;
  mqtt_connected : bool;
  publish_count : nat;
  last_error : option string
}.

Definition _state : State :=
  {| last_payload := None; row_index := 0; total_rows := 0;
     mqtt_connected := false; publish_count := 0; last_error := None |}.

Definition set_last_payload (v : option Payload) (st : State) : State :=
  {| last_payload := v; row_index := row_index st;
     total_rows := total_rows st; mqtt_connected := mqtt_connected st;
     publish_count := publish_count st; last_error := last_error st |}.

Definition set_row_index (v : nat) (st : State) : State :=
  {| last_payload := last_payload st; row_index := v;
     total_rows := total_rows st; mqtt_connected := mqtt_connected st;
     publish_count := publish_count st; last_error := last_error st |}.

Definition set_total_rows (v : nat) (st : State) : State :=
  {| last_payload := last_payload st; row_index := row_index st;
     total_rows := v; mqtt_connected := mqtt_connected st;
     publish_count := publish_count st; last_error := last_error st |}.

Definition set_mqtt_connected (v : bool) (st : State) : State :=
  {| last_payload := last_payload st; row_index := row_index st;
     total_rows := total_rows st; mqtt_connected := v;
     publish_count := publish_count st; last_error := last_error st |}.

Definition set_publish_count (v : nat) (st : State) : State :=
  {| last_payload := last_payload st; row_index := row_index st;
     total_rows := total_rows st; mqtt_connected := mqtt_connected st;
     publish_count := v; last_error := last_error st |}.

Definition set_last_error (v : option string) (st : State) : State :=
  {| last_payload := last_payload st; row_index := row_index st;
     total_rows := total_rows st; mqtt_connected := mqtt_connected st;
     publish_count := publish_count st; last_error := v |}.

(** ** What the program does to the outside: log records and calls *)

Inductive level : Type := INFO | WARNING | ERROR.

Inductive message : Type :=
  | LoadingCsv
  | ColumnNotFound (col : string)
  | CsvLoaded (rows cols : nat)
  | MqttConnected
  | ConnectFailed (reason : string)
  | MqttDisconnected (reason : string)
  | CannotReachBroker (exc : string)
  | ConnectingToBroker
  | PublisherStarted
  | PublishedRow (row total : nat)
  | PublishFailed (rc : Z) (row : nat)
  | NotConnectedSkipping (row : nat).

(** [Publish topic payload qos] is the call
    [mqtt_client.publish(topic, json.dumps(payload, indent=2), qos=qos)];
    the text sent is a function of [payload]. *)
Inductive event : Type :=
  | Log (lv : level) (msg : message)
  | ClientConnect (host : string) (port keepalive : nat)
  | LoopStart
  | Publish (topic : string) (payload : Payload) (qos : nat)
  | Sleep (seconds : nat)
  | ThreadStart.

(** ** Loading the CSV once at startup *)

(** The file at CSV_PATH as the reader parses it: absent, not tokenizable,
    or a table, that is the column labels the reader assigns from the
    header line and the data records, whose cells are aligned with the
    labels. The reader renames a header name that occurs again (X, X.1,
    X.2, ...), so the labels of a table are pairwise distinct. A file with
    nothing in it has no label. *)
Inductive csv_file : Type :=
  | FileMissing
  | FileGarbled
  | FileTable (header : list string) (recs : list (list cell)).

(** [pd.read_csv(CSV_PATH)]. *)
Definition read_csv (f : csv_file) : result DataFrame :=
  match f with
  | FileMissing => Raise FileNotFoundError
  | FileGarbled => Raise ParserError
  | FileTable [] _ => Raise EmptyDataError
  | FileTable header recs => Ok {| columns := header; records := recs |}
  end.

(** The module-level statements of app.py from [log.info("Loading CSV")]
    to [log.info("CSV loaded")]. *)
Definition load (f : csv_file) (st : State)
    : result (DataFrame * State) * list event :=
  match read_csv f with
  | Raise e => (Raise e, [Log INFO LoadingCsv])
  | Ok df0 =>
      let df := {| columns := map strip (columns df0);
                   records := records df0 |} in
      let warnings :=
        flat_map (fun k =>
                    if existsb (String.eqb (COL_MAP k)) (columns df) then []
                    else [Log WARNING (ColumnNotFound (COL_MAP k))])
                 COL_MAP_keys in
      (Ok (df, set_total_rows (len df) st),
       [Log INFO LoadingCsv] ++ warnings ++
       [Log INFO (CsvLoaded (len df) (List.length (columns df)))])
  end.

(** ** MQTT client callbacks *)

(** A paho reason code: its numeric value and its text. *)
Record reason_code : Type := { rc_value : Z; rc_text : string }.

Definition _on_connect (rc : reason_code) (st : State) : State * list event :=
  if (rc_value rc =? 0)%Z then
    (set_last_error None (set_mqtt_connected true st),
     [Log INFO MqttConnected])
  else
    (set_last_error (Some ("Connect failed: rc=" ++ rc_text rc)%string)
                    (set_mqtt_connected false st),
     [Log ERROR (ConnectFailed (rc_text rc))]).

Definition _on_disconnect (rc : reason_code) (st : State)
    : State * list event :=
  (set_mqtt_connected false st, [Log WARNING (MqttDisconnected (rc_text rc))]).

Definition _on_publish (st : State) : State * list event :=
  (set_publish_count (publish_count st + 1) st, []).

(** ** Initial blocking connect *)

(** How a loop that has no exit of its own stands after a bounded number
    of iterations. *)
Inductive outcome : Type :=
  | Returned
  | Propagated (e : exn)
  | StillLooping.

(** [_connect_mqtt()]. [broker n] is what the [n]-th call of
    [mqtt_client.connect] does; [fuel] bounds the iterations observed. *)
Fixpoint _connect_mqtt (fuel : nat) (broker : nat -> result unit)
    (attempt : nat) (st : State) : outcome * State * list event :=
  match fuel with
  | O => (StillLooping, st, [])
  | S fuel' =>
      let call := ClientConnect MQTT_BROKER MQTT_PORT 60 in
      match broker attempt with
      | Ok _ => (Returned, st, [call; LoopStart])
      | Raise exc =>
          if is_OSError exc then
            let st' := set_last_error (Some (exn_str exc)) st in
            let '(o, st'', evs) :=
              _connect_mqtt fuel' broker (S attempt) st' in
            (o, st'',
             call :: Log ERROR (CannotReachBroker (exn_str exc)) :: Sleep 5
                  :: evs)
          else (Propagated exc, st, [call])
      end
  end.

(** ** Background publisher thread *)

Definition MQTT_ERR_SUCCESS : Z := 0.

(** [a % b] on non-negative integers. *)
Definition py_mod (a b : nat) : result nat :=
  match b with
  | O => Raise ZeroDivisionError
  | _ => Ok (a mod b)
  end.

(** One pass through the body of [while True] in [publisher_thread]:
    [now] is the clock reading the payload builder may take and [rc] the
    code [mqtt_client.publish] returns if it is called. *)
Definition tick (df : DataFrame) (now : datetime) (rc : Z)
    (st : State) (idx : nat) : result (State * nat * list event) :=
  let total := len df in
  row <- iloc df idx ;;
  payload <- build_payload now row ;;
  let connected := mqtt_connected st in
  let io :=
    if connected then
      [Publish MQTT_TOPIC payload 1;
       if (rc =? MQTT_ERR_SUCCESS)%Z
       then Log INFO (PublishedRow (idx + 1) total)
       else Log WARNING (PublishFailed rc idx)]
    else [Log WARNING (NotConnectedSkipping idx)] in
  let st' := set_row_index (idx + 1) (set_last_payload (Some payload) st) in
  idx' <- py_mod (idx + 1) total ;;
  Ok (st', idx', io ++ [Sleep PUBLISH_INTERVAL]).

(** What the network thread does between two ticks. *)
Inductive net_event : Type :=
  | OnConnect (rc : reason_code)
  | OnDisconnect (rc : reason_code)
  | OnPublish.

Definition callback (ev : net_event) (st : State) : State * list event :=
  match ev with
  | OnConnect rc => _on_connect rc st
  | OnDisconnect rc => _on_disconnect rc st
  | OnPublish => _on_publish st
  end.

Fixpoint callbacks (evs : list net_event) (st : State) : State * list event :=
  match evs with
  | [] => (st, [])
  | ev :: rest =>
      let (st1, out1) := callback ev st in
      let (st2, out2) := callbacks rest st1 in
      (st2, out1 ++ out2)
  end.

(** The surroundings of one tick. *)
Record tick_env : Type := {
  before : list net_event;   (* callbacks delivered since the last tick *)
  now : datetime;
  publish_rc : Z
}.

(** [publisher_thread()] observed for as many ticks as [envs] is long,
    started with cursor [idx]. *)
Fixpoint replay (df : DataFrame) (envs : list tick_env) (st : State)
    (idx : nat) : result (State * nat * list event) :=
  match envs with
  | [] => Ok (st, idx, [])
  | env :: rest =>
      let (st0, out0) := callbacks (before env) st in
      r <- tick df (now env) (publish_rc env) st0 idx ;;
      let '(st1, idx1, out1) := r in
      r' <- replay df rest st1 idx1 ;;
      let '(st2, idx2, out2) := r' in
      Ok (st2, idx2, out0 ++ out1 ++ out2)
  end.

Definition publisher_thread (df : DataFrame) (envs : list tick_env)
    (st : State) : result (State * nat * list event) :=
  replay df envs st 0.

(** ** Entry point *)

Inductive phase : Type :=
  | Aborted (e : exn)
  | Connecting (st : State)
  | Serving (df : DataFrame) (st : State).

(** Import of the module followed by the [__main__] block, up to the start
    of the publisher thread. *)
Definition startup (f : csv_file) (fuel : nat) (broker : nat -> result unit)
    : phase * list event :=
  match load f _state with
  | (Raise e, out) => (Aborted e, out)
  | (Ok (df, st), out) =>
      let out := out ++ [Log INFO ConnectingToBroker] in
      match _connect_mqtt fuel broker 0 st with
      | (Returned, st', out') =>
          (Serving df st',
           out ++ out' ++ [ThreadStart; Log INFO PublisherStarted])
      | (Propagated e, _, out') => (Aborted e, out ++ out')
      | (StillLooping, st', out') => (Connecting st', out ++ out')
      end
  end.

(** ** The threads at the grain of single lock operations and accesses

    The publisher thread, the network thread that runs the callbacks and
    the request handlers of [/api/status] interleave; every [with
    _state_lock:] block is an acquire, the accesses in its body one by
    one, and a release. *)

Module Threads.

Inductive tid : Type := Publisher | Network | Handler (i : nat).

(** Program points of [publisher_thread]. *)
Inductive ppc : Type :=
  | AtFetch          (* row = _df.iloc[idx]; payload = build_payload(row) *)
  | AtLockRead       (* with _state_lock: *)
  | AtReadConnected  (*     connected = _state["mqtt_connected"] *)
  | AtUnlockRead
  | AtPublish        (* if connected: publish, log  else: log *)
  | AtLockWrite      (* with _state_lock: *)
  | AtWritePayload   (*     _state["last_payload"] = payload *)
  | AtWriteIndex     (*     _state["row_index"] = idx + 1 *)
  | AtUnlockWrite
  | AtAdvance        (* idx = (idx + 1) % total; time.sleep(...) *)
  | Dead (e : exn).  (* an exception ended the thread *)

Record publisher_t : Type := {
  p_pc : ppc;
  p_idx : nat;
  p_payload : option Payload;
  p_connected : bool;
  p_ticks : nat            (* iterations completed so far *)
}.

(** Program points of [api_status]: [Reading k] holds the lock and has
    copied the first [k] entries of [data]. *)
Inductive hpc : Type := Idle | Reading (k : nat) | Responding.

Record handler_t : Type := {
  h_pc : hpc;
  h_data : State;
  h_payload_tick : nat;    (* tick of the payload copied *)
  h_index_tick : nat       (* tick of the row index copied *)
}.

(** The assignments a callback makes inside its lock block. *)
Inductive write : Type :=
  | SetConnected (b : bool)
  | SetLastError (e : option string)
  | IncPublishCount.

Definition writes_of (ev : net_event) : list write :=
  match ev with
  | OnConnect rc =>
      if (rc_value rc =? 0)%Z then [SetConnected true; SetLastError None]
      else [SetConnected false;
            SetLastError (Some ("Connect failed: rc=" ++ rc_text rc)%string)]
  | OnDisconnect _ => [SetConnected false]
  | OnPublish => [IncPublishCount]
  end.

Definition log_of (ev : net_event) : list event :=
  match ev with
  | OnConnect rc =>
      if (rc_value rc =? 0)%Z then [Log INFO MqttConnected]
      else [Log ERROR (ConnectFailed (rc_text rc))]
  | OnDisconnect rc => [Log WARNING (MqttDisconnected (rc_text rc))]
  | OnPublish => []
  end.

Definition apply_write (w : write) (st : State) : State :=
  match w with
  | SetConnected b => set_mqtt_connected b st
  | SetLastError e => set_last_error e st
  | IncPublishCount => set_publish_count (publish_count st + 1) st
  end.

(** Program points of the network thread. *)
Inductive npc : Type :=
  | Waiting
  | Called (ws : list write)     (* callback entered, lock not yet taken *)
  | Writing (ws : list write).   (* lock held, [ws] still to do *)

Record config : Type := {
  shared : State;
  lock : option tid;
  pub : publisher_t;
  net : npc;
  handlers : nat -> handler_t;
  payload_tick : nat;      (* the tick that stored [last_payload] *)
  index_tick : nat         (* the tick that stored [row_index] *)
}.

Definition idle_handler : handler_t :=
  {| h_pc := Idle; h_data := _state; h_payload_tick := 0; h_index_tick := 0 |}.

(** The threads as they start, on the state the load left. *)
Definition init (st : State) : config :=
  {| shared := st; lock := None;
     pub := {| p_pc := AtFetch; p_idx := 0; p_payload := None;
               p_connected := false; p_ticks := 0 |};
     net := Waiting;
     handlers := fun _ => idle_handler;
     payload_tick := 0; index_tick := 0 |}.

Definition with_pub (p : publisher_t) (c : config) : config :=
  {| shared := shared c; lock := lock c; pub := p; net := net c;
     handlers := handlers c;
     payload_tick := payload_tick c; index_tick := index_tick c |}.

Definition with_lock (l : option tid) (c : config) : config :=
  {| shared := shared c; lock := l; pub := pub c; net := net c;
     handlers := handlers c;
     payload_tick := payload_tick c; index_tick := index_tick c |}.

Definition with_shared (st : State) (c : config) : config :=
  {| shared := st; lock := lock c; pub := pub c; net := net c;
     handlers := handlers c;
     payload_tick := payload_tick c; index_tick := index_tick c |}.

Definition with_net (n : npc) (c : config) : config :=
  {| shared := shared c; lock := lock c; pub := pub c; net := n;
     handlers := handlers c;
     payload_tick := payload_tick c; index_tick := index_tick c |}.

Definition with_handler (i : nat) (h : handler_t) (c : config) : config :=
  {| shared := shared c; lock := lock c; pub := pub c; net := net c;
     handlers := fun j => if j =? i then h else handlers c j;
     payload_tick := payload_tick c; index_tick := index_tick c |}.

Definition with_ticks (pt it : nat) (c : config) : config :=
  {| shared := shared c; lock := lock c; pub := pub c; net := net c;
     handlers := handlers c; payload_tick := pt; index_tick := it |}.

Definition at_pc (pc : ppc) (p : publisher_t) : publisher_t :=
  {| p_pc := pc; p_idx := p_idx p; p_payload := p_payload p;
     p_connected := p_connected p; p_ticks := p_ticks p |}.

(** [acquire()] succeeds only on a free lock; a thread that finds it taken
    has no step. *)
Definition acquire (t : tid) (c : config) : option config :=
  match lock c with
  | None => Some (with_lock (Some t) c)
  | Some _ => None
  end.

Definition release (c : config) : config := with_lock None c.

(** One step of the publisher thread. *)
Definition publisher_step (df : DataFrame) (now : datetime) (rc : Z)
    (c : config) : option (config * list event) :=
  let p := pub c in
  match p_pc p with
  | AtFetch =>
      match (row <- iloc df (p_idx p) ;; build_payload now row) with
      | Ok pl =>
          Some (with_pub {| p_pc := AtLockRead; p_idx := p_idx p;
                            p_payload := Some pl;
                            p_connected := p_connected p;
                            p_ticks := p_ticks p |} c, [])
      | Raise e => Some (with_pub (at_pc (Dead e) p) c, [])
      end
  | AtLockRead =>
      match acquire Publisher c with
      | Some c' => Some (with_pub (at_pc AtReadConnected p) c', [])
      | None => None
      end
  | AtReadConnected =>
      Some (with_pub {| p_pc := AtUnlockRead; p_idx := p_idx p;
                        p_payload := p_payload p;
                        p_connected := mqtt_connected (shared c);
                        p_ticks := p_ticks p |} c, [])
  | AtUnlockRead => Some (with_pub (at_pc AtPublish p) (release c), [])
  | AtPublish =>
      match p_payload p with
      | Some pl =>
          Some (with_pub (at_pc AtLockWrite p) c,
                if p_connected p then
                  [Publish MQTT_TOPIC pl 1;
                   if (rc =? MQTT_ERR_SUCCESS)%Z
                   then Log INFO (PublishedRow (p_idx p + 1) (len df))
                   else Log WARNING (PublishFailed rc (p_idx p))]
                else [Log WARNING (NotConnectedSkipping (p_idx p))])
      | None => None  (* not reached: the payload is built at AtFetch *)
      end
  | AtLockWrite =>
      match acquire Publisher c with
      | Some c' => Some (with_pub (at_pc AtWritePayload p) c', [])
      | None => None
      end
  | AtWritePayload =>
      Some (with_pub (at_pc AtWriteIndex p)
              (with_ticks (p_ticks p + 1) (index_tick c)
                 (with_shared (set_last_payload (p_payload p) (shared c)) c)),
            [])
  | AtWriteIndex =>
      Some (with_pub (at_pc AtUnlockWrite p)
              (with_ticks (payload_tick c) (p_ticks p + 1)
                 (with_shared (set_row_index (p_idx p + 1) (shared c)) c)),
            [])
  | AtUnlockWrite => Some (with_pub (at_pc AtAdvance p) (release c), [])
  | AtAdvance =>
      match py_mod (p_idx p + 1) (len df) with
      | Ok i =>
          Some (with_pub {| p_pc := AtFetch; p_idx := i;
                            p_payload := p_payload p;
                            p_connected := p_connected p;
                            p_ticks := p_ticks p + 1 |} c,
                [Sleep PUBLISH_INTERVAL])
      | Raise e => Some (with_pub (at_pc (Dead e) p) c, [])
      end
  | Dead _ => None
  end.

(** One step of the network thread; [ev] is the callback the client
    invokes when the thread is waiting. *)
Definition network_step (ev : net_event) (c : config)
    : option (config * list event) :=
  match net c with
  | Waiting => Some (with_net (Called (writes_of ev)) c, log_of ev)
  | Called ws =>
      match acquire Network c with
      | Some c' => Some (with_net (Writing ws) c', [])
      | None => None
      end
  | Writing (w :: ws) =>
      Some (with_net (Writing ws)
              (with_shared (apply_write w (shared c)) c), [])
  | Writing [] => Some (with_net Waiting (release c), [])
  end.

(** Copy entry [k] of the [data] dictionary of [api_status]. *)
Definition copy_entry (k : nat) (c : config) (h : handler_t) : handler_t :=
  let st := shared c in
  let d := h_data h in
  match k with
  | 0 => {| h_pc := Reading 1;
            h_data := set_last_payload (last_payload st) d;
            h_payload_tick := payload_tick c;
            h_index_tick := h_index_tick h |}
  | 1 => {| h_pc := Reading 2;
            h_data := set_row_index (row_index st) d;
            h_payload_tick := h_payload_tick h;
            h_index_tick := index_tick c |}
  | _ =>
      {| h_pc := Reading (S k);
         h_data :=
           match k with
           | 2 => set_total_rows (total_rows st) d
           | 3 => set_mqtt_connected (mqtt_connected st) d
           | 4 => set_publish_count (publish_count st) d
           | _ => set_last_error (last_error st) d
           end;
         h_payload_tick := h_payload_tick h;
         h_index_tick := h_index_tick h |}
  end.

(** One step of request handler [i]. *)
Definition handler_step (i : nat) (c : config)
    : option (config * list event) :=
  let h := handlers c i in
  match h_pc h with
  | Idle =>
      match acquire (Handler i) c with
      | Some c' =>
          Some (with_handler i {| h_pc := Reading 0; h_data := _state;
                                  h_payload_tick := 0;
                                  h_index_tick := 0 |} c', [])
      | None => None
      end
  | Reading k =>
      if k <? 6 then Some (with_handler i (copy_entry k c h) c, [])
      else
        Some (with_handler i {| h_pc := Responding; h_data := h_data h;
                                h_payload_tick := h_payload_tick h;
                                h_index_tick := h_index_tick h |}
                (release c), [])
  | Responding =>
      Some (with_handler i {| h_pc := Idle; h_data := h_data h;
                              h_payload_tick := h_payload_tick h;
                              h_index_tick := h_index_tick h |} c, [])
  end.

(** The scheduler's choice and what the surroundings supply with it. *)
Inductive action : Type :=
  | PublisherStep (now : datetime) (rc : Z)
  | NetworkStep (ev : net_event)
  | HandlerStep (i : nat).

Definition step (df : DataFrame) (a : action) (c : config)
    : option (config * list event) :=
  match a with
  | PublisherStep now rc => publisher_step df now rc c
  | NetworkStep ev => network_step ev c
  | HandlerStep i => handler_step i c
  end.

(** A schedule run from [c]; [None] when it asks a blocked thread to
    move. *)
Fixpoint run (df : DataFrame) (sched : list action) (c : config)
    : option (config * list event) :=
  match sched with
  | [] => Some (c, [])
  | a :: rest =>
      match step df a c with
      | Some (c1, out1) =>
          match run df rest c1 with
          | Some (c2, out2) => Some (c2, out1 ++ out2)
          | None => None
          end
      | None => None
      end
  end.

(** The configurations the threads can be in. *)
Inductive reachable (df : DataFrame) (st : State) : config -> Prop :=
  | reachable_init : reachable df st (init st)
  | reachable_step : forall c a c' out,
      reachable df st c -> step df a c = Some (c', out) ->
      reachable df st c'.

End Threads.

(** ** Notions the properties are stated with *)

(** The value an extractor hands back (the default stands in for an
    exception that escapes, which the lemmas below rule out). *)
Definition float_at (row : Row) (col : string) (default : float) : float :=
  match _safe_float row col default with
  | Ok v => v
  | Raise _ => default
  end.

Definition str_at (row : Row) (col : string) (default : string) : string :=
  match _safe_str row col default with
  | Ok s => s
  | Raise _ => default
  end.

(** The payload [build_payload] returns, written with the values the
    extractors give. *)
Definition built (now : datetime) (row : Row) : Payload :=
  let at4 k := round (float_at row (COL_MAP k) zero) 4 in
  let at6 k := round (float_at row (COL_MAP k) zero) 6 in
  {| header := {| asset_id := ASSET_ID;
                  header_timestamp :=
                    match str_at row (COL_MAP timestamp) "" with
                    | EmptyString => strftime now
                    | ts => ts
                    end;
                  status := "online" |};
     grid_state := {| voltage_v := at4 voltage;
                      current_a := at4 current;
                      frequency_hz := NOMINAL_FREQ_HZ;
                      grid_power_factor := at6 power_factor;
                      voltage_fluctuation := at6 v_fluct |};
     energy_flow := {| load_kw := at4 power_cons;
                       solar_gen_kw := at4 solar;
                       wind_gen_kw := at4 wind;
                       grid_supply_kw := at4 grid_supply;
                       reactive_power_kvar := at4 react_power |} |}.

(** [v] is the float nearest to a decimal with at most [n] digits after
    the point (or is not finite). *)
Definition on_grid (n : nat) (v : float) : Prop :=
  isfinite v = false \/ exists s k, (0 <= k)%Z /\ v = of_decimal s k n.


(** [v] is [x] rounded to [n] decimals. A finite [x] is
    [(-1)^s * m * 2^e] exactly; [k / 10^n] is a decimal with [n] digits
    that is at most half a unit of its last digit away from [m * 2^e],
    and [v] is the float nearest to [(-1)^s * k / 10^n]. The inequality is
    [|k / 10^n - m * 2^e| <= 10^-n / 2] cleared of its denominators.
    Zeros, infinities and NaN have no digits to round. *)
Definition nearest_decimal (n : nat) (x v : float) : Prop :=
  match x with
  | S754_finite s m e =>
      exists k : Z,
        (0 <= k)%Z /\ v = of_decimal s k n /\
        (2 * Z.abs (k * 2 ^ Z.max (- e) 0
                    - Zpos m * 2 ^ Z.max e 0 * 10 ^ Z.of_nat n)
         <= 2 ^ Z.max (- e) 0)%Z
  | _ => v = x
  end.

(** The number of decimals [build_payload] rounds each numeric entry to:
    the second argument of [round] where the payload is put together. *)
Definition decimals : list (key * nat) :=
  [(voltage, 4); (current, 4); (power_factor, 6); (v_fluct, 6);
   (power_cons, 4); (solar, 4); (wind, 4); (grid_supply, 4);
   (react_power, 4)].

(** The numeric payload entry filled from column [k]. *)
Definition entry (k : key) (p : Payload) : option float :=
  match k with
  | timestamp => None
  | voltage => Some (voltage_v (grid_state p))
  | current => Some (current_a (grid_state p))
  | power_factor => Some (grid_power_factor (grid_state p))
  | v_fluct => Some (voltage_fluctuation (grid_state p))
  | power_cons => Some (load_kw (energy_flow p))
  | solar => Some (solar_gen_kw (energy_flow p))
  | wind => Some (wind_gen_kw (energy_flow p))
  | grid_supply => Some (grid_supply_kw (energy_flow p))
  | react_power => Some (reactive_power_kvar (energy_flow p))
  end.

(** The columns whose payload entry is rounded to 4 decimals. *)
Definition four_decimal_keys : list key :=
  [voltage; current; power_cons; solar; wind; grid_supply; react_power].

(** A field the float extractor cannot use: the column is absent, the cell
    is a missing value (NaN), the cell is text that is not a number, or the
    label occurs more than once. *)
Inductive degraded (row : Row) (col : string) : Prop :=
  | field_absent :
      (forall c, ~ In (col, c) row) -> degraded row col
  | field_missing : forall text,
      getitem row col = Ok (Scalar (CNum S754_nan text)) -> degraded row col
  | field_not_numeric : forall s,
      getitem row col = Ok (Scalar (CStr s None)) -> degraded row col
  | field_repeated : forall cs,
      getitem row col = Ok (SubSeries cs) -> degraded row col.

(** A field the text extractor cannot use: absent, missing or repeated. *)
Inductive blank (row : Row) (col : string) : Prop :=
  | text_absent :
      (forall c, ~ In (col, c) row) -> blank row col
  | text_missing : forall text,
      getitem row col = Ok (Scalar (CNum S754_nan text)) -> blank row col
  | text_repeated : forall cs,
      getitem row col = Ok (SubSeries cs) -> blank row col.

(** A row that brings no timestamp of its own: the field is blank, or its
    text is empty. *)
Definition unstamped (row : Row) : Prop :=
  blank row (COL_MAP timestamp) \/
  exists c,
    getitem row (COL_MAP timestamp) = Ok (Scalar c) /\
    notna (Scalar c) = Ok true /\ to_str c = "".

(** What [datetime.now(timezone.utc)] can read: a date and a time of day,
    the year with four digits. *)
Definition clock_reading (dt : datetime) : Prop :=
  1000 <= year dt < 10 * 1000 /\ 1 <= month dt <= 12 /\ 1 <= day dt <= 31 /\
  hour dt < 24 /\ minute dt < 60 /\ second dt < 60.

(** The digits of a number below 100 and of one below 10000. *)
Definition digit (d : nat) : ascii := ascii_of_nat (48 + d).

Definition two_digits (n : nat) : string :=
  String (digit (n / 10)) (String (digit (n mod 10)) "").

Definition four_digits (n : nat) : string :=
  String (digit (n / 1000))
    (String (digit (n / 100 mod 10))
       (String (digit (n / 10 mod 10)) (String (digit (n mod 10)) ""))).

(** ** Sample data *)

Definition noon : datetime :=
  {| year := 2024; month := 3; day := 9;
     hour := 12; minute := 0; second := 0 |}.

Definition midnight : datetime :=
  {| year := 2024; month := 3; day := 10;
     hour := 0; minute := 0; second := 0 |}.

(** A complete row. *)
Definition sample_row : Row :=
  [("Timestamp", CStr "2024-01-01 00:00:00" None);
   ("Voltage (V)", CNum (lit 2301234567 7) "230.1234567");
   ("Current (A)", CNum (lit 125 1) "12.5");
   ("Power Consumption (kW)", CNum (lit 287654 5) "2.87654");
   ("Reactive Power (kVAR)", CNum (lit 4 1) "0.4");
   ("Power Factor", CNum (lit 12345678 8) "0.12345678");
   ("Solar Power (kW)", CNum (lit 1 0) "1.0");
   ("Wind Power (kW)", CNum (lit 0 0) "0.0");
   ("Grid Supply (kW)", CNum (lit 49999999 12) "4.9999999e-05");
   ("Voltage Fluctuation (%)", CNum (lit (-15) 1) "-1.5")].

(** A row with no timestamp and no voltage column, a missing current and a
    power factor that is not a number. *)
Definition sparse_row : Row :=
  [("Current (A)", CNum S754_nan "nan");
   ("Power Factor", CStr "n/a" None);
   ("Solar Power (kW)", CNum (lit 15 1) "1.5")].

(** A CSV file that has its header line and no data record. *)
Definition header_only : csv_file :=
  FileTable ["Timestamp"; "Voltage (V)"; "Current (A)"] [].

(** A broker that accepts the first connection. *)
Definition broker_up (n : nat) : result unit := Ok tt.

(** A broker that refuses twice and then accepts. *)
Definition broker_late (n : nat) : result unit :=
  if n <? 2 then Raise (OSError "[Errno 111] Connection refused") else Ok tt.

(** A broker that is never there. *)
Definition broker_down (n : nat) : result unit :=
  Raise (OSError "[Errno 111] Connection refused").

(** A dataset of three rows. *)
Definition three_rows : DataFrame :=
  {| columns := ["Timestamp"; "Voltage (V)"];
     records :=
       [[CStr "2024-01-01 00:00:00" None; CNum (lit 2301 1) "230.1"];
        [CStr "2024-01-01 00:00:02" None; CNum (lit 2302 1) "230.2"];
        [CStr "2024-01-01 00:00:04" None; CNum (lit 2303 1) "230.3"]] |}.

(** A tick during which nothing arrives from the network and a publish
    would succeed. *)
Definition quiet : tick_env :=
  {| before := []; now := noon; publish_rc := MQTT_ERR_SUCCESS |}.

(** The shared state once the broker has acknowledged the connection. *)
Definition online (df : DataFrame) : State :=
  set_mqtt_connected true (set_total_rows (len df) _state).

(** [row_index] after each of the first [n] ticks of a run. *)
Definition row_index_after (df : DataFrame) (envs : list tick_env)
    (st : State) (n : nat) : option nat :=
  match publisher_thread df (firstn n envs) st with
  | Ok (st', _, _) => Some (row_index st')
  | Raise _ => None
  end.

(** What the [n]-th failed connection attempt is logged as. *)
Definition refusal (broker : nat -> result unit) (n : nat) : string :=
  match broker n with
  | Raise e => exn_str e
  | Ok _ => ""
  end.

(** What [_connect_mqtt] does over [k] refused attempts starting with
    attempt [a]. *)
Definition retries (broker : nat -> result unit) (a k : nat) : list event :=
  flat_map (fun n => [ClientConnect MQTT_BROKER MQTT_PORT 60;
                      Log ERROR (CannotReachBroker (refusal broker n));
                      Sleep 5])
           (seq a k).

(** The state after [k] refused attempts starting with attempt [a]. *)
Definition after_refusals (broker : nat -> result unit) (a k : nat)
    (st : State) : State :=
  match k with
  | O => st
  | S j => set_last_error (Some (refusal broker (a + j))) st
  end.

Definition is_publish (ev : event) : bool :=
  match ev with Publish _ _ _ => true | _ => false end.

Definition is_log (ev : event) : bool :=
  match ev with Log _ _ => true | _ => false end.

(** ** What the threads keep invariant *)

Import Threads.

(** The pair ([pl], [index]) is what tick number [T] stored: nothing yet
    for [T = 0]; for the tick after [t] completed ones, the payload built
    from row [t mod L] and that row's position counted from 1. *)
Definition as_of_tick (df : DataFrame) (T : nat) (pl : option Payload)
    (index : nat) : Prop :=
  (T = 0 /\ pl = None /\ index = 0) \/
  (exists t now row p,
     T = t + 1 /\ index = t mod len df + 1 /\
     iloc df (t mod len df) = Ok row /\ build_payload now row = Ok p /\
     pl = Some p).

(** Program points of the publisher inside a lock block. *)
Definition holds_lock (pc : ppc) : bool :=
  match pc with
  | AtReadConnected | AtUnlockRead
  | AtWritePayload | AtWriteIndex | AtUnlockWrite => true
  | _ => false
  end.

(** Program points at which the publisher has its payload built. *)
Definition has_payload (pc : ppc) : bool :=
  match pc with
  | AtFetch | Dead _ => false
  | _ => true
  end.

(** How the tick stamps stand against the publisher's own count. *)
Definition stamps (df : DataFrame) (c : config) : Prop :=
  let p := pub c in
  let st := shared c in
  match p_pc p with
  | AtWriteIndex =>
      payload_tick c = p_ticks p + 1 /\ index_tick c = p_ticks p /\
      last_payload st = p_payload p
  | AtUnlockWrite | AtAdvance =>
      payload_tick c = p_ticks p + 1 /\ index_tick c = p_ticks p + 1 /\
      as_of_tick df (p_ticks p + 1) (last_payload st) (row_index st)
  | Dead _ =>
      payload_tick c = index_tick c /\
      as_of_tick df (payload_tick c) (last_payload st) (row_index st)
  | _ =>
      payload_tick c = p_ticks p /\ index_tick c = p_ticks p /\
      as_of_tick df (p_ticks p) (last_payload st) (row_index st)
  end.

(** What a handler has in hand. *)
Definition handler_ok (df : DataFrame) (c : config) (h : handler_t) : Prop :=
  match h_pc h with
  | Idle => True
  | Reading k =>
      (1 <= k -> h_payload_tick h = payload_tick c /\
                 last_payload (h_data h) = last_payload (shared c)) /\
      (2 <= k -> h_index_tick h = index_tick c /\
                 row_index (h_data h) = row_index (shared c))
  | Responding =>
      h_payload_tick h = h_index_tick h /\
      as_of_tick df (h_payload_tick h)
        (last_payload (h_data h)) (row_index (h_data h))
  end.

Record invariant (df : DataFrame) (c : config) : Prop := {
  inv_pub_lock :
    holds_lock (p_pc (pub c)) = true -> lock c = Some Publisher;
  inv_net_lock :
    forall ws, net c = Writing ws -> lock c = Some Network;
  inv_handler_lock :
    forall i k, h_pc (handlers c i) = Reading k -> lock c = Some (Handler i);
  inv_cursor :
    match p_pc (pub c) with
    | Dead _ => True
    | _ => p_idx (pub c) = p_ticks (pub c) mod len df
    end;
  inv_payload :
    has_payload (p_pc (pub c)) = true ->
    exists now row p,
      iloc df (p_idx (pub c)) = Ok row /\ build_payload now row = Ok p /\
      p_payload (pub c) = Some p;
  inv_stamps : stamps df c;
  inv_handlers : forall i, handler_ok df c (handlers c i)
}.

(** One tick of the publisher with nobody else moving. *)
Definition alone (now : datetime) (rc : Z) : list action :=
  repeat (PublisherStep now rc) 10.

(** A schedule on the three-row dataset: the publisher replays row 0,
    handler 0 takes its snapshot, the publisher stores the payload of row
    1 and is about to store the index, and handler 1 is still waiting for
    the lock. *)
Definition sample_schedule : list action :=
  alone noon 0%Z ++
  repeat (HandlerStep 0) 8 ++
  repeat (PublisherStep midnight 0%Z) 7.

(** Where [sample_schedule] leaves the threads. *)
Definition sample_config : config :=
  match run three_rows sample_schedule (init (online three_rows)) with
  | Some (c, _) => c
  | None => init (online three_rows)
  end.

(** ** Notions for the further properties *)

Definition is_sleep (ev : event) : bool :=
  match ev with Sleep _ => true | _ => false end.

Definition is_ack (ev : net_event) : bool :=
  match ev with OnPublish => true | _ => false end.

(** The status shows no error while it shows connected. *)
Definition link_ok (st : State) : Prop :=
  mqtt_connected st = true -> last_error st = None.

(** The warning [load] logs for a column it does not find. *)
Definition column_warning (k : key) : event :=
  Log WARNING (ColumnNotFound (COL_MAP k)).

(** What the payload holds in the place filled from column [k] when the
    extractor fell back to its default. *)
Definition defaulted (k : key) (now : datetime) (p : Payload) : Prop :=
  match entry k p with
  | Some v => v = zero
  | None => header_timestamp (header p) = strftime now
  end.

(** A CSV file in which two header names differ only by a leading blank:
    both columns hold voltages. *)
Definition padded_twin : csv_file :=
  FileTable ["Timestamp"; "Voltage (V)"; " Voltage (V)"]
    [[CStr "2024-01-01 00:00:00" None;
      CNum (lit 2301 1) "230.1"; CNum (lit 2310 1) "231.0"]].

(** U+00A0, the no-break space, in UTF-8. *)
Definition nbsp : string :=
  String (ascii_of_nat 194) (String (ascii_of_nat 160) EmptyString).

(** A CSV file whose voltage column has a no-break space behind its name
    and which has no column for the current. *)
Definition nbsp_columns : csv_file :=
  FileTable ["Timestamp"; ("Voltage (V)" ++ nbsp)%string]
    [[CStr "2024-01-01 00:00:00" None; CNum (lit 2301 1) "230.1"]].

(** A CSV file with a timestamp and a voltage column only. *)
Definition two_columns : csv_file :=
  FileTable ["Timestamp"; " Voltage (V) "]
    [[CStr "2024-01-01 00:00:00" None; CNum (lit 2301 1) "230.1"]].

(** The thread an action moves. *)
Definition actor (a : action) : tid :=
  match a with
  | PublisherStep _ _ => Publisher
  | NetworkStep _ => Network
  | HandlerStep i => Handler i
  end.

(** Thread [t] is inside one of its lock blocks. *)
Definition inside (t : tid) (c : config) : Prop :=
  match t with
  | Publisher => holds_lock (p_pc (pub c)) = true
  | Network => exists ws, net c = Writing ws
  | Handler i => exists k, h_pc (handlers c i) = Reading k
  end.

(** The first [k] entries of the copy [d] are those of [st]. *)
Definition copied (k : nat) (d st : State) : Prop :=
  (1 <= k -> last_payload d = last_payload st) /\
  (2 <= k -> row_index d = row_index st) /\
  (3 <= k -> total_rows d = total_rows st) /\
  (4 <= k -> mqtt_connected d = mqtt_connected st) /\
  (5 <= k -> publish_count d = publish_count st) /\
  (6 <= k -> last_error d = last_error st).

(** The assignments [ws] done one after the other. *)
Definition apply_writes (ws : list write) (st : State) : State :=
  fold_left (fun s w => apply_write w s) ws st.

(** Two states that agree on the connection fields. *)
Definition same_link (a b : State) : Prop :=
  mqtt_connected a = mqtt_connected b /\ last_error a = last_error b.

(** Where the network thread stands with respect to [link_ok]. *)
Definition link_pending (c : config) : Prop :=
  match net c with
  | Waiting => link_ok (shared c)
  | Called ws =>
      link_ok (shared c) /\ link_ok (apply_writes ws (shared c)) /\
      List.length ws <= 2
  | Writing ws =>
      link_ok (apply_writes ws (shared c)) /\ List.length ws <= 2
  end.

(** What the threads keep besides [invariant], started on [st0]. *)
Record discipline (df : DataFrame) (st0 : State) (c : config) : Prop := {
  d_pub :
    lock c = Some Publisher -> holds_lock (p_pc (pub c)) = true;
  d_net :
    lock c = Some Network -> exists ws, net c = Writing ws;
  d_hand :
    forall i, lock c = Some (Handler i) ->
              exists k, h_pc (handlers c i) = Reading k;
  d_copy :
    forall i k, h_pc (handlers c i) = Reading k ->
                k <= 6 /\ copied k (h_data (handlers c i)) (shared c);
  d_served :
    forall i, h_pc (handlers c i) = Responding ->
              exists c0, reachable df st0 c0 /\
                         lock c0 = Some (Handler i) /\
                         h_data (handlers c i) = shared c0;
  d_link : link_ok st0 -> link_pending c;
  d_rows : total_rows (shared c) = total_rows st0;
  d_alive :
    1 <= len df ->
    p_idx (pub c) < len df /\
    (forall e, p_pc (pub c) <> Dead e) /\
    (has_payload (p_pc (pub c)) = true -> p_payload (pub c) <> None)
}.

(** What a step of each thread leaves alone. *)
Definition frame (a : action) (c c' : config) : Prop :=
  match a with
  | PublisherStep _ _ =>
      mqtt_connected (shared c') = mqtt_connected (shared c) /\
      publish_count (shared c') = publish_count (shared c) /\
      last_error (shared c') = last_error (shared c) /\
      net c' = net c /\ handlers c' = handlers c
  | NetworkStep _ =>
      last_payload (shared c') = last_payload (shared c) /\
      row_index (shared c') = row_index (shared c) /\
      pub c' = pub c /\ handlers c' = handlers c
  | HandlerStep i =>
      shared c' = shared c /\ pub c' = pub c /\ net c' = net c /\
      forall j, j <> i -> handlers c' j = handlers c j
  end.

(** The assignments the network thread still has to make are at most the
    two of a callback. *)
Definition net_short (c : config) : Prop :=
  match net c with
  | Waiting => True
  | Called ws | Writing ws => List.length ws <= 2
  end.

(** The steps of the network thread through one callback. *)
Definition callback_steps (ev : net_event) : list action :=
  repeat (NetworkStep ev) (3 + List.length (writes_of ev)).

(** The schedule that plays a sequential run: per tick, the callbacks
    delivered before it one after the other, then the publisher's
    iteration. *)
Definition schedule_of (envs : list tick_env) : list action :=
  flat_map (fun env =>
              flat_map callback_steps (before env) ++
              alone (now env) (publish_rc env))
           envs.

(** Two callbacks and one tick on the three-row dataset, starting
    disconnected. *)
Definition connect_then_tick : list tick_env :=
  [{| before := [OnConnect {| rc_value := 0; rc_text := "Success" |};
                 OnPublish];
      now := noon; publish_rc := MQTT_ERR_SUCCESS |};
   quiet].

(** The threads on the three-row dataset when the publisher, connected, is
    about to publish row 0. *)
Definition ready_config : config :=
  match run three_rows (repeat (PublisherStep noon 0%Z) 4)
          (init (online three_rows)) with
  | Some (c, _) => c
  | None => init (online three_rows)
  end.

(** A dataset with a header and no rows, and where the threads stand on it
    after the publisher, a request handler and the network thread each
    took a step. *)
Definition no_rows : DataFrame :=
  {| columns := ["Timestamp"]; records := [] |}.

Definition stalled_config : config :=
  match run no_rows
          [PublisherStep noon 0%Z; HandlerStep 0; NetworkStep OnPublish]
          (init _state) with
  | Some (c, _) => c
  | None => init _state
  end.

(** The threads on the three-row dataset after four quiet ticks. *)
Definition after_four_ticks : config :=
  match run three_rows (schedule_of (repeat quiet 4))
          (init (online three_rows)) with
  | Some (c, _) => c
  | None => init (online three_rows)
  end.
(** * Properties *)

(** Membership in a list that computes. *)
Ltac in_list := vm_compute; repeat (first [left; reflexivity | right]).

(** ** The extractors never raise *)

Lemma getitem_raises (row : Row) (col : string) (e : exn) :
  getitem row col = Raise e -> e = KeyError.
Proof.
  unfold getitem.
  destruct (filter _ row) as [|[k c] [|kv kvs]]; intros H;
    inversion H; reflexivity.
Qed.

Lemma _safe_float_ok (row : Row) (col : string) (default : float) :
  _safe_float row col default = Ok (float_at row col default).
Proof.
  unfold float_at, _safe_float, try_except, bind.
  destruct (getitem row col) as [[[f t|s [f|]]|cs]|e] eqn:Hget;
    simpl; try reflexivity.
  - destruct (isnan f); reflexivity.
  - apply getitem_raises in Hget. subst e. reflexivity.
Qed.

Lemma _safe_str_ok (row : Row) (col : string) (default : string) :
  _safe_str row col default = Ok (str_at row col default).
Proof.
  unfold str_at, _safe_str, try_except, bind.
  destruct (getitem row col) as [[[f t|s n]|cs]|e] eqn:Hget;
    simpl; try reflexivity.
  - destruct (isnan f); reflexivity.
  - apply getitem_raises in Hget. subst e. reflexivity.
Qed.

Lemma build_payload_ok (now : datetime) (row : Row) :
  build_payload now row = Ok (built now row).
Proof.
  unfold build_payload.
  rewrite _safe_str_ok. cbn [bind].
  repeat (rewrite _safe_float_ok; cbn [bind]).
  unfold built.
  destruct (str_at row (COL_MAP timestamp) ""); reflexivity.
Qed.

Lemma getitem_absent (row : Row) (col : string) :
  (forall c, ~ In (col, c) row) -> getitem row col = Raise KeyError.
Proof.
  intros Habs. unfold getitem.
  replace (filter (fun kv => String.eqb (fst kv) col) row) with (@nil (string * cell));
    [reflexivity|].
  symmetry. induction row as [|[k c] row IH]; [reflexivity|].
  simpl. destruct (String.eqb_spec k col) as [->|Hne].
  - exfalso. apply (Habs c). left. reflexivity.
  - apply IH. intros c' Hin. apply (Habs c'). right. exact Hin.
Qed.

(** ** Rounding *)

Lemma half_even_nonneg (p q : Z) :
  (0 <= p)%Z -> (0 < q)%Z -> (0 <= half_even p q)%Z.
Proof.
  intros Hp Hq. unfold half_even.
  pose proof (Z.div_eucl_eq p q ltac:(lia)) as Heq.
  pose proof (Z.mod_pos_bound p q Hq) as Hr.
  pose proof (Z.div_pos p q Hp Hq) as Hd.
  unfold Z.modulo, Z.div in *.
  destruct (Z.div_eucl p q) as [d r]. cbn [fst snd] in *.
  destruct (2 * r ?= q)%Z; [destruct (Z.even d)| |]; lia.
Qed.

Lemma round_on_grid (x : float) (n : nat) : n <= NDIGITS_MAX -> on_grid n (round x n).
Proof.
  intros Hn. destruct x as [s|s| |s m e]; cbn [round].
  - right. exists s, 0%Z. split; [lia|reflexivity].
  - left. reflexivity.
  - left. reflexivity.
  - destruct (Nat.ltb_spec NDIGITS_MAX n) as [Hlt|_]; [lia|].
    right. eexists s, _. split; [|reflexivity].
    apply half_even_nonneg.
    + apply Z.mul_nonneg_nonneg; [apply Z.mul_nonneg_nonneg; [lia|]|];
        apply Z.pow_nonneg; lia.
    + apply Z.pow_pos_nonneg; lia.
Qed.

(** ** The payload builder *)

(** C10. Whatever the row, the payload names the configured asset
    ("mumbai_campus_node_01"), has status "online", and carries the
    nominal frequency 50.0 itself as frequency_hz: the constant goes into
    the payload as it is, no [round] is applied to it. *)
Theorem constant_header_and_frequency (now : datetime) (row : Row) :
  exists p,
    build_payload now row = Ok p /\
    asset_id (header p) = ASSET_ID /\
    ASSET_ID = "mumbai_campus_node_01" /\
    status (header p) = "online" /\
    frequency_hz (grid_state p) = NOMINAL_FREQ_HZ /\
    NOMINAL_FREQ_HZ = lit 50 0.
Proof.
  exists (built now row). rewrite build_payload_ok.
  repeat split; vm_compute; reflexivity.
Qed.

(** The two tiers differ in effect: on the sample row the power factor
    keeps six decimals (0.123457) and rounding it to four would change
    it. *)
Example six_decimals_kept :
  exists p,
    build_payload noon sample_row = Ok p /\
    grid_power_factor (grid_state p) = lit 123457 6 /\
    round (grid_power_factor (grid_state p)) 4 <> grid_power_factor (grid_state p) /\
    voltage_v (grid_state p) = lit 2301235 4.
Proof.
  eexists. split; [vm_compute; reflexivity|].
  vm_compute. repeat split. discriminate.
Qed.

Lemma degraded_default (row : Row) (col : string) (default : float) :
  degraded row col -> _safe_float row col default = Ok default.
Proof.
  intros [Habs|text Hget|s Hget|cs Hget]; unfold _safe_float.
  - rewrite (getitem_absent _ _ Habs). reflexivity.
  - rewrite Hget. reflexivity.
  - rewrite Hget. reflexivity.
  - rewrite Hget. reflexivity.
Qed.

Lemma blank_default (row : Row) (col : string) (default : string) :
  blank row col -> _safe_str row col default = Ok default.
Proof.
  intros [Habs|text Hget|cs Hget]; unfold _safe_str.
  - rewrite (getitem_absent _ _ Habs). reflexivity.
  - rewrite Hget. reflexivity.
  - rewrite Hget. reflexivity.
Qed.

(** C7. The extractors and the builder return for every row, column and
    default (they never raise). When a field is absent from the row, holds
    a missing value or (for the float extractor) text that is not a
    number, the extractor returns the caller's default; so a row without
    a usable "Voltage (V)" field gives a payload with voltage_v = 0.0. *)
Theorem extraction_degrades_to_default
    (now : datetime) (row : Row) (col : string) (d : float) (ds : string) :
  (exists v, _safe_float row col d = Ok v) /\
  (exists s, _safe_str row col ds = Ok s) /\
  (exists p, build_payload now row = Ok p) /\
  (degraded row col -> _safe_float row col d = Ok d) /\
  (blank row col -> _safe_str row col ds = Ok ds) /\
  (degraded row "Voltage (V)" ->
   exists p, build_payload now row = Ok p /\ voltage_v (grid_state p) = zero).
Proof.
  split; [eexists; apply _safe_float_ok|].
  split; [eexists; apply _safe_str_ok|].
  split; [eexists; apply build_payload_ok|].
  split; [apply degraded_default|].
  split; [apply blank_default|].
  intros Hdeg. exists (built now row). split; [apply build_payload_ok|].
  cbn [built grid_state voltage_v]. unfold float_at.
  change (COL_MAP voltage) with "Voltage (V)".
  rewrite (degraded_default _ _ zero Hdeg). reflexivity.
Qed.

Lemma sparse_row_degraded :
  degraded sparse_row "Voltage (V)" /\ degraded sparse_row "Current (A)" /\
  degraded sparse_row "Power Factor" /\ blank sparse_row "Timestamp".
Proof.
  repeat split.
  - apply field_absent. intros c [H|[H|[H|[]]]]; discriminate H.
  - eapply field_missing. reflexivity.
  - eapply field_not_numeric. reflexivity.
  - apply text_absent. intros c [H|[H|[H|[]]]]; discriminate H.
Qed.

Lemma extraction_degrades_to_default_witness :
  degraded sparse_row "Voltage (V)" /\
  _safe_float sparse_row "Current (A)" (lit 15 1) = Ok (lit 15 1) /\
  _safe_str sparse_row "Timestamp" "none" = Ok "none" /\
  exists p, build_payload noon sparse_row = Ok p /\
            voltage_v (grid_state p) = zero.
Proof.
  pose proof sparse_row_degraded as [Hv [Hc [_ Ht]]].
  split; [exact Hv|].
  split; [apply (extraction_degrades_to_default noon sparse_row "Current (A)"
                   (lit 15 1) ""); exact Hc|].
  split; [apply (extraction_degrades_to_default noon sparse_row "Timestamp"
                   zero "none"); exact Ht|].
  apply (extraction_degrades_to_default noon sparse_row "Voltage (V)" zero "");
    exact Hv.
Defined.

Lemma present_float (row : Row) (col : string) (default : float)
    (val : value) (raw : float) :
  getitem row col = Ok val -> notna val = Ok true -> to_float val = Ok raw ->
  float_at row col default = round raw 6.
Proof.
  intros Hget Hna Hfl. unfold float_at, _safe_float.
  rewrite Hget. cbn [bind]. rewrite Hna. cbn [bind]. rewrite Hfl. reflexivity.
Qed.

(** ** Rounding to the two precisions *)

Lemma half_even_close (p q : Z) :
  (0 <= p)%Z -> (0 < q)%Z -> (2 * Z.abs (half_even p q * q - p) <= q)%Z.
Proof.
  intros Hp Hq. unfold half_even.
  pose proof (Z.div_eucl_eq p q ltac:(lia)) as Heq.
  pose proof (Z.mod_pos_bound p q Hq) as Hr.
  unfold Z.modulo, Z.div in *.
  destruct (Z.div_eucl p q) as [d r]. cbn [fst snd] in *.
  destruct (Z.compare_spec (2 * r) q) as [Hc|Hc|Hc];
    [destruct (Z.even d)| |]; lia.
Qed.

Lemma round_nearest (x : float) (n : nat) :
  n <= NDIGITS_MAX -> nearest_decimal n x (round x n).
Proof.
  intros Hn. destruct x as [s|s| |s m e]; cbn [round nearest_decimal];
    try reflexivity.
  destruct (Nat.ltb_spec NDIGITS_MAX n) as [Hlt|_]; [lia|].
  assert (Hq : (0 < 2 ^ Z.max (- e) 0)%Z) by (apply Z.pow_pos_nonneg; lia).
  assert (Hp : (0 <= Z.pos m * 10 ^ Z.of_nat n * 2 ^ Z.max e 0)%Z).
  { apply Z.mul_nonneg_nonneg; [apply Z.mul_nonneg_nonneg; [lia|]|];
      apply Z.pow_nonneg; lia. }
  eexists. split; [apply half_even_nonneg; [exact Hp|exact Hq]|].
  split; [reflexivity|].
  pose proof (half_even_close _ _ Hp Hq) as Hclose.
  replace (Z.pos m * 2 ^ Z.max e 0 * 10 ^ Z.of_nat n)%Z
    with (Z.pos m * 10 ^ Z.of_nat n * 2 ^ Z.max e 0)%Z by ring.
  exact Hclose.
Qed.

Lemma decimals_small (k : key) (n : nat) :
  In (k, n) decimals -> n <= NDIGITS_MAX.
Proof.
  unfold decimals, NDIGITS_MAX. cbn [In]. intros Hin.
  repeat (destruct Hin as [Hin|Hin]; [injection Hin as _ <-; lia|]).
  destruct Hin.
Qed.

Lemma entry_built (now : datetime) (row : Row) (k : key) (n : nat) :
  In (k, n) decimals ->
  entry k (built now row) = Some (round (float_at row (COL_MAP k) zero) n).
Proof.
  unfold decimals. cbn [In]. intros Hin.
  repeat (destruct Hin as [Hin|Hin]; [injection Hin as <- <-; reflexivity|]).
  destruct Hin.
Qed.

(** C4. In every payload each numeric entry is the row's value rounded,
    to 6 decimals for power_factor and voltage_fluctuation and to 4 for
    voltage_v, current_a and the five entries of energy_flow
    (grid_supply_kw among them). For a cell that is present and converts
    to the float [raw], the extractor hands on [x], the float of the
    6-digit decimal nearest to [raw], and the entry is the float of the
    decimal with that entry's number of digits nearest to [x]; a field the
    extractor cannot use gives 0.0. A value of 0.12345678 thus appears as
    0.123457 in a 6-decimal entry and as 0.1235 in a 4-decimal one. *)
Theorem rounding_two_tier (now : datetime) (row : Row) :
  exists p,
    build_payload now row = Ok p /\
    (forall k n val raw,
       In (k, n) decimals ->
       getitem row (COL_MAP k) = Ok val ->
       notna val = Ok true -> to_float val = Ok raw ->
       exists x v,
         _safe_float row (COL_MAP k) zero = Ok x /\
         nearest_decimal 6 raw x /\ nearest_decimal n x v /\
         entry k p = Some v) /\
    (forall k n,
       In (k, n) decimals -> degraded row (COL_MAP k) ->
       entry k p = Some zero) /\
    (forall k n,
       In (k, n) decimals -> exists v, entry k p = Some v /\ on_grid n v) /\
    (let raw := lit 12345678 8 in
     round (round raw 6) 6 = lit 123457 6 /\
     round (round raw 6) 4 = lit 1235 4).
Proof.
  exists (built now row). split; [apply build_payload_ok|].
  split; [|split; [|split]].
  - intros k n val raw Hin Hget Hna Hfl.
    exists (round raw 6), (round (round raw 6) n).
    split; [rewrite _safe_float_ok;
            rewrite (present_float row (COL_MAP k) zero val raw Hget Hna Hfl);
            reflexivity|].
    split; [apply round_nearest; unfold NDIGITS_MAX; lia|].
    split; [apply round_nearest; exact (decimals_small k n Hin)|].
    rewrite (entry_built now row k n Hin).
    rewrite (present_float row (COL_MAP k) zero val raw Hget Hna Hfl).
    reflexivity.
  - intros k n Hin Hdeg.
    rewrite (entry_built now row k n Hin). unfold float_at.
    rewrite (degraded_default _ _ zero Hdeg). reflexivity.
  - intros k n Hin. eexists. split; [apply (entry_built now row k n Hin)|].
    apply round_on_grid. exact (decimals_small k n Hin).
  - vm_compute. split; reflexivity.
Qed.

Lemma rounding_two_tier_witness :
  exists p x v,
    build_payload noon sample_row = Ok p /\
    _safe_float sample_row "Power Factor" zero = Ok x /\
    nearest_decimal 6 (lit 12345678 8) x /\ nearest_decimal 6 x v /\
    entry power_factor p = Some v /\
    entry voltage (built noon sparse_row) = Some zero.
Proof.
  destruct (rounding_two_tier noon sample_row) as [p [Hb [Hpres _]]].
  destruct (Hpres power_factor 6
              (Scalar (CNum (lit 12345678 8) "0.12345678")) (lit 12345678 8))
    as [x [v [Hs [Hx [Hv He]]]]].
  - in_list.
  - vm_compute. reflexivity.
  - reflexivity.
  - reflexivity.
  - exists p, x, v. split; [exact Hb|]. split; [exact Hs|].
    split; [exact Hx|].
    split; [exact Hv|]. split; [exact He|].
    destruct (rounding_two_tier noon sparse_row) as [q [Hq [_ [Hdeg _]]]].
    rewrite build_payload_ok in Hq. injection Hq as <-.
    apply (Hdeg voltage 4); [in_list|].
    exact (proj1 sparse_row_degraded).
Defined.

(** C9. A cell that is present and converts to the float [raw] is rounded
    to 6 decimals by the extractor and then to 4 by the builder: each
    4-decimal payload entry is round(round(raw, 6), 4). That is not always
    round(raw, 4): for raw = 0.000049999999 the first gives 0.0001 and the
    second 0.0. *)
Theorem four_decimal_entries_rounded_twice :
  (forall now row p k val raw,
     build_payload now row = Ok p ->
     In k four_decimal_keys ->
     getitem row (COL_MAP k) = Ok val ->
     notna val = Ok true ->
     to_float val = Ok raw ->
     entry k p = Some (round (round raw 6) 4)) /\
  (let raw := lit 49999999 12 in
   round (round raw 6) 4 = lit 1 4 /\ round raw 4 = zero /\
   round (round raw 6) 4 <> round raw 4).
Proof.
  split.
  - intros now row p k val raw Hb Hk Hget Hna Hfl.
    rewrite build_payload_ok in Hb. injection Hb as <-.
    pose proof (present_float row (COL_MAP k) zero val raw Hget Hna Hfl) as Hat.
    cbn [four_decimal_keys In] in Hk.
    destruct Hk as [<-|[<-|[<-|[<-|[<-|[<-|[<-|[]]]]]]]];
      cbn [entry built grid_state energy_flow voltage_v current_a load_kw
           solar_gen_kw wind_gen_kw grid_supply_kw reactive_power_kvar];
      rewrite Hat; reflexivity.
  - vm_compute. repeat split. discriminate.
Qed.

Lemma four_decimal_entries_rounded_twice_witness :
  exists p,
    build_payload noon sample_row = Ok p /\
    entry grid_supply p = Some (round (round (lit 49999999 12) 6) 4) /\
    entry grid_supply p <> Some (round (lit 49999999 12) 4).
Proof.
  exists (built noon sample_row). split; [apply build_payload_ok|]. split.
  - apply (proj1 four_decimal_entries_rounded_twice noon sample_row _
             grid_supply (Scalar (CNum (lit 49999999 12) "4.9999999e-05"))).
    + apply build_payload_ok.
    + cbn. tauto.
    + vm_compute. reflexivity.
    + reflexivity.
    + reflexivity.
  - vm_compute. discriminate.
Defined.

(** ** The clock reading in the payload *)

Lemma decimal_two (n : nat) : n < 100 -> decimal 2 n = two_digits n.
Proof.
  intros Hn.
  assert (H : forallb (fun n => String.eqb (decimal 2 n) (two_digits n))
                      (seq 0 100) = true) by (vm_compute; reflexivity).
  rewrite forallb_forall in H. apply String.eqb_eq, H, in_seq. lia.
Qed.

Lemma decimal_four (n : nat) : n < 10 * 1000 -> decimal 4 n = four_digits n.
Proof.
  intros Hn.
  assert (H : forallb (fun n => String.eqb (decimal 4 n) (four_digits n))
                      (seq 0 (10 * 1000)) = true) by (vm_compute; reflexivity).
  rewrite forallb_forall in H. apply String.eqb_eq, H, in_seq. lia.
Qed.

Lemma digit_inj (a b : nat) : a < 10 -> b < 10 -> digit a = digit b -> a = b.
Proof.
  intros Ha Hb H. apply (f_equal nat_of_ascii) in H. unfold digit in H.
  rewrite !nat_ascii_embedding in H by lia. lia.
Qed.

Lemma String_inj (a b : ascii) (s t : string) :
  String a s = String b t -> a = b /\ s = t.
Proof. intros H. injection H as -> ->. split; reflexivity. Qed.

Lemma two_digits_inj (a b : nat) (s t : string) :
  a < 100 -> b < 100 ->
  (two_digits a ++ s)%string = (two_digits b ++ t)%string -> a = b /\ s = t.
Proof.
  intros Ha Hb H. unfold two_digits in H. cbn [append] in H.
  apply String_inj in H. destruct H as [H1 H].
  apply String_inj in H. destruct H as [H0 H].
  apply digit_inj in H1;
    [|apply Nat.Div0.div_lt_upper_bound; lia
     |apply Nat.Div0.div_lt_upper_bound; lia].
  apply digit_inj in H0; [|apply Nat.mod_upper_bound; lia
                          |apply Nat.mod_upper_bound; lia].
  split; [|exact H].
  rewrite (Nat.div_mod_eq a 10), (Nat.div_mod_eq b 10), H1, H0. reflexivity.
Qed.

Lemma four_digits_inj (a b : nat) (s t : string) :
  a < 10 * 1000 -> b < 10 * 1000 ->
  (four_digits a ++ s)%string = (four_digits b ++ t)%string -> a = b /\ s = t.
Proof.
  intros Ha Hb H. unfold four_digits in H. cbn [append] in H.
  apply String_inj in H. destruct H as [H3 H].
  apply String_inj in H. destruct H as [H2 H].
  apply String_inj in H. destruct H as [H1 H].
  apply String_inj in H. destruct H as [H0 H].
  apply digit_inj in H3;
    [|apply Nat.Div0.div_lt_upper_bound; lia
     |apply Nat.Div0.div_lt_upper_bound; lia].
  apply digit_inj in H2; [|apply Nat.mod_upper_bound; lia
                          |apply Nat.mod_upper_bound; lia].
  apply digit_inj in H1; [|apply Nat.mod_upper_bound; lia
                          |apply Nat.mod_upper_bound; lia].
  apply digit_inj in H0; [|apply Nat.mod_upper_bound; lia
                          |apply Nat.mod_upper_bound; lia].
  split; [|exact H].
  pose proof (Nat.div_mod_eq a 10) as Ea0.
  pose proof (Nat.div_mod_eq (a / 10) 10) as Ea1.
  pose proof (Nat.div_mod_eq (a / 10 / 10) 10) as Ea2.
  pose proof (Nat.div_mod_eq b 10) as Eb0.
  pose proof (Nat.div_mod_eq (b / 10) 10) as Eb1.
  pose proof (Nat.div_mod_eq (b / 10 / 10) 10) as Eb2.
  rewrite !Nat.Div0.div_div in *.
  change (10 * 10) with 100 in *. change (100 * 10) with 1000 in *.
  lia.
Qed.

(** The text of a clock reading determines the reading. *)
Lemma strftime_inj (t1 t2 : datetime) :
  clock_reading t1 -> clock_reading t2 -> strftime t1 = strftime t2 -> t1 = t2.
Proof.
  destruct t1 as [y1 mo1 d1 h1 mi1 s1], t2 as [y2 mo2 d2 h2 mi2 s2].
  unfold clock_reading, strftime.
  cbn [year month day hour minute second].
  intros [Hy1 [Hmo1 [Hd1 [Hh1 [Hmi1 Hs1]]]]] [Hy2 [Hmo2 [Hd2 [Hh2 [Hmi2 Hs2]]]]] H.
  rewrite !decimal_four in H by lia. rewrite !decimal_two in H by lia.
  apply four_digits_inj in H; [|lia|lia]. destruct H as [-> H].
  apply String_inj in H. destruct H as [_ H].
  apply two_digits_inj in H; [|lia|lia]. destruct H as [-> H].
  apply String_inj in H. destruct H as [_ H].
  apply two_digits_inj in H; [|lia|lia]. destruct H as [-> H].
  apply String_inj in H. destruct H as [_ H].
  apply two_digits_inj in H; [|lia|lia]. destruct H as [-> H].
  apply String_inj in H. destruct H as [_ H].
  apply two_digits_inj in H; [|lia|lia]. destruct H as [-> H].
  apply String_inj in H. destruct H as [_ H].
  apply two_digits_inj in H; [|lia|lia]. destruct H as [-> _].
  reflexivity.
Qed.

Lemma unstamped_str (row : Row) :
  unstamped row -> _safe_str row (COL_MAP timestamp) "" = Ok "".
Proof.
  intros [Hb|[c [Hget [Hna Hs]]]].
  - apply blank_default. exact Hb.
  - unfold _safe_str. rewrite Hget. cbn [bind]. rewrite Hna. cbn [bind].
    rewrite Hs. reflexivity.
Qed.

Lemma unstamped_built (now : datetime) (row : Row) :
  unstamped row -> header_timestamp (header (built now row)) = strftime now.
Proof.
  intros Hu. cbn [built header header_timestamp]. unfold str_at.
  rewrite (unstamped_str row Hu). reflexivity.
Qed.

(** C3, as the code has it. The builder touches nothing but its result,
    and two calls on the same row agree on everything except possibly
    header.timestamp: they agree on that too when the row carries a
    non-empty timestamp, or when the two clock readings print alike. For a
    row that brings no timestamp (the field is absent, missing, repeated
    or empty) header.timestamp is the clock reading of the call, printed
    as YYYY-MM-DDTHH:MM:SSZ, so that two calls whose readings differ, be
    it by a second, give payloads that differ in it. *)
Theorem build_payload_deterministic_up_to_clock
    (row : Row) (t1 t2 : datetime) :
  (exists p1 p2,
     build_payload t1 row = Ok p1 /\ build_payload t2 row = Ok p2 /\
     grid_state p1 = grid_state p2 /\ energy_flow p1 = energy_flow p2 /\
     asset_id (header p1) = asset_id (header p2) /\
     status (header p1) = status (header p2)) /\
  (forall ts, _safe_str row (COL_MAP timestamp) "" = Ok ts -> ts <> "" ->
     build_payload t1 row = build_payload t2 row) /\
  (strftime t1 = strftime t2 ->
     build_payload t1 row = build_payload t2 row) /\
  (unstamped row ->
   exists p1 p2,
     build_payload t1 row = Ok p1 /\ build_payload t2 row = Ok p2 /\
     header_timestamp (header p1) = strftime t1 /\
     header_timestamp (header p2) = strftime t2 /\
     (clock_reading t1 -> clock_reading t2 -> t1 <> t2 ->
      header_timestamp (header p1) <> header_timestamp (header p2) /\
      build_payload t1 row <> build_payload t2 row)) /\
  (clock_reading t1 ->
   String.length (strftime t1) = 20 /\
   strftime t1 =
     (four_digits (year t1) ++ "-" ++ two_digits (month t1) ++ "-" ++
      two_digits (day t1) ++ "T" ++ two_digits (hour t1) ++ ":" ++
      two_digits (minute t1) ++ ":" ++ two_digits (second t1) ++ "Z")%string).
Proof.
  split; [|split; [|split; [|split]]].
  - exists (built t1 row), (built t2 row).
    rewrite !build_payload_ok. repeat split.
  - intros ts Hts Hne. rewrite !build_payload_ok. f_equal.
    unfold built. unfold str_at. rewrite Hts.
    destruct ts; [contradiction Hne; reflexivity|reflexivity].
  - intros Heq. rewrite !build_payload_ok. unfold built. rewrite Heq.
    reflexivity.
  - intros Hu. exists (built t1 row), (built t2 row).
    rewrite !build_payload_ok.
    split; [reflexivity|]. split; [reflexivity|].
    pose proof (unstamped_built t1 row Hu) as Hs1.
    pose proof (unstamped_built t2 row Hu) as Hs2.
    split; [exact Hs1|]. split; [exact Hs2|].
    intros Hc1 Hc2 Hne.
    assert (Hs : strftime t1 <> strftime t2).
    { intros Heq. apply Hne. exact (strftime_inj t1 t2 Hc1 Hc2 Heq). }
    split; [rewrite Hs1, Hs2; exact Hs|].
    intros Heq. apply Hs. rewrite <- Hs1, <- Hs2.
    apply (f_equal (fun r => match r with
                             | Ok p => header_timestamp (header p)
                             | Raise _ => EmptyString
                             end)) in Heq.
    exact Heq.
  - intros [Hy [Hmo [Hd [Hh [Hmi Hs]]]]].
    assert (Heq : strftime t1 =
      (four_digits (year t1) ++ "-" ++ two_digits (month t1) ++ "-" ++
       two_digits (day t1) ++ "T" ++ two_digits (hour t1) ++ ":" ++
       two_digits (minute t1) ++ ":" ++ two_digits (second t1) ++ "Z")%string).
    { unfold strftime. rewrite decimal_four by lia.
      rewrite !decimal_two by lia. reflexivity. }
    split; [|exact Heq]. rewrite Heq. reflexivity.
Qed.

Lemma build_payload_deterministic_up_to_clock_witness :
  (_safe_str sample_row (COL_MAP timestamp) "" = Ok "2024-01-01 00:00:00" /\
   build_payload noon sample_row = build_payload midnight sample_row) /\
  (unstamped sparse_row /\ clock_reading noon /\ clock_reading midnight /\
   exists p1 p2,
     build_payload noon sparse_row = Ok p1 /\
     build_payload midnight sparse_row = Ok p2 /\
     header_timestamp (header p1) = "2024-03-09T12:00:00Z" /\
     header_timestamp (header p1) <> header_timestamp (header p2)).
Proof.
  assert (Hu : unstamped sparse_row)
    by (left; exact (proj2 (proj2 (proj2 sparse_row_degraded)))).
  assert (Hn : clock_reading noon) by (unfold clock_reading; cbn; lia).
  assert (Hm : clock_reading midnight) by (unfold clock_reading; cbn; lia).
  split.
  - split; [reflexivity|].
    apply (proj1 (proj2 (build_payload_deterministic_up_to_clock
                           sample_row noon midnight))
             "2024-01-01 00:00:00").
    + reflexivity.
    + discriminate.
  - split; [exact Hu|]. split; [exact Hn|]. split; [exact Hm|].
    destruct (proj1 (proj2 (proj2 (proj2
                (build_payload_deterministic_up_to_clock
                   sparse_row noon midnight)))) Hu)
      as [p1 [p2 [H1 [H2 [Hs1 [_ Hd]]]]]].
    exists p1, p2. split; [exact H1|]. split; [exact H2|].
    split; [rewrite Hs1; vm_compute; reflexivity|].
    apply Hd; [exact Hn|exact Hm|discriminate].
Defined.

(** C3 as stated fails: the same row, with no timestamp of its own, built
    at noon and at midnight gives two different payloads. *)
Lemma build_payload_reads_the_clock :
  build_payload noon sparse_row <> build_payload midnight sparse_row.
Proof. vm_compute. discriminate. Qed.

(** ** Loading the dataset *)

(** C2, as the code has it. Loading raises, and the import of the module
    ends there (no connection is attempted, no publisher thread is
    started), exactly when the file is missing, cannot be tokenized or has
    no header; a file with a header loads, and the dataset length and
    total_rows are the number of its data records, whatever that number
    is. *)
Theorem load_fails_or_counts_records
    (f : csv_file) (fuel : nat) (broker : nat -> result unit) :
  match f with
  | FileTable (h :: hs) recs =>
      exists df st out,
        load f _state = (Ok (df, st), out) /\
        len df = List.length recs /\ total_rows st = List.length recs
  | _ =>
      exists e out,
        load f _state = (Raise e, out) /\
        startup f fuel broker = (Aborted e, out) /\
        ~ In ThreadStart out /\ ~ In LoopStart out
  end.
Proof.
  destruct f as [| |[|h hs] recs].
  - exists FileNotFoundError, [Log INFO LoadingCsv].
    repeat split; intros [H|[]]; discriminate H.
  - exists ParserError, [Log INFO LoadingCsv].
    repeat split; intros [H|[]]; discriminate H.
  - exists EmptyDataError, [Log INFO LoadingCsv].
    repeat split; intros [H|[]]; discriminate H.
  - unfold load. cbn [read_csv].
    eexists _, _, _. split; [reflexivity|]. split; reflexivity.
Qed.

(** C2 as stated fails: a file with a header and no data record loads, the
    dataset has length 0, and with a broker that answers the publisher
    thread is started on it (where its first row access raises). *)
Lemma header_only_file_loads_empty :
  exists df st out,
    load header_only _state = (Ok (df, st), out) /\
    len df = 0 /\ total_rows st = 0 /\ ~ 1 <= len df /\
    (exists st' out', startup header_only 1 broker_up = (Serving df st', out')
                      /\ In ThreadStart out') /\
    publisher_thread df [quiet] st = Raise IndexError.
Proof.
  eexists _, _, _. split; [reflexivity|].
  split; [reflexivity|]. split; [reflexivity|].
  split; [cbn; lia|]. split.
  - eexists _, _. split; [reflexivity|]. in_list.
  - reflexivity.
Qed.

(** ** The initial blocking connect *)

Lemma refused_attempt (broker : nat -> result unit) (n : nat) :
  (forall m e, broker m = Raise e -> is_OSError e = true) ->
  broker n <> Ok tt ->
  exists e, broker n = Raise e /\ is_OSError e = true.
Proof.
  intros Hos Hn. destruct (broker n) as [[]|e] eqn:Hb.
  - contradiction Hn. reflexivity.
  - exists e. split; [reflexivity|]. exact (Hos n e Hb).
Qed.

Lemma after_refusals_step (broker : nat -> result unit) (a k : nat)
    (st : State) :
  after_refusals broker (S a) k
    (set_last_error (Some (refusal broker a)) st) =
  after_refusals broker a (S k) st.
Proof.
  destruct k as [|j]; cbn [after_refusals].
  - rewrite Nat.add_0_r. reflexivity.
  - rewrite Nat.add_succ_r. reflexivity.
Qed.

(** [k] refused attempts in a row: the loop logs, records and sleeps [k]
    times and goes on from attempt [a + k]. *)
Lemma connect_through_refusals (broker : nat -> result unit) (k : nat) :
  forall (a fuel : nat) (st : State),
    (forall n, a <= n < a + k ->
       exists e, broker n = Raise e /\ is_OSError e = true) ->
    _connect_mqtt (k + fuel) broker a st =
    let '(o, st', out) :=
      _connect_mqtt fuel broker (a + k) (after_refusals broker a k st) in
    (o, st', retries broker a k ++ out).
Proof.
  induction k as [|k IH]; intros a fuel st Href.
  - rewrite Nat.add_0_r. cbn [Nat.add after_refusals retries seq flat_map app].
    destruct (_connect_mqtt fuel broker a st) as [[o st'] out]. reflexivity.
  - destruct (Href a ltac:(lia)) as [e [Hb He]].
    cbn [Nat.add _connect_mqtt]. rewrite Hb, He.
    rewrite IH by (intros n Hn; apply Href; lia).
    replace (exn_str e) with (refusal broker a)
      by (unfold refusal; rewrite Hb; reflexivity).
    rewrite after_refusals_step, Nat.add_succ_r. cbn [Nat.add].
    destruct (_connect_mqtt fuel broker (S (a + k))
                (after_refusals broker a (S k) st)) as [[o st'] out].
    reflexivity.
Qed.

Lemma connect_never_propagates (broker : nat -> result unit) :
  (forall n e, broker n = Raise e -> is_OSError e = true) ->
  forall (fuel a : nat) (st : State) (e : exn),
    fst (fst (_connect_mqtt fuel broker a st)) <> Propagated e.
Proof.
  intros Hos fuel. induction fuel as [|fuel IH]; intros a st e.
  - discriminate.
  - cbn [_connect_mqtt]. destruct (broker a) as [u|exc] eqn:Hb.
    + discriminate.
    + rewrite (Hos a exc Hb).
      specialize (IH (S a) (set_last_error (Some (exn_str exc)) st) e).
      destruct (_connect_mqtt fuel broker (S a) _) as [[o st'] out].
      exact IH.
Qed.

Lemma connect_returned_accepted (broker : nat -> result unit) :
  forall (fuel a : nat) (st st' : State) (out : list event),
    _connect_mqtt fuel broker a st = (Returned, st', out) ->
    exists k, a <= k < a + fuel /\ broker k = Ok tt /\ In LoopStart out.
Proof.
  induction fuel as [|fuel IH]; intros a st st' out Hrun.
  - discriminate Hrun.
  - cbn [_connect_mqtt] in Hrun. destruct (broker a) as [[]|exc] eqn:Hb.
    + exists a. injection Hrun as _ <-.
      split; [lia|]. split; [exact Hb|]. right. left. reflexivity.
    + destruct (is_OSError exc); [|discriminate Hrun].
      destruct (_connect_mqtt fuel broker (S a) _) as [[o st1] out1] eqn:Hrec.
      injection Hrun as -> <- <-.
      destruct (IH _ _ _ _ Hrec) as [k [Hk [Hok Hin]]].
      exists k. split; [lia|]. split; [exact Hok|].
      right. right. right. exact Hin.
Qed.

(** C8. Let every failed [connect] raise a connection error (an OSError).
    Then [_connect_mqtt] never lets an exception out. As long as attempts
    are refused it keeps looping, and for each refusal it calls connect,
    logs, stores the error text in last_error and sleeps 5 seconds; at
    the first accepted attempt it starts the network loop and returns;
    and whenever it has returned, an attempt was accepted. *)
Theorem connect_blocks_until_accepted
    (broker : nat -> result unit) (st : State)
    (Hos : forall n e, broker n = Raise e -> is_OSError e = true) :
  (forall fuel e, fst (fst (_connect_mqtt fuel broker 0 st)) <> Propagated e) /\
  (forall fuel,
     (forall n, n < fuel -> broker n <> Ok tt) ->
     _connect_mqtt fuel broker 0 st =
     (StillLooping, after_refusals broker 0 fuel st, retries broker 0 fuel)) /\
  (forall k fuel,
     (forall n, n < k -> broker n <> Ok tt) -> broker k = Ok tt -> k < fuel ->
     _connect_mqtt fuel broker 0 st =
     (Returned, after_refusals broker 0 k st,
      retries broker 0 k ++
      [ClientConnect MQTT_BROKER MQTT_PORT 60; LoopStart])) /\
  (forall fuel st' out,
     _connect_mqtt fuel broker 0 st = (Returned, st', out) ->
     exists k, k < fuel /\ broker k = Ok tt /\ In LoopStart out).
Proof.
  split; [|split; [|split]].
  - intros fuel e. apply connect_never_propagates. exact Hos.
  - intros fuel Href.
    rewrite <- (Nat.add_0_r fuel) at 1.
    rewrite connect_through_refusals
      by (intros n Hn; apply refused_attempt; [exact Hos|apply Href; lia]).
    cbn [_connect_mqtt]. rewrite app_nil_r. reflexivity.
  - intros k fuel Href Hok Hlt.
    replace fuel with (k + S (fuel - S k)) by lia.
    rewrite connect_through_refusals
      by (intros n Hn; apply refused_attempt; [exact Hos|apply Href; lia]).
    cbn [_connect_mqtt Nat.add]. rewrite Hok. reflexivity.
  - intros fuel st' out Hrun.
    destruct (connect_returned_accepted _ _ _ _ _ _ Hrun) as [k [Hk H]].
    exists k. split; [lia|exact H].
Qed.

Lemma broker_late_refuses (n : nat) (e : exn) :
  broker_late n = Raise e -> is_OSError e = true.
Proof.
  unfold broker_late. destruct (n <? 2); intros H; inversion H. reflexivity.
Qed.

Lemma connect_blocks_until_accepted_witness :
  _connect_mqtt 5 broker_late 0 _state =
  (Returned,
   set_last_error (Some "[Errno 111] Connection refused") _state,
   [ClientConnect "localhost" 1883 60;
    Log ERROR (CannotReachBroker "[Errno 111] Connection refused"); Sleep 5;
    ClientConnect "localhost" 1883 60;
    Log ERROR (CannotReachBroker "[Errno 111] Connection refused"); Sleep 5;
    ClientConnect "localhost" 1883 60; LoopStart]).
Proof.
  refine (proj1 (proj2 (proj2
            (connect_blocks_until_accepted broker_late _state
               broker_late_refuses))) 2 5 _ _ _).
  - intros n Hn. unfold broker_late.
    destruct (Nat.ltb_spec n 2); [discriminate|lia].
  - reflexivity.
  - lia.
Defined.

(** ** The replay loop, tick by tick *)

Lemma iloc_in_range (df : DataFrame) (idx : nat) :
  idx < len df -> exists row, iloc df idx = Ok row.
Proof.
  intros Hlt. unfold iloc, len in *.
  destruct (nth_error (records df) idx) as [rec|] eqn:Hnth.
  - eexists. reflexivity.
  - apply nth_error_None in Hnth. lia.
Qed.

(** What [tick] logs and calls. *)
Lemma tick_in_range (df : DataFrame) (now : datetime) (rc : Z) (st : State)
    (idx : nat) (row : Row) :
  iloc df idx = Ok row ->
  tick df now rc st idx =
  Ok (set_row_index (idx + 1) (set_last_payload (Some (built now row)) st),
      (idx + 1) mod len df,
      (if mqtt_connected st then
         [Publish MQTT_TOPIC (built now row) 1;
          if (rc =? MQTT_ERR_SUCCESS)%Z
          then Log INFO (PublishedRow (idx + 1) (len df))
          else Log WARNING (PublishFailed rc idx)]
       else [Log WARNING (NotConnectedSkipping idx)])
      ++ [Sleep PUBLISH_INTERVAL]).
Proof.
  intros Hrow. unfold tick. rewrite Hrow. cbn [bind].
  rewrite build_payload_ok. cbn [bind].
  assert (Hlen : len df <> 0).
  { unfold iloc, len in *. destruct (records df); [|discriminate].
    destruct idx; discriminate Hrow. }
  unfold py_mod. destruct (len df); [contradiction Hlen; reflexivity|].
  reflexivity.
Qed.

(** C6. On a tick with the cursor inside the dataset: [publish] is called
    (once, with the payload built, at QoS 1) exactly when the shared state
    shows connected; connected or not, and whatever code the publish
    returns, the tick ends normally with last_payload and row_index
    updated and the cursor advanced; two ticks that differ only in the
    publish return code differ only in their log records. *)
Theorem tick_publishes_iff_connected
    (df : DataFrame) (now : datetime) (rc : Z) (st : State) (idx : nat)
    (Hidx : idx < len df) :
  exists st' out pl,
    tick df now rc st idx = Ok (st', (idx + 1) mod len df, out) /\
    (In (Publish MQTT_TOPIC pl 1) out <-> mqtt_connected st = true) /\
    List.length (filter is_publish out) =
      (if mqtt_connected st then 1 else 0) /\
    last_payload st' = Some pl /\ row_index st' = idx + 1 /\
    (exists row, iloc df idx = Ok row /\ build_payload now row = Ok pl) /\
    (forall rc', exists out',
       tick df now rc' st idx = Ok (st', (idx + 1) mod len df, out') /\
       filter (fun ev => negb (is_log ev)) out' =
       filter (fun ev => negb (is_log ev)) out) /\
    (forall b, exists st'' out'',
       tick df now rc (set_mqtt_connected b st) idx =
         Ok (st'', (idx + 1) mod len df, out'') /\
       last_payload st'' = Some pl /\ row_index st'' = idx + 1).
Proof.
  destruct (iloc_in_range df idx Hidx) as [row Hrow].
  eexists _, _, (built now row).
  split; [apply tick_in_range; exact Hrow|].
  split; [|split; [|split; [|split; [|split; [|split]]]]].
  - destruct (mqtt_connected st); split; intros H.
    + reflexivity.
    + left. reflexivity.
    + destruct H as [H|[H|[]]]; [discriminate H|discriminate H].
    + discriminate H.
  - destruct (mqtt_connected st); [|reflexivity].
    cbn. destruct (rc =? MQTT_ERR_SUCCESS)%Z; reflexivity.
  - reflexivity.
  - reflexivity.
  - exists row. split; [exact Hrow|apply build_payload_ok].
  - intros rc'. eexists. split; [apply tick_in_range; exact Hrow|].
    destruct (mqtt_connected st); [|reflexivity].
    cbn. destruct (rc =? MQTT_ERR_SUCCESS)%Z, (rc' =? MQTT_ERR_SUCCESS)%Z;
      reflexivity.
  - intros b. eexists _, _. split; [apply tick_in_range; exact Hrow|].
    split; reflexivity.
Qed.

Lemma tick_publishes_iff_connected_witness :
  exists st' out pl,
    tick three_rows noon 4%Z (online three_rows) 2 = Ok (st', 0, out) /\
    In (Publish MQTT_TOPIC pl 1) out /\
    last_payload st' = Some pl /\ row_index st' = 3.
Proof.
  destruct (tick_publishes_iff_connected three_rows noon 4%Z
              (online three_rows) 2 ltac:(cbn; lia))
    as [st' [out [pl [Hrun [Hpub [_ [Hpl [Hidx _]]]]]]]].
  exists st', out, pl. split; [exact Hrun|].
  split; [apply Hpub; reflexivity|]. split; [exact Hpl|exact Hidx].
Defined.

Lemma callbacks_keep_row_index (evs : list net_event) (st : State) :
  row_index (fst (callbacks evs st)) = row_index st.
Proof.
  revert st. induction evs as [|ev evs IH]; intros st; [reflexivity|].
  cbn [callbacks].
  destruct (callback ev st) as [st1 out1] eqn:Hcb.
  specialize (IH st1).
  destruct (callbacks evs st1) as [st2 out2]. cbn [fst] in *.
  rewrite IH.
  destruct ev as [rc|rc|]; cbn in Hcb.
  - unfold _on_connect in Hcb.
    destruct (rc_value rc =? 0)%Z; injection Hcb as <- _; reflexivity.
  - injection Hcb as <- _. reflexivity.
  - injection Hcb as <- _. reflexivity.
Qed.

(** The cursor and the row index after a run of ticks started with cursor
    [idx]. *)
Lemma replay_cursor (df : DataFrame) (envs : list tick_env) :
  forall (st : State) (idx : nat),
    idx < len df ->
    exists st' out,
      replay df envs st idx =
        Ok (st', (idx + List.length envs) mod len df, out) /\
      (envs <> [] ->
       row_index st' = (idx + List.length envs - 1) mod len df + 1).
Proof.
  induction envs as [|env rest IH]; intros st idx Hidx.
  - exists st, []. cbn [replay List.length]. rewrite Nat.add_0_r.
    rewrite Nat.mod_small by exact Hidx.
    split; [reflexivity|]. intros H. contradiction H. reflexivity.
  - cbn [replay].
    destruct (callbacks (before env) st) as [st0 out0].
    destruct (iloc_in_range df idx Hidx) as [row Hrow].
    rewrite (tick_in_range df (now env) (publish_rc env) st0 idx row Hrow).
    cbn [bind].
    assert (Hnext : (idx + 1) mod len df < len df)
      by (apply Nat.mod_upper_bound; lia).
    destruct (IH (set_row_index (idx + 1)
                    (set_last_payload (Some (built (now env) row)) st0))
                 ((idx + 1) mod len df) Hnext) as [st' [out [Hrun Hri]]].
    rewrite Hrun. cbn [bind]. eexists _, _. split.
    + f_equal. f_equal. f_equal. cbn [List.length].
      rewrite Nat.Div0.add_mod_idemp_l. f_equal. lia.
    + intros _. destruct rest as [|env' rest'].
      * cbn [replay] in Hrun. injection Hrun as <- _ _.
        cbn [List.length set_row_index row_index].
        replace (idx + 1 - 1) with idx by lia.
        rewrite Nat.mod_small by exact Hidx. reflexivity.
      * rewrite Hri by discriminate. cbn [List.length].
        replace ((idx + 1) mod len df + S (List.length rest') - 1)
          with ((idx + 1) mod len df + List.length rest') by lia.
        rewrite Nat.Div0.add_mod_idemp_l.
        f_equal. f_equal. lia.
Qed.

(** C1, as the code has it. On a dataset of L >= 1 rows, after N >= 1
    ticks (whatever the callbacks and publish results in between) the
    cursor is N mod L and the snapshot's row_index is the 1-based position
    of the row just replayed, ((N - 1) mod L) + 1: it equals N mod L unless
    L divides N, where it is L. *)
Theorem row_index_after_ticks
    (df : DataFrame) (envs : list tick_env) (st : State)
    (HL : 1 <= len df) (HN : 1 <= List.length envs) :
  let L := len df in
  let N := List.length envs in
  exists st' out,
    publisher_thread df envs st = Ok (st', N mod L, out) /\
    row_index st' = (N - 1) mod L + 1 /\
    (N mod L <> 0 -> row_index st' = N mod L) /\
    (N mod L = 0 -> row_index st' = L).
Proof.
  intros L N. unfold publisher_thread.
  destruct (replay_cursor df envs st 0 ltac:(lia)) as [st' [out [Hrun Hri]]].
  exists st', out. cbn [Nat.add] in Hrun, Hri. split; [exact Hrun|].
  assert (Hne : envs <> []) by (destruct envs; [cbn in HN; lia|discriminate]).
  specialize (Hri Hne). fold N L in Hri, Hrun.
  assert (HL' : 1 <= L) by exact HL.
  assert (HN' : 1 <= N) by exact HN.
  clearbody L N.
  split; [exact Hri|].
  assert (Hsucc : N mod L = ((N - 1) mod L + 1) mod L).
  { rewrite Nat.Div0.add_mod_idemp_l. f_equal. lia. }
  assert (Hb : (N - 1) mod L < L) by (apply Nat.mod_upper_bound; lia).
  rewrite Hri. clear Hri Hrun.
  destruct (Nat.eq_dec ((N - 1) mod L + 1) L) as [Heq|Hneq].
  - rewrite Heq, Nat.Div0.mod_same in Hsucc.
    split; intros Hm; [contradiction|exact Heq].
  - remember ((N - 1) mod L) as r eqn:Hr. clear Hr.
    assert (Hlt : r + 1 < L) by (clear Hsucc; lia).
    rewrite (Nat.mod_small _ _ Hlt) in Hsucc.
    remember (N mod L) as m eqn:Hm'. clear Hm'.
    split; intros Hm; lia.
Qed.

Lemma row_index_after_ticks_witness :
  exists st' out,
    publisher_thread three_rows (repeat quiet 7) (online three_rows) =
      Ok (st', 1, out) /\
    row_index st' = 1.
Proof.
  destruct (row_index_after_ticks three_rows (repeat quiet 7)
              (online three_rows) ltac:(cbn; lia) ltac:(cbn; lia))
    as [st' [out [Hrun [Hri _]]]].
  exists st', out. split; [exact Hrun|exact Hri].
Defined.

(** C1 as stated fails: on three rows the row index after 6 ticks is 3,
    not 6 mod 3 = 0, and over ten ticks it runs 1,2,3,1,2,3,... and never
    shows 0. *)
Lemma row_index_is_not_ticks_mod_length :
  row_index_after three_rows (repeat quiet 6) (online three_rows) 6 = Some 3 /\
  Some 3 <> Some (6 mod len three_rows) /\
  map (row_index_after three_rows (repeat quiet 10) (online three_rows))
      (seq 1 10)
  = map Some [1; 2; 3; 1; 2; 3; 1; 2; 3; 1] /\
  map (row_index_after three_rows (repeat quiet 10) (online three_rows))
      (seq 1 10)
  <> map Some [1; 2; 0; 1; 2; 0; 1; 2; 0; 1].
Proof.
  split; [vm_compute; reflexivity|].
  split; [vm_compute; discriminate|].
  split; [vm_compute; reflexivity|].
  vm_compute. discriminate.
Qed.

(** ** The threads under the lock *)

Lemma run_reachable (df : DataFrame) (st : State) (sched : list action) :
  forall c c' out,
    reachable df st c -> run df sched c = Some (c', out) ->
    reachable df st c'.
Proof.
  induction sched as [|a rest IH]; intros c c' out Hc Hrun.
  - injection Hrun as <- _. exact Hc.
  - cbn [run] in Hrun.
    destruct (step df a c) as [[c1 out1]|] eqn:Hstep; [|discriminate].
    destruct (run df rest c1) as [[c2 out2]|] eqn:Hrest; [|discriminate].
    injection Hrun as <- _.
    apply (IH c1 c2 out2); [|exact Hrest].
    exact (reachable_step df st c a c1 out1 Hc Hstep).
Qed.

Lemma run_cons (df : DataFrame) (a : action) (rest : list action)
    (c c1 : config) (out1 : list event) :
  step df a c = Some (c1, out1) ->
  run df (a :: rest) c =
  match run df rest c1 with
  | Some (c2, out2) => Some (c2, out1 ++ out2)
  | None => None
  end.
Proof. intros H. cbn [run]. rewrite H. reflexivity. Qed.

Ltac publisher_moves :=
  cbn [step]; unfold publisher_step, acquire, release;
  cbn [pub p_pc p_idx p_payload p_connected p_ticks
       shared lock net handlers payload_tick index_tick
       with_pub with_lock with_shared with_ticks at_pc].

(** From the point where the payload is built to the end of the
    iteration, with nobody else moving. *)
Lemma publisher_alone_after_fetch (df : DataFrame) (now : datetime) (rc : Z)
    (st : State) (idx : nat) (pl : Payload) (conn : bool) (ticks : nat)
    (n : npc) (hs : nat -> handler_t) (pt it : nat) (i : nat) :
  py_mod (idx + 1) (len df) = Ok i ->
  run df (repeat (PublisherStep now rc) 9)
    {| shared := st; lock := None;
       pub := {| p_pc := AtLockRead; p_idx := idx; p_payload := Some pl;
                 p_connected := conn; p_ticks := ticks |};
       net := n; handlers := hs; payload_tick := pt; index_tick := it |} =
  Some ({| shared := set_row_index (idx + 1)
                       (set_last_payload (Some pl) st);
           lock := None;
           pub := {| p_pc := AtFetch; p_idx := i; p_payload := Some pl;
                     p_connected := mqtt_connected st;
                     p_ticks := ticks + 1 |};
           net := n; handlers := hs;
           payload_tick := ticks + 1; index_tick := ticks + 1 |},
        (if mqtt_connected st then
           [Publish MQTT_TOPIC pl 1;
            if (rc =? MQTT_ERR_SUCCESS)%Z
            then Log INFO (PublishedRow (idx + 1) (len df))
            else Log WARNING (PublishFailed rc idx)]
         else [Log WARNING (NotConnectedSkipping idx)])
        ++ [Sleep PUBLISH_INTERVAL]).
Proof.
  intros Hmod. cbn [repeat].
  do 8 (erewrite run_cons by (publisher_moves; reflexivity)).
  erewrite run_cons by (publisher_moves; rewrite Hmod; reflexivity).
  cbn [run app]. reflexivity.
Qed.

(** The publisher running one iteration by itself does what [tick] says:
    the same shared state, cursor and outside effects. *)
Lemma publisher_alone_is_tick (df : DataFrame) (now : datetime) (rc : Z)
    (c : config) (st' : State) (idx' : nat) (out : list event) :
  p_pc (pub c) = AtFetch -> lock c = None ->
  tick df now rc (shared c) (p_idx (pub c)) = Ok (st', idx', out) ->
  exists c',
    run df (alone now rc) c = Some (c', out) /\
    shared c' = st' /\ p_idx (pub c') = idx' /\
    p_pc (pub c') = AtFetch /\ p_ticks (pub c') = p_ticks (pub c) + 1 /\
    lock c' = None.
Proof.
  destruct c as [st l [pc idx pl conn ticks] n hs pt it].
  cbn [pub p_pc lock shared p_idx p_ticks]. intros -> -> Htick.
  unfold tick in Htick.
  destruct (iloc df idx) as [row|e] eqn:Hrow; [|discriminate Htick].
  cbn [bind] in Htick.
  destruct (build_payload now row) as [p|e] eqn:Hp; [|discriminate Htick].
  cbn [bind] in Htick.
  destruct (py_mod (idx + 1) (len df)) as [i|e] eqn:Hmod;
    [|discriminate Htick].
  cbn [bind] in Htick. injection Htick as <- <- <-.
  unfold alone.
  change (repeat (PublisherStep now rc) 10)
    with (PublisherStep now rc :: repeat (PublisherStep now rc) 9).
  erewrite run_cons
    by (publisher_moves; rewrite Hrow; cbn [bind]; rewrite Hp; reflexivity).
  unfold with_pub. cbn [shared lock net handlers payload_tick index_tick].
  rewrite (publisher_alone_after_fetch df now rc st idx p conn ticks
             n hs pt it i Hmod).
  eexists. split; [reflexivity|]. cbn. repeat split.
Qed.

Lemma py_mod_ok (a b i : nat) : py_mod a b = Ok i -> i = a mod b.
Proof.
  unfold py_mod. destruct b; [discriminate|]. intros H. injection H as <-.
  reflexivity.
Qed.

Lemma invariant_init (df : DataFrame) (st : State) :
  last_payload st = None -> row_index st = 0 -> invariant df (init st).
Proof.
  intros Hp Hi. constructor; cbn.
  - discriminate.
  - discriminate.
  - discriminate.
  - symmetry. apply Nat.Div0.mod_0_l.
  - discriminate.
  - split; [reflexivity|]. split; [reflexivity|]. left. auto.
  - intros _. exact I.
Qed.

(** A handler's view is untouched by a step that leaves the payload, the
    row index and their stamps alone. *)
Lemma handler_ok_frame (df : DataFrame) (c c' : config) (h : handler_t) :
  payload_tick c' = payload_tick c -> index_tick c' = index_tick c ->
  last_payload (shared c') = last_payload (shared c) ->
  row_index (shared c') = row_index (shared c) ->
  handler_ok df c h -> handler_ok df c' h.
Proof.
  unfold handler_ok. intros -> -> -> ->. exact (fun H => H).
Qed.

(** While the publisher holds the lock no handler is reading, and what a
    handler has already copied does not depend on the shared state. *)
Lemma handler_ok_locked_out (df : DataFrame) (c c' : config) (i : nat) :
  lock c = Some Publisher ->
  (forall j k, h_pc (handlers c j) = Reading k -> lock c = Some (Handler j)) ->
  handler_ok df c (handlers c i) -> handler_ok df c' (handlers c i).
Proof.
  intros Hl Hlock. unfold handler_ok.
  destruct (h_pc (handlers c i)) as [|k|] eqn:Hpc; try exact (fun H => H).
  specialize (Hlock i k Hpc). congruence.
Qed.

Ltac frame_handlers :=
  match goal with
  | Hh : forall i, handler_ok _ _ _ |- forall j, handler_ok _ _ _ =>
      let i := fresh "i" in
      intros i; eapply handler_ok_frame; [..|apply Hh]; reflexivity
  end.

Ltac locked_handlers Hl Hhl :=
  match goal with
  | Hh : forall i, handler_ok _ ?c _ |- forall j, handler_ok _ _ _ =>
      let i := fresh "i" in
      intros i; exact (handler_ok_locked_out _ c _ i Hl Hhl (Hh i))
  end.

Ltac split_all :=
  repeat match goal with
         | H : _ /\ _ |- _ => destruct H
         | H : exists _, _ |- _ => destruct H
         end.

Lemma publisher_step_invariant (df : DataFrame) (now : datetime) (rc : Z)
    (c c' : config) (out : list event) :
  invariant df c -> publisher_step df now rc c = Some (c', out) ->
  invariant df c'.
Proof.
  intros [Hpl Hnl Hhl Hcur Hpay Hst Hh] Hstep.
  destruct c as [st l [pc idx pl conn ticks] n hs pt it].
  unfold stamps in Hst.
  cbn [pub shared lock net handlers payload_tick index_tick
       p_pc p_idx p_payload p_connected p_ticks] in *.
  unfold publisher_step, acquire, release in Hstep.
  cbn [pub shared lock net handlers payload_tick index_tick
       p_pc p_idx p_payload p_connected p_ticks] in Hstep.
  destruct pc; cbn [holds_lock has_payload] in *.
  - (* AtFetch *)
    destruct (iloc df idx) as [row|e] eqn:Hrow; cbn [bind] in Hstep.
    + rewrite build_payload_ok in Hstep. injection Hstep as <- _.
      constructor; cbn; try assumption; try frame_handlers; try discriminate.
      * intros _. exists now, row, (built now row).
        split; [exact Hrow|]. split; [apply build_payload_ok|reflexivity].
    + injection Hstep as <- _.
      constructor; cbn; try assumption; try frame_handlers; try discriminate; try exact I.
      * split_all. subst. split; [reflexivity|assumption].
  - (* AtLockRead *)
    destruct l as [t|]; [discriminate Hstep|]. injection Hstep as <- _.
    constructor; cbn; try assumption; try frame_handlers; try reflexivity.
    + intros ws Hn. specialize (Hnl ws Hn). discriminate Hnl.
    + intros i k Hk. specialize (Hhl i k Hk). discriminate Hhl.
  - (* AtReadConnected *)
    injection Hstep as <- _.
    constructor; cbn; try assumption; try frame_handlers.
  - (* AtUnlockRead *)
    injection Hstep as <- _. specialize (Hpl eq_refl).
    constructor; cbn; try assumption; try frame_handlers; try discriminate.
    + intros ws Hn. specialize (Hnl ws Hn). congruence.
    + intros i k Hk. specialize (Hhl i k Hk). congruence.
  - (* AtPublish *)
    destruct pl as [p|]; [|discriminate Hstep]. injection Hstep as <- _.
    constructor; cbn; try assumption; try frame_handlers; try discriminate.
  - (* AtLockWrite *)
    destruct l as [t|]; [discriminate Hstep|]. injection Hstep as <- _.
    constructor; cbn; try assumption; try frame_handlers; try reflexivity.
    + intros ws Hn. specialize (Hnl ws Hn). discriminate Hnl.
    + intros i k Hk. specialize (Hhl i k Hk). discriminate Hhl.
  - (* AtWritePayload *)
    injection Hstep as <- _. pose proof (Hpl eq_refl) as Hl.
    constructor; cbn; try assumption; try frame_handlers.
    + split_all. repeat split; assumption.
    + locked_handlers Hl Hhl.
  - (* AtWriteIndex *)
    injection Hstep as <- _. pose proof (Hpl eq_refl) as Hl.
    constructor; cbn; try assumption; try frame_handlers.
    + destruct Hst as [Hpt [Hit Hlast]].
      destruct (Hpay eq_refl) as [t [row [p [Hrow [Hb Hp]]]]].
      split; [exact Hpt|]. split; [reflexivity|].
      right. exists ticks, t, row, p.
      rewrite <- Hcur. repeat split; try assumption. congruence.
    + locked_handlers Hl Hhl.
  - (* AtUnlockWrite *)
    injection Hstep as <- _. specialize (Hpl eq_refl).
    constructor; cbn; try assumption; try frame_handlers; try discriminate.
    + intros ws Hn. specialize (Hnl ws Hn). congruence.
    + intros i k Hk. specialize (Hhl i k Hk). congruence.
  - (* AtAdvance *)
    destruct (py_mod (idx + 1) (len df)) as [i|e] eqn:Hmod;
      injection Hstep as <- _.
    + apply py_mod_ok in Hmod.
      constructor; cbn; try assumption; try frame_handlers; try discriminate.
      rewrite Hmod, Hcur. apply Nat.Div0.add_mod_idemp_l.
    + constructor; cbn; try assumption; try frame_handlers; try discriminate;
        try exact I.
      split_all. split; [congruence|]. congruence.
  - discriminate Hstep.
Qed.

Lemma apply_write_keeps (w : write) (st : State) :
  last_payload (apply_write w st) = last_payload st /\
  row_index (apply_write w st) = row_index st.
Proof. destruct w; split; reflexivity. Qed.

(** Outside the publisher's lock blocks the two stamps agree and the
    stored pair is that of one tick. *)
Lemma stamps_stable (df : DataFrame) (c : config) :
  holds_lock (p_pc (pub c)) = false -> stamps df c ->
  payload_tick c = index_tick c /\
  as_of_tick df (payload_tick c)
    (last_payload (shared c)) (row_index (shared c)).
Proof.
  unfold stamps. destruct (p_pc (pub c)); cbn [holds_lock];
    intros Hno Hst; try discriminate Hno;
    destruct Hst as [Hp Hrest]; try destruct Hrest as [Hi Has];
    try (split; [congruence|rewrite Hp; assumption]).
  split; assumption.
Qed.

Lemma network_step_invariant (df : DataFrame) (ev : net_event)
    (c c' : config) (out : list event) :
  invariant df c -> network_step ev c = Some (c', out) -> invariant df c'.
Proof.
  intros [Hpl Hnl Hhl Hcur Hpay Hst Hh] Hstep.
  destruct c as [st l p n hs pt it].
  unfold stamps in Hst.
  cbn [pub shared lock net handlers payload_tick index_tick] in *.
  unfold network_step, acquire, release in Hstep.
  cbn [pub shared lock net handlers payload_tick index_tick] in Hstep.
  destruct n as [|ws|[|w ws]].
  - (* Waiting: a callback is invoked *)
    injection Hstep as <- _.
    constructor; cbn; try assumption; try frame_handlers; try discriminate.
  - (* Called: acquire *)
    destruct l as [t|]; [discriminate Hstep|]. injection Hstep as <- _.
    constructor; cbn; try assumption; try frame_handlers; try reflexivity.
    + intros Hp. specialize (Hpl Hp). discriminate Hpl.
    + intros i k Hk. specialize (Hhl i k Hk). discriminate Hhl.
  - (* Writing []: release *)
    injection Hstep as <- _. pose proof (Hnl [] eq_refl) as Hl.
    constructor; cbn; try assumption; try frame_handlers; try discriminate.
    + intros Hp. specialize (Hpl Hp). congruence.
    + intros i k Hk. specialize (Hhl i k Hk). congruence.
  - (* Writing (w :: ws): one assignment *)
    injection Hstep as <- _. pose proof (Hnl _ eq_refl) as Hl.
    destruct (apply_write_keeps w st) as [Hkp Hki].
    constructor; cbn; try assumption; try frame_handlers.
    + intros ws' _. exact Hl.
    + unfold stamps. cbn. rewrite Hkp, Hki. exact Hst.
    + intros i. eapply handler_ok_frame; [..|apply Hh];
        try reflexivity; assumption.
Qed.

Lemma handler_step_invariant (df : DataFrame) (i : nat)
    (c c' : config) (out : list event) :
  invariant df c -> handler_step i c = Some (c', out) -> invariant df c'.
Proof.
  intros [Hpl Hnl Hhl Hcur Hpay Hst Hh] Hstep.
  pose proof (Hh i) as Hi. pose proof (Hhl i) as Hli.
  destruct c as [st l p n hs pt it].
  cbn [pub shared lock net handlers payload_tick index_tick] in *.
  unfold handler_step, acquire, release in Hstep.
  cbn [pub shared lock net handlers payload_tick index_tick] in Hstep.
  destruct (hs i) as [hpc d hp hi] eqn:Hhs.
  cbn [h_pc h_data h_payload_tick h_index_tick] in *.
  destruct hpc as [|k|].
  - (* Idle: acquire *)
    destruct l as [t|]; [discriminate Hstep|]. injection Hstep as <- _.
    constructor; cbn; try assumption; try frame_handlers.
    + intros Hp. specialize (Hpl Hp). discriminate Hpl.
    + intros ws Hn. specialize (Hnl ws Hn). discriminate Hnl.
    + intros j k. destruct (Nat.eqb_spec j i) as [->|Hne]; [reflexivity|].
      intros Hk. specialize (Hhl j k Hk). discriminate Hhl.
    + intros j. destruct (Nat.eqb_spec j i) as [->|Hne].
      * unfold handler_ok. cbn. split; intros Hk; lia.
      * eapply handler_ok_frame; [..|apply Hh]; reflexivity.
  - destruct (Nat.ltb_spec k 6) as [Hk6|Hk6]; injection Hstep as <- _.
    + (* Reading k: copy one entry *)
      constructor; cbn; try assumption; try frame_handlers.
      * intros j k'. destruct (Nat.eqb_spec j i) as [->|Hne];
          [intros _; apply (Hli k); reflexivity|apply Hhl].
      * intros j. destruct (Nat.eqb_spec j i) as [->|Hne];
          [|eapply handler_ok_frame; [..|apply Hh]; reflexivity].
        unfold handler_ok in Hi |- *. cbn in Hi.
        destruct Hi as [H1 H2].
        destruct k as [|[|k]]; cbn.
        -- split; [intros _; split; reflexivity|intros Hk; lia].
        -- destruct (H1 ltac:(lia)) as [Hpt Hlp].
           split; [intros _; split; assumption|intros _; split; reflexivity].
        -- destruct (H1 ltac:(lia)) as [Hpt Hlp].
           destruct (H2 ltac:(lia)) as [Hit Hri].
           destruct k as [|[|[|k]]]; cbn;
             (split; intros _; split; assumption).
    + (* Reading 6: release and respond *)
      pose proof (Hli k eq_refl) as Hl.
      assert (Hno : holds_lock (p_pc p) = false).
      { destruct (holds_lock (p_pc p)) eqn:Hp; [|reflexivity].
        specialize (Hpl eq_refl). congruence. }
      destruct (stamps_stable df
                  {| shared := st; lock := l; pub := p; net := n;
                     handlers := hs; payload_tick := pt; index_tick := it |}
                  Hno Hst) as [Heq Has].
      cbn [payload_tick index_tick shared] in Heq, Has.
      constructor; cbn; try assumption; try frame_handlers.
      * intros Hp. congruence.
      * intros ws Hn. specialize (Hnl ws Hn). congruence.
      * intros j k'. destruct (Nat.eqb_spec j i) as [->|Hne];
          [discriminate|].
        intros Hk. specialize (Hhl j k' Hk).
        rewrite Hl in Hhl. injection Hhl as ->. contradiction Hne.
        reflexivity.
      * intros j. destruct (Nat.eqb_spec j i) as [->|Hne];
          [|eapply handler_ok_frame; [..|apply Hh]; reflexivity].
        unfold handler_ok in Hi |- *. cbn in Hi |- *.
        destruct Hi as [H1 H2].
        destruct (H1 ltac:(lia)) as [Hpt Hlp].
        destruct (H2 ltac:(lia)) as [Hit Hri].
        split; [congruence|]. rewrite Hpt, Hlp, Hri. exact Has.
  - (* Responding: the response is sent *)
    injection Hstep as <- _.
    constructor; cbn; try assumption; try frame_handlers.
    + intros j k. destruct (Nat.eqb_spec j i) as [->|Hne];
        [discriminate|apply Hhl].
    + intros j. destruct (Nat.eqb_spec j i) as [->|Hne];
        [exact I|eapply handler_ok_frame; [..|apply Hh]; reflexivity].
Qed.

Lemma reachable_invariant (df : DataFrame) (st : State) (c : config) :
  last_payload st = None -> row_index st = 0 ->
  reachable df st c -> invariant df c.
Proof.
  intros Hp Hi Hr. induction Hr as [|c a c' out Hr IH Hstep].
  - apply invariant_init; assumption.
  - destruct a as [now rc|ev|i]; cbn [step] in Hstep.
    + exact (publisher_step_invariant df now rc c c' out IH Hstep).
    + exact (network_step_invariant df ev c c' out IH Hstep).
    + exact (handler_step_invariant df i c c' out IH Hstep).
Qed.

(** C5. Start the threads on a state that holds no payload yet. In every
    configuration they can reach, under any interleaving:
    - a snapshot a handler has taken pairs a payload and a row index
      stored by one and the same tick, and when it holds a payload, the
      payload is the one built from the row at position row_index
      (counted from 1);
    - the same holds of the shared state itself whenever the publisher
      does not hold the lock;
    - a handler that is copying holds the lock and the publisher is then
      outside its lock blocks, so the two assignments of a tick are never
      seen apart. *)
Theorem snapshot_pairs_payload_with_its_index
    (df : DataFrame) (st : State) (c : config)
    (Hp : last_payload st = None) (Hi : row_index st = 0)
    (Hr : reachable df st c) :
  (forall i, h_pc (handlers c i) = Responding ->
     let h := handlers c i in
     h_payload_tick h = h_index_tick h /\
     as_of_tick df (h_payload_tick h)
       (last_payload (h_data h)) (row_index (h_data h)) /\
     (forall p, last_payload (h_data h) = Some p ->
        exists j now row,
          row_index (h_data h) = j + 1 /\ iloc df j = Ok row /\
          build_payload now row = Ok p)) /\
  (lock c <> Some Publisher ->
     payload_tick c = index_tick c /\
     as_of_tick df (payload_tick c)
       (last_payload (shared c)) (row_index (shared c))) /\
  (forall i k, h_pc (handlers c i) = Reading k ->
     lock c = Some (Handler i) /\ holds_lock (p_pc (pub c)) = false).
Proof.
  pose proof (reachable_invariant df st c Hp Hi Hr)
    as [Hpl Hnl Hhl Hcur Hpay Hst Hh].
  split; [|split].
  - intros i Hpc h. subst h. specialize (Hh i). unfold handler_ok in Hh.
    rewrite Hpc in Hh. destruct Hh as [Heq Has].
    split; [exact Heq|]. split; [exact Has|].
    intros p Hsome.
    destruct Has as [[_ [Hnone _]]|[t [now [row [p' [_ [Hidx [Hrow [Hb Hpl']]]]]]]]].
    + congruence.
    + exists (t mod len df), now, row.
      split; [exact Hidx|]. split; [exact Hrow|]. congruence.
  - intros Hfree. apply stamps_stable; [|exact Hst].
    destruct (holds_lock (p_pc (pub c))) eqn:Hhold; [|reflexivity].
    contradiction Hfree. apply Hpl. reflexivity.
  - intros i k Hpc. pose proof (Hhl i k Hpc) as Hl.
    split; [exact Hl|].
    destruct (holds_lock (p_pc (pub c))) eqn:Hhold; [|reflexivity].
    specialize (Hpl eq_refl). congruence.
Qed.

Lemma sample_config_reachable :
  reachable three_rows (online three_rows) sample_config.
Proof.
  unfold sample_config.
  destruct (run three_rows sample_schedule (init (online three_rows)))
    as [[c out]|] eqn:Hrun.
  - exact (run_reachable _ _ _ _ _ _ (reachable_init _ _) Hrun).
  - apply reachable_init.
Qed.

Lemma snapshot_pairs_payload_with_its_index_witness :
  reachable three_rows (online three_rows) sample_config /\
  h_pc (handlers sample_config 0) = Responding /\
  row_index (h_data (handlers sample_config 0)) = 1 /\
  h_payload_tick (handlers sample_config 0) =
    h_index_tick (handlers sample_config 0) /\
  lock sample_config = Some Publisher /\
  payload_tick sample_config = 2 /\ index_tick sample_config = 1.
Proof.
  split; [exact sample_config_reachable|].
  split; [vm_compute; reflexivity|].
  split; [vm_compute; reflexivity|].
  split.
  - apply (proj1 (snapshot_pairs_payload_with_its_index three_rows
                    (online three_rows) sample_config eq_refl eq_refl
                    sample_config_reachable) 0).
    vm_compute. reflexivity.
  - vm_compute. repeat split.
Defined.

(** * Further properties of app.py *)

(** ** The callbacks *)

Lemma callback_frame (ev : net_event) (st : State) :
  last_payload (fst (callback ev st)) = last_payload st /\
  row_index (fst (callback ev st)) = row_index st /\
  total_rows (fst (callback ev st)) = total_rows st /\
  publish_count (fst (callback ev st)) =
    publish_count st + (if is_ack ev then 1 else 0).
Proof.
  destruct ev as [rc|rc|]; cbn [callback is_ack].
  - unfold _on_connect. destruct (rc_value rc =? 0)%Z; cbn;
      repeat split; lia.
  - cbn. repeat split; lia.
  - cbn. repeat split.
Qed.

(** X1. Over any sequence of callbacks the publish counter grows by the
    number of publish acknowledgements in it and by nothing else, and the
    callbacks leave last_payload, row_index and total_rows alone. *)
Theorem callbacks_count_acknowledgements (evs : list net_event) (st : State) :
  let st' := fst (callbacks evs st) in
  publish_count st' = publish_count st + List.length (filter is_ack evs) /\
  last_payload st' = last_payload st /\
  row_index st' = row_index st /\
  total_rows st' = total_rows st.
Proof.
  revert st. induction evs as [|ev evs IH]; intros st.
  - cbn. repeat split. lia.
  - cbn [callbacks].
    pose proof (callback_frame ev st) as [Hp [Hi [Ht Hc]]].
    destruct (callback ev st) as [st1 out1]. cbn [fst] in *.
    specialize (IH st1).
    destruct (callbacks evs st1) as [st2 out2]. cbn [fst] in *.
    destruct IH as [IHc [IHp [IHi IHt]]].
    cbn [filter]. destruct (is_ack ev); cbn [List.length];
      repeat split; try congruence; lia.
Qed.

(** ** The replay loop over many ticks *)

Lemma callback_logs_only (ev : net_event) (st : State) :
  filter is_sleep (snd (callback ev st)) = [] /\
  filter is_publish (snd (callback ev st)) = [].
Proof.
  destruct ev as [rc|rc|]; cbn [callback].
  - unfold _on_connect. destruct (rc_value rc =? 0)%Z; split; reflexivity.
  - split; reflexivity.
  - split; reflexivity.
Qed.

Lemma callbacks_log_only (evs : list net_event) (st : State) :
  filter is_sleep (snd (callbacks evs st)) = [] /\
  filter is_publish (snd (callbacks evs st)) = [].
Proof.
  revert st. induction evs as [|ev evs IH]; intros st; [split; reflexivity|].
  cbn [callbacks].
  pose proof (callback_logs_only ev st) as [Hs Hp].
  destruct (callback ev st) as [st1 out1]. cbn [snd] in *.
  specialize (IH st1). destruct (callbacks evs st1) as [st2 out2].
  cbn [snd] in *. destruct IH as [IHs IHp].
  rewrite !filter_app, Hs, Hp, IHs, IHp. split; reflexivity.
Qed.

Lemma tick_effects (df : DataFrame) (now : datetime) (rc : Z) (st : State)
    (idx : nat) :
  idx < len df ->
  exists st' out,
    tick df now rc st idx = Ok (st', (idx + 1) mod len df, out) /\
    mqtt_connected st' = mqtt_connected st /\
    filter is_sleep out = [Sleep PUBLISH_INTERVAL] /\
    List.length (filter is_publish out) = (if mqtt_connected st then 1 else 0).
Proof.
  intros Hidx. destruct (iloc_in_range df idx Hidx) as [row Hrow].
  eexists _, _. split; [apply tick_in_range; exact Hrow|].
  split; [reflexivity|].
  destruct (mqtt_connected st); cbn;
    destruct (rc =? MQTT_ERR_SUCCESS)%Z; split; reflexivity.
Qed.

Lemma replay_effects (df : DataFrame) (envs : list tick_env) :
  forall (st : State) (idx : nat),
    idx < len df ->
    exists st' idx' out,
      replay df envs st idx = Ok (st', idx', out) /\
      filter is_sleep out =
        repeat (Sleep PUBLISH_INTERVAL) (List.length envs) /\
      List.length (filter is_publish out) <= List.length envs /\
      ((forall env, In env envs -> before env = []) ->
       mqtt_connected st' = mqtt_connected st /\
       List.length (filter is_publish out) =
         (if mqtt_connected st then List.length envs else 0)).
Proof.
  induction envs as [|env rest IH]; intros st idx Hidx.
  - exists st, idx, []. cbn. repeat split; try lia.
    destruct (mqtt_connected st); reflexivity.
  - cbn [replay].
    pose proof (callbacks_log_only (before env) st) as [Hcs Hcp].
    destruct (callbacks (before env) st) as [st0 out0] eqn:Hcb.
    cbn [snd] in Hcs, Hcp.
    destruct (tick_effects df (now env) (publish_rc env) st0 idx Hidx)
      as [st1 [out1 [Htick [Hconn [Hts Htp]]]]].
    rewrite Htick. cbn [bind].
    assert (Hnext : (idx + 1) mod len df < len df)
      by (apply Nat.mod_upper_bound; lia).
    destruct (IH st1 ((idx + 1) mod len df) Hnext)
      as [st2 [idx2 [out2 [Hrun [Hrs [Hrp Hquiet]]]]]].
    rewrite Hrun. cbn [bind]. exists st2, idx2, (out0 ++ out1 ++ out2).
    split; [reflexivity|].
    rewrite !filter_app, Hcs, Hcp, Hts, Hrs, !length_app.
    cbn [app List.length repeat]. split; [reflexivity|].
    split; [rewrite Htp; destruct (mqtt_connected st0); lia|].
    intros Hq.
    assert (Hb : before env = []) by (apply Hq; left; reflexivity).
    rewrite Hb in Hcb. cbn in Hcb. injection Hcb as <- <-.
    destruct Hquiet as [Hc2 Hn2]; [intros e He; apply Hq; right; exact He|].
    rewrite Hn2, Htp, Hc2, Hconn.
    split; [reflexivity|]. destruct (mqtt_connected st); lia.
Qed.

(** X2. On a non-empty dataset a run of N ticks sleeps exactly N times,
    each time for PUBLISH_INTERVAL = 2 seconds, and calls publish at most
    once per tick; when no callback arrives during the run, it calls
    publish N times if the state showed connected at the start and never
    otherwise. *)
Theorem replay_paces_and_publishes
    (df : DataFrame) (envs : list tick_env) (st : State)
    (HL : 1 <= len df) :
  exists st' idx' out,
    publisher_thread df envs st = Ok (st', idx', out) /\
    filter is_sleep out = repeat (Sleep 2) (List.length envs) /\
    List.length (filter is_publish out) <= List.length envs /\
    ((forall env, In env envs -> before env = []) ->
     List.length (filter is_publish out) =
       (if mqtt_connected st then List.length envs else 0)).
Proof.
  destruct (replay_effects df envs st 0 ltac:(lia))
    as [st' [idx' [out [Hrun [Hs [Hp Hq]]]]]].
  exists st', idx', out. split; [exact Hrun|]. split; [exact Hs|].
  split; [exact Hp|]. intros H. apply Hq. exact H.
Qed.

Lemma replay_paces_and_publishes_witness :
  exists st' idx' out,
    publisher_thread three_rows (repeat quiet 10) (online three_rows) =
      Ok (st', idx', out) /\
    List.length (filter is_sleep out) = 10 /\
    List.length (filter is_publish out) = 10.
Proof.
  destruct (replay_paces_and_publishes three_rows (repeat quiet 10)
              (online three_rows) ltac:(cbn; lia))
    as [st' [idx' [out [Hrun [Hs [_ Hq]]]]]].
  exists st', idx', out. split; [exact Hrun|]. split.
  - rewrite Hs. reflexivity.
  - rewrite Hq; [reflexivity|].
    intros env Hin. apply repeat_spec in Hin. subst env. reflexivity.
Defined.

Lemma replay_app (df : DataFrame) (e1 e2 : list tick_env) :
  forall (st : State) (idx : nat) (s1 : State) (i1 : nat) (o1 : list event)
         (s2 : State) (i2 : nat) (o2 : list event),
    replay df e1 st idx = Ok (s1, i1, o1) ->
    replay df e2 s1 i1 = Ok (s2, i2, o2) ->
    replay df (e1 ++ e2) st idx = Ok (s2, i2, o1 ++ o2).
Proof.
  induction e1 as [|env rest IH]; intros st idx s1 i1 o1 s2 i2 o2 H1 H2.
  - cbn in H1. injection H1 as <- <- <-. exact H2.
  - cbn [app replay] in *.
    destruct (callbacks (before env) st) as [st0 out0].
    destruct (tick df (now env) (publish_rc env) st0 idx)
      as [[[sa ia] oa]|e]; [|discriminate H1].
    cbn [bind] in *.
    destruct (replay df rest sa ia) as [[[sb ib] ob]|e] eqn:Hrest;
      [|discriminate H1].
    cbn [bind] in H1. injection H1 as <- <- <-.
    rewrite (IH sa ia sb ib ob s2 i2 o2 Hrest H2). cbn [bind].
    rewrite <- !app_assoc. reflexivity.
Qed.

(** X3. On a non-empty dataset of L rows a run of N + 1 ticks is the run
    of the first N, the callbacks delivered before the last tick, and the
    last tick. It leaves in the shared state the payload built from row
    N mod L at the last tick's clock reading, with row_index N mod L + 1;
    and the last tick handed that payload to publish, on the telemetry
    topic at QoS 1, exactly when the state showed connected as that tick
    read the flag, that is after the callbacks delivered before it. *)
Theorem replay_stores_the_last_row
    (df : DataFrame) (envs : list tick_env) (env : tick_env) (st : State)
    (HL : 1 <= len df) :
  exists stN idxN outN st0 out0 st' idx' out1 row p,
    publisher_thread df envs st = Ok (stN, idxN, outN) /\
    callbacks (before env) stN = (st0, out0) /\
    publisher_thread df (envs ++ [env]) st =
      Ok (st', idx', outN ++ out0 ++ out1) /\
    iloc df (List.length envs mod len df) = Ok row /\
    build_payload (now env) row = Ok p /\
    last_payload st' = Some p /\
    row_index st' = List.length envs mod len df + 1 /\
    (In (Publish "vpp/telemetry/main_bus" p 1) out1 <->
     mqtt_connected st0 = true) /\
    (mqtt_connected st0 = false -> filter is_publish out1 = []).
Proof.
  unfold publisher_thread.
  destruct (replay_cursor df envs st 0 ltac:(lia)) as [stN [outN [HN _]]].
  cbn [Nat.add] in HN.
  destruct (callbacks (before env) stN) as [st0 out0] eqn:Hcb.
  assert (Hidx : List.length envs mod len df < len df)
    by (apply Nat.mod_upper_bound; lia).
  destruct (iloc_in_range df _ Hidx) as [row Hrow].
  pose proof (tick_in_range df (now env) (publish_rc env) st0 _ row Hrow)
    as Htick.
  eexists stN, _, outN, st0, out0, _, _, _, row, (built (now env) row).
  split; [exact HN|]. split; [exact Hcb|]. split.
  - eapply replay_app; [exact HN|].
    cbn [replay]. rewrite Hcb, Htick. cbn [bind].
    rewrite app_nil_r. reflexivity.
  - split; [exact Hrow|]. split; [apply build_payload_ok|].
    split; [reflexivity|]. split; [reflexivity|].
    destruct (mqtt_connected st0); split.
    + split; [reflexivity|]. intros _. left. reflexivity.
    + discriminate.
    + split; [|discriminate].
      intros [H|[H|[]]]; discriminate H.
    + reflexivity.
Qed.

Lemma replay_stores_the_last_row_witness :
  exists st' idx' out row p,
    publisher_thread three_rows (repeat quiet 4 ++ [quiet])
      (online three_rows) = Ok (st', idx', out) /\
    iloc three_rows 1 = Ok row /\
    last_payload st' = Some p /\
    row_index st' = 2 /\
    voltage_v (grid_state p) = lit 2302 1.
Proof.
  destruct (replay_stores_the_last_row three_rows (repeat quiet 4) quiet
              (online three_rows) ltac:(cbn; lia))
    as [stN [idxN [outN [st0 [out0 [st' [idx' [out1 [row [p
         [_ [_ [Hrun [Hrow [Hb [Hlp [Hri _]]]]]]]]]]]]]]]]].
  exists st', idx', (outN ++ out0 ++ out1), row, p.
  split; [exact Hrun|]. split; [exact Hrow|]. split; [exact Hlp|].
  split; [exact Hri|].
  change (List.length (repeat quiet 4) mod len three_rows) with 1 in Hrow.
  vm_compute in Hrow. injection Hrow as <-.
  rewrite build_payload_ok in Hb. injection Hb as <-.
  vm_compute. reflexivity.
Defined.

(** ** Startup *)

Lemma connect_keeps_looping (broker : nat -> result unit) (st : State)
    (fuel : nat) :
  (forall n e, broker n = Raise e -> is_OSError e = true) ->
  (forall n, n < fuel -> broker n <> Ok tt) ->
  _connect_mqtt fuel broker 0 st =
  (StillLooping, after_refusals broker 0 fuel st, retries broker 0 fuel).
Proof.
  intros Hos Href. rewrite <- (Nat.add_0_r fuel) at 1.
  rewrite connect_through_refusals
    by (intros n Hn; apply refused_attempt; [exact Hos|apply Href; lia]).
  cbn [_connect_mqtt]. rewrite app_nil_r. reflexivity.
Qed.

Lemma connect_returns_at_first_accept (broker : nat -> result unit)
    (st : State) (k fuel : nat) :
  (forall n e, broker n = Raise e -> is_OSError e = true) ->
  (forall n, n < k -> broker n <> Ok tt) -> broker k = Ok tt -> k < fuel ->
  _connect_mqtt fuel broker 0 st =
  (Returned, after_refusals broker 0 k st,
   retries broker 0 k ++ [ClientConnect MQTT_BROKER MQTT_PORT 60; LoopStart]).
Proof.
  intros Hos Href Hok Hlt.
  replace fuel with (k + S (fuel - S k)) by lia.
  rewrite connect_through_refusals
    by (intros n Hn; apply refused_attempt; [exact Hos|apply Href; lia]).
  cbn [_connect_mqtt Nat.add]. rewrite Hok. reflexivity.
Qed.

Lemma retries_start_nothing (broker : nat -> result unit) (a k : nat) :
  ~ In ThreadStart (retries broker a k) /\ ~ In LoopStart (retries broker a k).
Proof.
  unfold retries. split; intros Hin; apply in_flat_map in Hin;
    destruct Hin as [n [_ [H|[H|[H|[]]]]]]; discriminate H.
Qed.

Lemma after_refusals_frame (broker : nat -> result unit) (a k : nat)
    (st : State) :
  mqtt_connected (after_refusals broker a k st) = mqtt_connected st /\
  total_rows (after_refusals broker a k st) = total_rows st /\
  last_payload (after_refusals broker a k st) = last_payload st /\
  row_index (after_refusals broker a k st) = row_index st /\
  publish_count (after_refusals broker a k st) = publish_count st.
Proof. destruct k; repeat split. Qed.

Lemma load_logs_only (f : csv_file) (st : State) (ev : event) :
  In ev (snd (load f st)) -> is_log ev = true.
Proof.
  unfold load. destruct (read_csv f) as [df0|e]; cbn [snd].
  - intros [<-|Hin]; [reflexivity|]. cbn [app] in Hin.
    apply in_app_or in Hin. destruct Hin as [Hin|[<-|[]]]; [|reflexivity].
    apply in_flat_map in Hin. destruct Hin as [k [_ Hin]].
    destruct (existsb _ _); [destruct Hin|].
    destruct Hin as [<-|[]]. reflexivity.
  - intros [<-|[]]. reflexivity.
Qed.

Lemma load_table (h : string) (hs : list string) (recs : list (list cell))
    (st : State) :
  exists out,
    load (FileTable (h :: hs) recs) st =
      (Ok ({| columns := map strip (h :: hs); records := recs |},
           set_total_rows (List.length recs) st), out) /\
    forall ev, In ev out -> is_log ev = true.
Proof.
  pose proof (load_logs_only (FileTable (h :: hs) recs) st) as Hlog.
  unfold load in *. cbn [read_csv] in *. cbn [snd] in Hlog.
  eexists. split; [reflexivity|]. exact Hlog.
Qed.

(** X4. For a CSV file that loads and a broker whose failures are
    connection errors: while every attempt is refused the program is
    still connecting and has started neither the network loop nor the
    publisher thread; once an attempt is accepted it starts both, with
    total_rows set to the number of records and with the state still
    showing not connected (only the connect callback sets the flag), so
    that a tick run before that callback publishes nothing. *)
Theorem startup_waits_for_the_broker
    (h : string) (hs : list string) (recs : list (list cell))
    (fuel : nat) (broker : nat -> result unit)
    (Hos : forall n e, broker n = Raise e -> is_OSError e = true) :
  let f := FileTable (h :: hs) recs in
  ((forall n, n < fuel -> broker n <> Ok tt) ->
   exists st' out,
     startup f fuel broker = (Connecting st', out) /\
     ~ In ThreadStart out /\ ~ In LoopStart out) /\
  (forall k,
     (forall n, n < k -> broker n <> Ok tt) -> broker k = Ok tt -> k < fuel ->
     exists df st' out,
       startup f fuel broker = (Serving df st', out) /\
       In LoopStart out /\ In ThreadStart out /\
       len df = List.length recs /\ total_rows st' = List.length recs /\
       mqtt_connected st' = false /\ last_payload st' = None /\
       (forall now rc, 1 <= List.length recs ->
          exists st'' i out',
            tick df now rc st' 0 = Ok (st'', i, out') /\
            filter is_publish out' = [])).
Proof.
  intros f. subst f.
  destruct (load_table h hs recs _state) as [lo [Hload Hlog]].
  unfold startup. rewrite Hload. split.
  - intros Href.
    rewrite (connect_keeps_looping broker _ fuel Hos Href).
    eexists _, _. split; [reflexivity|].
    destruct (retries_start_nothing broker 0 fuel) as [Ht Hl].
    split; intros Hin;
      (apply in_app_or in Hin; destruct Hin as [Hin|Hin]; [|contradiction]);
      (apply in_app_or in Hin; destruct Hin as [Hin|[Hin|[]]];
       [apply Hlog in Hin|]; discriminate Hin).
  - intros k Href Hok Hlt.
    rewrite (connect_returns_at_first_accept broker _ k fuel Hos Href Hok Hlt).
    eexists _, _, _. split; [reflexivity|].
    split; [apply in_or_app; right; apply in_or_app; left; apply in_or_app;
            right; right; left; reflexivity|].
    split; [apply in_or_app; right; apply in_or_app; right; left;
            reflexivity|].
    destruct (after_refusals_frame broker 0 k
                (set_total_rows (List.length recs) _state))
      as [Hc [Ht [Hp [Hi Hn]]]].
    split; [reflexivity|]. split; [rewrite Ht; reflexivity|].
    split; [rewrite Hc; reflexivity|]. split; [rewrite Hp; reflexivity|].
    intros now rc Hrecs.
    destruct (iloc_in_range {| columns := map strip (h :: hs);
                               records := recs |} 0 Hrecs) as [row Hrow].
    rewrite (tick_in_range _ now rc _ 0 row Hrow).
    eexists _, _, _. split; [reflexivity|].
    rewrite Hc. reflexivity.
Qed.

Lemma startup_waits_for_the_broker_witness :
  exists df st' out,
    startup two_columns 5 broker_late = (Serving df st', out) /\
    In ThreadStart out /\ mqtt_connected st' = false /\
    exists st'' i out',
      tick df noon 0%Z st' 0 = Ok (st'', i, out') /\
      filter is_publish out' = [].
Proof.
  destruct (proj2 (startup_waits_for_the_broker "Timestamp" [" Voltage (V) "]
                     [[CStr "2024-01-01 00:00:00" None;
                       CNum (lit 2301 1) "230.1"]]
                     5 broker_late broker_late_refuses) 2)
    as [df [st' [out [Hrun [_ [Hts [_ [_ [Hc [_ Htick]]]]]]]]]].
  - intros n Hn. unfold broker_late.
    destruct (Nat.ltb_spec n 2); [discriminate|lia].
  - reflexivity.
  - lia.
  - exists df, st', out. split; [exact Hrun|]. split; [exact Hts|].
    split; [exact Hc|]. apply Htick. cbn. lia.
Defined.

(** ** Columns the file lacks or repeats *)

Lemma defaulted_built (k : key) (now : datetime) (row : Row) :
  _safe_float row (COL_MAP k) zero = Ok zero ->
  _safe_str row (COL_MAP k) "" = Ok "" ->
  defaulted k now (built now row).
Proof.
  intros Hf Hs. unfold defaulted.
  assert (Hfa : float_at row (COL_MAP k) zero = zero)
    by (unfold float_at; rewrite Hf; reflexivity).
  assert (Hsa : str_at row (COL_MAP k) "" = "")
    by (unfold str_at; rewrite Hs; reflexivity).
  destruct k;
    cbn [entry built header grid_state energy_flow header_timestamp
         voltage_v current_a grid_power_factor voltage_fluctuation load_kw
         solar_gen_kw wind_gen_kw grid_supply_kw reactive_power_kvar];
    try (rewrite Hfa; reflexivity).
  rewrite Hsa. reflexivity.
Qed.

Lemma all_keys (k : key) : In k COL_MAP_keys.
Proof. destruct k; cbn; tauto. Qed.

Lemma existsb_eqb_In (c : string) (cols : list string) :
  existsb (String.eqb c) cols = true <-> In c cols.
Proof.
  rewrite existsb_exists. split.
  - intros [x [Hin Heq]]. apply String.eqb_eq in Heq. subst x. exact Hin.
  - intros Hin. exists c. split; [exact Hin|apply String.eqb_refl].
Qed.

Lemma warnings_iff (cols : list string) (n m : nat) (k : key) :
  In (column_warning k)
     ([Log INFO LoadingCsv] ++
      flat_map (fun k' =>
                  if existsb (String.eqb (COL_MAP k')) cols then []
                  else [Log WARNING (ColumnNotFound (COL_MAP k'))])
               COL_MAP_keys ++
      [Log INFO (CsvLoaded n m)]) <->
  ~ In (COL_MAP k) cols.
Proof.
  split.
  - intros Hin. apply in_app_or in Hin.
    destruct Hin as [[H|[]]|Hin]; [discriminate H|].
    apply in_app_or in Hin. destruct Hin as [Hin|[H|[]]]; [|discriminate H].
    apply in_flat_map in Hin. destruct Hin as [k' [_ Hin]].
    destruct (existsb (String.eqb (COL_MAP k')) cols) eqn:Hex;
      [destruct Hin|].
    destruct Hin as [Heq|[]]. injection Heq as Heq.
    rewrite <- Heq. intros Hc. apply existsb_eqb_In in Hc. congruence.
  - intros Hmiss. apply in_or_app. right. apply in_or_app. left.
    apply in_flat_map. exists k. split; [apply all_keys|].
    destruct (existsb (String.eqb (COL_MAP k)) cols) eqn:Hex.
    + apply existsb_eqb_In in Hex. contradiction.
    + left. reflexivity.
Qed.

Lemma load_warnings (h : string) (hs : list string)
    (recs : list (list cell)) (st : State) (k : key) :
  exists out,
    load (FileTable (h :: hs) recs) st =
      (Ok ({| columns := map strip (h :: hs); records := recs |},
           set_total_rows (List.length recs) st), out) /\
    (In (column_warning k) out <-> ~ In (COL_MAP k) (map strip (h :: hs))).
Proof.
  eexists. split; [reflexivity|].
  exact (warnings_iff (map strip (h :: hs)) _ _ k).
Qed.

Lemma iloc_labels (df : DataFrame) (idx : nat) (row : Row) (col : string)
    (c : cell) :
  iloc df idx = Ok row -> In (col, c) row -> In col (columns df).
Proof.
  unfold iloc. destruct (nth_error (records df) idx) as [rec|];
    [|discriminate].
  intros H. injection H as <-. apply in_combine_l.
Qed.

(** [strip] removes the white space of Unicode, not only blanks and
    tabs. *)
Example strip_unicode_space :
  strip (nbsp ++ " Voltage (V)" ++ nbsp ++
         String (ascii_of_nat 9)
           (String (ascii_of_nat 227)
              (String (ascii_of_nat 128) (String (ascii_of_nat 128) ""))))
  = "Voltage (V)".
Proof. vm_compute. reflexivity. Qed.

(** X5. The warning "Column ... not found in CSV, will default to 0.0"
    keeps its word. When a file with a header loads, the load logs that
    warning for a column of COL_MAP exactly when no header name, once
    stripped of the white space around it (blanks, tabs, no-break spaces
    and the other white space of Unicode), equals it; and then every
    payload built from any row of the dataset has 0.0 in the place filled
    from that column (for the timestamp column: the clock reading). The
    load itself never fails over a missing column. *)
Theorem missing_columns_are_warned_and_defaulted
    (h : string) (hs : list string) (recs : list (list cell)) (st : State) :
  exists df st' out,
    load (FileTable (h :: hs) recs) st = (Ok (df, st'), out) /\
    columns df = map strip (h :: hs) /\
    forall k,
      (In (column_warning k) out <-> ~ In (COL_MAP k) (columns df)) /\
      (In (column_warning k) out ->
       forall idx row now p,
         iloc df idx = Ok row -> build_payload now row = Ok p ->
         defaulted k now p).
Proof.
  eexists _, _, _. split; [reflexivity|]. split; [reflexivity|].
  intros k.
  pose proof (warnings_iff (map strip (h :: hs)) (List.length recs)
                (List.length (map strip (h :: hs))) k) as Hw.
  split; [exact Hw|].
  intros Hwarn idx row now p Hrow Hb.
  rewrite build_payload_ok in Hb. injection Hb as <-.
  assert (Habs : forall c, ~ In (COL_MAP k, c) row).
  { intros c Hin. apply Hw in Hwarn. apply Hwarn.
    exact (iloc_labels _ idx row _ c Hrow Hin). }
  apply defaulted_built.
  - apply degraded_default. apply field_absent. exact Habs.
  - apply blank_default. apply text_absent. exact Habs.
Qed.

Lemma missing_columns_are_warned_and_defaulted_witness :
  exists df st' out,
    load nbsp_columns _state = (Ok (df, st'), out) /\
    In (column_warning current) out /\
    ~ In (column_warning voltage) out /\
    forall row now p,
      iloc df 0 = Ok row -> build_payload now row = Ok p ->
      current_a (grid_state p) = zero.
Proof.
  destruct (missing_columns_are_warned_and_defaulted "Timestamp"
              [("Voltage (V)" ++ nbsp)%string]
              [[CStr "2024-01-01 00:00:00" None; CNum (lit 2301 1) "230.1"]]
              _state) as [df [st' [out [Hload [Hcols Hk]]]]].
  exists df, st', out. split; [exact Hload|].
  assert (Hcur : In (column_warning current) out).
  { apply (Hk current). rewrite Hcols.
    intros [H|[H|[]]]; vm_compute in H; discriminate H. }
  split; [exact Hcur|]. split.
  - intros Hv. apply (Hk voltage) in Hv. apply Hv. rewrite Hcols.
    right. left. vm_compute. reflexivity.
  - intros row now p Hrow Hb.
    exact (proj2 (Hk current) Hcur 0 row now p Hrow Hb).
Defined.

Lemma filter_two {A : Type} (f : A -> bool) (l : list A) :
  forall (a b : nat) (x y : A),
    a < b -> nth_error l a = Some x -> nth_error l b = Some y ->
    f x = true -> f y = true ->
    exists u v rest, filter f l = u :: v :: rest.
Proof.
  induction l as [|z l IH]; intros a b x y Hab Ha Hb Hx Hy.
  - destruct a; discriminate Ha.
  - destruct b as [|b]; [lia|]. cbn [nth_error] in Hb.
    destruct a as [|a]; cbn [nth_error] in Ha.
    + injection Ha as ->. cbn [filter]. rewrite Hx.
      assert (Hin : In y (filter f l)).
      { apply filter_In. split; [|exact Hy].
        eapply nth_error_In. exact Hb. }
      destruct (filter f l) as [|v rest]; [destruct Hin|].
      exists x, v, rest. reflexivity.
    + destruct (IH a b x y ltac:(lia) Ha Hb Hx Hy) as [u [v [rest Hf]]].
      cbn [filter]. rewrite Hf.
      destruct (f z); eexists _, _, _; reflexivity.
Qed.

Lemma getitem_repeated (row : Row) (col : string) (a b : nat) (c1 c2 : cell) :
  a < b -> nth_error row a = Some (col, c1) ->
  nth_error row b = Some (col, c2) ->
  exists cs, getitem row col = Ok (SubSeries cs).
Proof.
  intros Hab Ha Hb. unfold getitem.
  destruct (filter_two (fun kv => String.eqb (fst kv) col) row a b
              (col, c1) (col, c2) Hab Ha Hb
              (String.eqb_refl col) (String.eqb_refl col))
    as [[k1 u] [v [rest Hf]]].
  rewrite Hf. eexists. reflexivity.
Qed.

Lemma nth_error_combine {A B : Type} (l1 : list A) :
  forall (l2 : list B) (n : nat) (x : A) (y : B),
    nth_error l1 n = Some x -> nth_error l2 n = Some y ->
    nth_error (combine l1 l2) n = Some (x, y).
Proof.
  induction l1 as [|a l1 IH]; intros l2 n x y H1 H2.
  - destruct n; discriminate H1.
  - destruct l2 as [|b l2]; [destruct n; discriminate H2|].
    destruct n as [|n]; cbn in *.
    + congruence.
    + apply IH; assumption.
Qed.

(** X6. The reader hands out pairwise distinct column labels (it renames
    a header name that occurs again), but stripping can make two of them
    equal. Two labels that become the same COL_MAP column once stripped
    (for instance "Voltage (V)" and " Voltage (V)"), which therefore
    differ in the white space around them, disable that column without a
    word: the load succeeds and logs no warning for it, yet for every
    record that reaches both columns the extractor falls back to its
    default, so the payload has 0.0 there (the clock reading for the
    timestamp) whatever the two cells hold. *)
Theorem colliding_columns_default_silently
    (header : list string) (recs : list (list cell)) (st : State)
    (k : key) (a b : nat) (n1 n2 : string)
    (Hnd : NoDup header)
    (Hab : a < b)
    (Ha : nth_error header a = Some n1) (Hb : nth_error header b = Some n2)
    (H1 : strip n1 = COL_MAP k) (H2 : strip n2 = COL_MAP k) :
  n1 <> n2 /\
  exists df st' out,
    load (FileTable header recs) st = (Ok (df, st'), out) /\
    ~ In (column_warning k) out /\
    forall idx rec now,
      nth_error recs idx = Some rec -> b < List.length rec ->
      exists row p,
        iloc df idx = Ok row /\ build_payload now row = Ok p /\
        defaulted k now p.
Proof.
  split.
  { intros Heq. subst n2.
    assert (Hlen : a < List.length header)
      by (apply nth_error_Some; rewrite Ha; discriminate).
    pose proof (proj1 (NoDup_nth_error header) Hnd a b Hlen
                  (eq_trans Ha (eq_sym Hb))).
    lia. }
  destruct header as [|h hs]; [destruct a; discriminate Ha|].
  destruct (load_warnings h hs recs st k) as [out [Hload Hiff]].
  eexists _, _, out. split; [exact Hload|]. split.
  - intros Hw. apply Hiff in Hw. apply Hw.
    rewrite <- H1. apply in_map.
    eapply nth_error_In. exact Ha.
  - intros idx rec now Hrec Hlen.
    unfold iloc. cbn [records columns]. rewrite Hrec.
    eexists _, (built now _). split; [reflexivity|].
    split; [apply build_payload_ok|].
    destruct (nth_error rec a) as [c1|] eqn:Hc1;
      [|apply nth_error_None in Hc1; lia].
    destruct (nth_error rec b) as [c2|] eqn:Hc2;
      [|apply nth_error_None in Hc2; lia].
    assert (Hra : nth_error (combine (map strip (h :: hs)) rec) a
                  = Some (COL_MAP k, c1)).
    { apply nth_error_combine; [|exact Hc1].
      rewrite <- H1. apply map_nth_error. exact Ha. }
    assert (Hrb : nth_error (combine (map strip (h :: hs)) rec) b
                  = Some (COL_MAP k, c2)).
    { apply nth_error_combine; [|exact Hc2].
      rewrite <- H2. apply map_nth_error. exact Hb. }
    destruct (getitem_repeated _ _ a b c1 c2 Hab Hra Hrb) as [cs Hget].
    apply defaulted_built.
    + apply degraded_default. eapply field_repeated. exact Hget.
    + apply blank_default. eapply text_repeated. exact Hget.
Qed.

Lemma padded_twin_labels :
  NoDup ["Timestamp"; "Voltage (V)"; " Voltage (V)"].
Proof.
  repeat (constructor; [cbn; intros H; repeat destruct H as [H|H];
                        try discriminate H; exact H|]).
  constructor.
Qed.

Lemma colliding_columns_default_silently_witness :
  exists df st' out,
    load padded_twin _state = (Ok (df, st'), out) /\
    ~ In (column_warning voltage) out /\
    exists row p,
      iloc df 0 = Ok row /\ build_payload noon row = Ok p /\
      voltage_v (grid_state p) = zero.
Proof.
  destruct (colliding_columns_default_silently
              ["Timestamp"; "Voltage (V)"; " Voltage (V)"]
              [[CStr "2024-01-01 00:00:00" None;
                CNum (lit 2301 1) "230.1"; CNum (lit 2310 1) "231.0"]]
              _state voltage 1 2 "Voltage (V)" " Voltage (V)"
              padded_twin_labels
              ltac:(lia) eq_refl eq_refl eq_refl eq_refl)
    as [_ [df [st' [out [Hload [Hw Hrows]]]]]].
  exists df, st', out. split; [exact Hload|]. split; [exact Hw|].
  exact (Hrows 0 _ noon eq_refl ltac:(cbn; lia)).
Defined.

(** ** More on the threads under the lock *)

Lemma discipline_init (df : DataFrame) (st : State) :
  discipline df st (init st).
Proof.
  constructor; cbn; try discriminate.
  - intros H. exact H.
  - reflexivity.
  - intros HL. split; [lia|]. split; [discriminate|discriminate].
Qed.

Lemma apply_writes_same_link (ws : list write) :
  forall a b, same_link a b -> same_link (apply_writes ws a) (apply_writes ws b).
Proof.
  induction ws as [|w ws IH]; intros a b Hab; [exact Hab|].
  cbn [apply_writes fold_left]. apply IH.
  destruct Hab as [Hc He]. destruct w; split; cbn; congruence.
Qed.

Lemma link_ok_same_link (a b : State) :
  same_link a b -> link_ok a -> link_ok b.
Proof. unfold link_ok. intros [Hc He] H. rewrite <- Hc, <- He. exact H. Qed.

Lemma link_pending_frame (c c' : config) :
  net c' = net c -> same_link (shared c) (shared c') ->
  link_pending c -> link_pending c'.
Proof.
  unfold link_pending. intros -> Hs. destruct (net c) as [|ws|ws].
  - apply link_ok_same_link. exact Hs.
  - intros [H1 [H2 H3]]. split; [exact (link_ok_same_link _ _ Hs H1)|].
    split; [|exact H3].
    exact (link_ok_same_link _ _ (apply_writes_same_link ws _ _ Hs) H2).
  - intros [H2 H3]. split; [|exact H3].
    exact (link_ok_same_link _ _ (apply_writes_same_link ws _ _ Hs) H2).
Qed.

Ltac lock_goal H :=
  let Hl := fresh "Hl" in
  intros Hl;
  first [ reflexivity
        | discriminate Hl
        | exact (H Hl)
        | specialize (H Hl); discriminate H ].

Ltac hand_goal H :=
  let i := fresh "i" in
  let Hl := fresh "Hl" in
  intros i Hl; first [discriminate Hl | exact (H i Hl)].

Ltac link_goal H :=
  let H0 := fresh "H0" in
  intros H0; eapply link_pending_frame; [..|exact (H H0)];
  [reflexivity|split; reflexivity].

Lemma publisher_step_discipline (df : DataFrame) (st0 : State)
    (now : datetime) (rc : Z) (c c' : config) (out : list event) :
  invariant df c -> discipline df st0 c ->
  publisher_step df now rc c = Some (c', out) ->
  discipline df st0 c'.
Proof.
  intros [Hpl Hnl Hhl _ _ _ _] [Hdp Hdn Hdh Hdc Hds Hdl Hdr Hda] Hstep.
  destruct c as [st l [pc idx pl conn ticks] n hs pt it].
  cbn [pub shared lock net handlers payload_tick index_tick
       p_pc p_idx p_payload p_connected p_ticks] in *.
  unfold publisher_step, acquire, release in Hstep.
  cbn [pub shared lock net handlers payload_tick index_tick
       p_pc p_idx p_payload p_connected p_ticks] in Hstep.
  destruct pc; cbn [holds_lock has_payload] in *.
  - (* AtFetch *)
    destruct (iloc df idx) as [row|e] eqn:Hrow; cbn [bind] in Hstep.
    + rewrite build_payload_ok in Hstep. injection Hstep as <- _.
      constructor; cbn [pub shared lock net handlers p_pc p_idx p_payload
                        with_pub holds_lock has_payload];
        [lock_goal Hdp|exact Hdn|exact Hdh|exact Hdc|exact Hds
        |link_goal Hdl|exact Hdr|].
      intros HL. destruct (Hda HL) as [Hi _].
      split; [exact Hi|]. split; discriminate.
    + injection Hstep as <- _.
      constructor; cbn [pub shared lock net handlers p_pc p_idx p_payload
                        with_pub at_pc holds_lock has_payload];
        [lock_goal Hdp|exact Hdn|exact Hdh|exact Hdc|exact Hds
        |link_goal Hdl|exact Hdr|].
      intros HL. destruct (Hda HL) as [Hi _].
      destruct (iloc_in_range df idx Hi) as [row Hrow']. congruence.
  - (* AtLockRead *)
    destruct l as [t|]; [discriminate Hstep|]. injection Hstep as <- _.
    constructor; cbn [pub shared lock net handlers p_pc p_idx p_payload
                      with_pub with_lock at_pc holds_lock has_payload];
      [lock_goal Hdp|lock_goal Hdn|hand_goal Hdh|exact Hdc|exact Hds
      |link_goal Hdl|exact Hdr|].
    intros HL. destruct (Hda HL) as [Hi [Hnd Hp]].
    split; [exact Hi|]. split; [discriminate|exact Hp].
  - (* AtReadConnected *)
    injection Hstep as <- _.
    constructor; cbn [pub shared lock net handlers p_pc p_idx p_payload
                      with_pub holds_lock has_payload];
      [lock_goal Hdp|exact Hdn|exact Hdh|exact Hdc|exact Hds
      |link_goal Hdl|exact Hdr|].
    intros HL. destruct (Hda HL) as [Hi [Hnd Hp]].
    split; [exact Hi|]. split; [discriminate|exact Hp].
  - (* AtUnlockRead *)
    injection Hstep as <- _.
    constructor; cbn [pub shared lock net handlers p_pc p_idx p_payload
                      with_pub with_lock at_pc holds_lock has_payload];
      [lock_goal Hdp|lock_goal Hdn|hand_goal Hdh|exact Hdc|exact Hds
      |link_goal Hdl|exact Hdr|].
    intros HL. destruct (Hda HL) as [Hi [Hnd Hp]].
    split; [exact Hi|]. split; [discriminate|exact Hp].
  - (* AtPublish *)
    destruct pl as [p|]; [|discriminate Hstep]. injection Hstep as <- _.
    constructor; cbn [pub shared lock net handlers p_pc p_idx p_payload
                      with_pub at_pc holds_lock has_payload];
      [lock_goal Hdp|exact Hdn|exact Hdh|exact Hdc|exact Hds
      |link_goal Hdl|exact Hdr|].
    intros HL. destruct (Hda HL) as [Hi [Hnd Hp]].
    split; [exact Hi|]. split; [discriminate|exact Hp].
  - (* AtLockWrite *)
    destruct l as [t|]; [discriminate Hstep|]. injection Hstep as <- _.
    constructor; cbn [pub shared lock net handlers p_pc p_idx p_payload
                      with_pub with_lock at_pc holds_lock has_payload];
      [lock_goal Hdp|lock_goal Hdn|hand_goal Hdh|exact Hdc|exact Hds
      |link_goal Hdl|exact Hdr|].
    intros HL. destruct (Hda HL) as [Hi [Hnd Hp]].
    split; [exact Hi|]. split; [discriminate|exact Hp].
  - (* AtWritePayload *)
    injection Hstep as <- _. pose proof (Hpl eq_refl) as Hlk.
    constructor; cbn [pub shared lock net handlers p_pc p_idx p_payload
                      with_pub with_ticks with_shared at_pc holds_lock
                      has_payload];
      [lock_goal Hdp|exact Hdn|exact Hdh| |exact Hds
      |link_goal Hdl|exact Hdr|].
    + intros i k Hk. specialize (Hhl i k Hk). congruence.
    + intros HL. destruct (Hda HL) as [Hi [Hnd Hp]].
      split; [exact Hi|]. split; [discriminate|exact Hp].
  - (* AtWriteIndex *)
    injection Hstep as <- _. pose proof (Hpl eq_refl) as Hlk.
    constructor; cbn [pub shared lock net handlers p_pc p_idx p_payload
                      with_pub with_ticks with_shared at_pc holds_lock
                      has_payload];
      [lock_goal Hdp|exact Hdn|exact Hdh| |exact Hds
      |link_goal Hdl|exact Hdr|].
    + intros i k Hk. specialize (Hhl i k Hk). congruence.
    + intros HL. destruct (Hda HL) as [Hi [Hnd Hp]].
      split; [exact Hi|]. split; [discriminate|exact Hp].
  - (* AtUnlockWrite *)
    injection Hstep as <- _.
    constructor; cbn [pub shared lock net handlers p_pc p_idx p_payload
                      with_pub with_lock at_pc holds_lock has_payload];
      [lock_goal Hdp|lock_goal Hdn|hand_goal Hdh|exact Hdc|exact Hds
      |link_goal Hdl|exact Hdr|].
    intros HL. destruct (Hda HL) as [Hi [Hnd Hp]].
    split; [exact Hi|]. split; [discriminate|exact Hp].
  - (* AtAdvance *)
    destruct (py_mod (idx + 1) (len df)) as [i|e] eqn:Hmod;
      injection Hstep as <- _.
    + constructor; cbn [pub shared lock net handlers p_pc p_idx p_payload
                        with_pub holds_lock has_payload];
        [lock_goal Hdp|exact Hdn|exact Hdh|exact Hdc|exact Hds
        |link_goal Hdl|exact Hdr|].
      intros HL. apply py_mod_ok in Hmod. subst i.
      split; [apply Nat.mod_upper_bound; lia|]. split; discriminate.
    + constructor; cbn [pub shared lock net handlers p_pc p_idx p_payload
                        with_pub at_pc holds_lock has_payload];
        [lock_goal Hdp|exact Hdn|exact Hdh|exact Hdc|exact Hds
        |link_goal Hdl|exact Hdr|].
      intros HL. unfold py_mod in Hmod.
      destruct (len df); [lia|discriminate Hmod].
  - discriminate Hstep.
Qed.

Lemma link_ok_after_callback (ev : net_event) (st : State) :
  link_ok st ->
  link_ok (apply_writes (writes_of ev) st) /\ List.length (writes_of ev) <= 2.
Proof.
  intros H. destruct ev as [rc|rc|]; cbn [writes_of].
  - destruct (rc_value rc =? 0)%Z; cbn; split; try lia.
    + intros _. reflexivity.
    + discriminate.
  - cbn. split; [discriminate|lia].
  - cbn. split; [exact H|lia].
Qed.

Lemma copied_all (d st : State) : copied 6 d st -> d = st.
Proof.
  intros [H1 [H2 [H3 [H4 [H5 H6]]]]].
  destruct d, st. cbn in *.
  rewrite (H1 ltac:(lia)), (H2 ltac:(lia)), (H3 ltac:(lia)),
          (H4 ltac:(lia)), (H5 ltac:(lia)), (H6 ltac:(lia)).
  reflexivity.
Qed.

Lemma network_step_discipline (df : DataFrame) (st0 : State)
    (ev : net_event) (c c' : config) (out : list event) :
  invariant df c -> discipline df st0 c ->
  network_step ev c = Some (c', out) ->
  discipline df st0 c'.
Proof.
  intros [Hpl Hnl Hhl _ _ _ _] [Hdp Hdn Hdh Hdc Hds Hdl Hdr Hda] Hstep.
  destruct c as [st l p n hs pt it].
  unfold link_pending in Hdl.
  cbn [pub shared lock net handlers payload_tick index_tick] in *.
  unfold network_step, acquire, release in Hstep.
  cbn [pub shared lock net handlers payload_tick index_tick] in Hstep.
  destruct n as [|ws|[|w ws]].
  - (* Waiting: a callback is invoked *)
    injection Hstep as <- _.
    constructor; cbn [pub shared lock net handlers with_net];
      [exact Hdp| |exact Hdh|exact Hdc|exact Hds| |exact Hdr|exact Hda].
    + intros Hl. destruct (Hdn Hl) as [ws Hw]. discriminate Hw.
    + intros H0. specialize (Hdl H0). unfold link_pending.
      cbn [net shared].
      destruct (link_ok_after_callback ev st Hdl) as [H1 H2].
      split; [exact Hdl|]. split; [exact H1|exact H2].
  - (* Called: acquire *)
    destruct l as [t|]; [discriminate Hstep|]. injection Hstep as <- _.
    constructor; cbn [pub shared lock net handlers with_net with_lock];
      [lock_goal Hdp| |hand_goal Hdh|exact Hdc|exact Hds| |exact Hdr
      |exact Hda].
    + intros _. eexists. reflexivity.
    + intros H0. specialize (Hdl H0). unfold link_pending.
      cbn [net shared]. destruct Hdl as [_ H]. exact H.
  - (* Writing []: release *)
    injection Hstep as <- _.
    constructor; cbn [pub shared lock net handlers with_net with_lock];
      [lock_goal Hdp|lock_goal Hdn|hand_goal Hdh|exact Hdc|exact Hds|
      |exact Hdr|exact Hda].
    intros H0. specialize (Hdl H0). unfold link_pending.
    cbn [net shared]. destruct Hdl as [H _]. exact H.
  - (* Writing (w :: ws): one assignment *)
    injection Hstep as <- _. pose proof (Hnl _ eq_refl) as Hlk.
    destruct (apply_write_keeps w st) as [Hkp Hki].
    constructor; cbn [pub shared lock net handlers with_net with_shared];
      [exact Hdp| |exact Hdh| |exact Hds| | |exact Hda].
    + intros _. eexists. reflexivity.
    + intros i k Hk. specialize (Hhl i k Hk). congruence.
    + intros H0. specialize (Hdl H0). unfold link_pending.
      cbn [net shared]. destruct Hdl as [H Hlen].
      split; [exact H|]. cbn [List.length] in Hlen. lia.
    + rewrite <- Hdr. destruct w; reflexivity.
Qed.

Lemma copy_entry_pc (k : nat) (c : config) (h : handler_t) :
  h_pc (copy_entry k c h) = Reading (S k).
Proof. destruct k as [|[|k]]; reflexivity. Qed.

Lemma copy_entry_copied (k : nat) (c : config) (h : handler_t) :
  k < 6 -> copied k (h_data h) (shared c) ->
  copied (S k) (h_data (copy_entry k c h)) (shared c).
Proof.
  intros Hk [H1 [H2 [H3 [H4 [H5 H6]]]]].
  destruct k as [|[|[|[|[|[|k]]]]]]; [..|lia];
    unfold copied; cbn;
    repeat split; intros Hle; try lia; try reflexivity;
    first [apply H1|apply H2|apply H3|apply H4|apply H5|apply H6]; lia.
Qed.

Lemma handler_step_discipline (df : DataFrame) (st0 : State) (i : nat)
    (c c' : config) (out : list event) :
  reachable df st0 c -> invariant df c -> discipline df st0 c ->
  handler_step i c = Some (c', out) ->
  discipline df st0 c'.
Proof.
  intros Hr [Hpl Hnl Hhl _ _ _ _] [Hdp Hdn Hdh Hdc Hds Hdl Hdr Hda] Hstep.
  pose proof (Hdc i) as Hci. pose proof (Hhl i) as Hli.
  pose proof (Hdh i) as Hdi.
  unfold handler_step, acquire, release in Hstep.
  destruct (h_pc (handlers c i)) as [|k|] eqn:Hpc.
  - (* Idle: acquire *)
    destruct (lock c) as [t|] eqn:Hlock; [discriminate Hstep|].
    injection Hstep as <- _.
    constructor; cbn [pub shared lock net handlers with_handler with_lock].
    + discriminate.
    + discriminate.
    + intros j Hl. injection Hl as <-. rewrite Nat.eqb_refl.
      eexists. reflexivity.
    + intros j k. destruct (Nat.eqb_spec j i) as [->|Hne]; [|apply Hdc].
      cbn. intros Hk. injection Hk as <-. split; [lia|].
      unfold copied. repeat split; intros Hle; lia.
    + intros j. destruct (Nat.eqb_spec j i) as [->|Hne];
        [discriminate|apply Hds].
    + intros H0. eapply link_pending_frame; [..|exact (Hdl H0)];
        [reflexivity|split; reflexivity].
    + exact Hdr.
    + exact Hda.
  - destruct (Nat.ltb_spec k 6) as [Hk6|Hk6]; injection Hstep as <- _.
    + (* Reading k: copy one entry *)
      destruct (Hci k eq_refl) as [_ Hcop].
      constructor; cbn [pub shared lock net handlers with_handler].
      * exact Hdp.
      * exact Hdn.
      * intros j Hl. destruct (Nat.eqb_spec j i) as [->|Hne];
          [|apply Hdh; exact Hl].
        eexists. apply copy_entry_pc.
      * intros j k'. destruct (Nat.eqb_spec j i) as [->|Hne]; [|apply Hdc].
        rewrite copy_entry_pc. intros Hk. injection Hk as <-.
        split; [lia|]. apply copy_entry_copied; assumption.
      * intros j. destruct (Nat.eqb_spec j i) as [->|Hne]; [|apply Hds].
        rewrite copy_entry_pc. discriminate.
      * intros H0. eapply link_pending_frame; [..|exact (Hdl H0)];
          [reflexivity|split; reflexivity].
      * exact Hdr.
      * exact Hda.
    + (* Reading 6: release and respond *)
      destruct (Hci k eq_refl) as [Hle Hcop].
      assert (k = 6) by lia. subst k.
      constructor; cbn [pub shared lock net handlers with_handler with_lock].
      * discriminate.
      * discriminate.
      * intros j Hl. discriminate Hl.
      * intros j k'. destruct (Nat.eqb_spec j i) as [->|Hne];
          [discriminate|].
        intros Hk. pose proof (Hhl j k' Hk) as Hlj.
        rewrite (Hli 6 eq_refl) in Hlj. injection Hlj as ->.
        contradiction Hne. reflexivity.
      * intros j. destruct (Nat.eqb_spec j i) as [->|Hne]; [|apply Hds].
        intros _. exists c. split; [exact Hr|].
        split; [exact (Hli 6 eq_refl)|].
        cbn [h_data]. apply copied_all. exact Hcop.
      * intros H0. eapply link_pending_frame; [..|exact (Hdl H0)];
          [reflexivity|split; reflexivity].
      * exact Hdr.
      * exact Hda.
  - (* Responding: the response is sent *)
    injection Hstep as <- _.
    constructor; cbn [pub shared lock net handlers with_handler].
    + exact Hdp.
    + exact Hdn.
    + intros j Hl. destruct (Nat.eqb_spec j i) as [->|Hne];
        [|apply Hdh; exact Hl].
      destruct (Hdi Hl) as [k Hk]. discriminate Hk.
    + intros j k. destruct (Nat.eqb_spec j i) as [->|Hne];
        [discriminate|apply Hdc].
    + intros j. destruct (Nat.eqb_spec j i) as [->|Hne];
        [discriminate|apply Hds].
    + intros H0. eapply link_pending_frame; [..|exact (Hdl H0)];
        [reflexivity|split; reflexivity].
    + exact Hdr.
    + exact Hda.
Qed.

Lemma reachable_discipline (df : DataFrame) (st : State) (c : config) :
  last_payload st = None -> row_index st = 0 ->
  reachable df st c -> discipline df st c.
Proof.
  intros Hp Hi Hr. induction Hr as [|c a c' out Hr IH Hstep].
  - apply discipline_init.
  - pose proof (reachable_invariant df st c Hp Hi Hr) as Hinv.
    destruct a as [now rc|ev|i]; cbn [step] in Hstep.
    + exact (publisher_step_discipline df st now rc c c' out Hinv IH Hstep).
    + exact (network_step_discipline df st ev c c' out Hinv IH Hstep).
    + exact (handler_step_discipline df st i c c' out Hr Hinv IH Hstep).
Qed.

Lemma step_frame
    (df : DataFrame) (a : action) (c c' : config) (out : list event) :
  step df a c = Some (c', out) ->
  frame a c c' /\
  total_rows (shared c') = total_rows (shared c) /\
  publish_count (shared c) <= publish_count (shared c').
Proof.
  intros Hstep.
  destruct c as [st l [pc idx pl conn ticks] n hs pt it].
  destruct a as [now rc|ev|i]; cbn [step frame] in *.
  - unfold publisher_step, acquire, release in Hstep.
    cbn [pub shared lock net handlers payload_tick index_tick
         p_pc p_idx p_payload p_connected p_ticks] in Hstep.
    destruct pc;
      try (destruct (iloc df idx) as [row|e]; cbn [bind] in Hstep;
           [rewrite build_payload_ok in Hstep|]);
      try (destruct l as [t|]; [discriminate Hstep|]);
      try (destruct pl as [p|]; [|discriminate Hstep]);
      try (destruct (py_mod (idx + 1) (len df)) as [i|e]);
      try discriminate Hstep;
      injection Hstep as <- _; cbn; repeat split; lia.
  - unfold network_step, acquire, release in Hstep.
    cbn [pub shared lock net handlers payload_tick index_tick] in Hstep.
    destruct n as [|ws|[|w ws]];
      try (destruct l as [t|]; [discriminate Hstep|]);
      injection Hstep as <- _; cbn; repeat split; try lia;
      destruct w; cbn; first [reflexivity|lia].
  - unfold handler_step, acquire, release in Hstep.
    cbn [pub shared lock net handlers payload_tick index_tick] in Hstep.
    assert (Hother : forall h (j : nat), j <> i ->
              (if j =? i then h else hs j) = hs j).
    { intros h j Hne. destruct (Nat.eqb_spec j i);
        [contradiction|reflexivity]. }
    destruct (h_pc (hs i)) as [|k|].
    + destruct l as [t|]; [discriminate Hstep|].
      injection Hstep as <- _. cbn. repeat split; try lia. apply Hother.
    + destruct (k <? 6); injection Hstep as <- _; cbn;
        repeat split; try lia; apply Hother.
    + injection Hstep as <- _. cbn. repeat split; try lia. apply Hother.
Qed.

(** X7. The publisher only ever assigns last_payload and row_index, the
    callbacks only the connection flag, the publish counter and the last
    error, and a request handler assigns nothing in the shared state;
    total_rows is assigned by no thread and the publish counter never
    decreases. *)
Theorem threads_write_only_their_fields
    (df : DataFrame) (a : action) (c c' : config) (out : list event)
    (Hstep : step df a c = Some (c', out)) :
  frame a c c' /\
  total_rows (shared c') = total_rows (shared c) /\
  publish_count (shared c) <= publish_count (shared c').
Proof. exact (step_frame df a c c' out Hstep). Qed.

Lemma threads_write_only_their_fields_witness :
  exists c' out,
    step three_rows (PublisherStep noon 0%Z) sample_config = Some (c', out) /\
    row_index (shared c') = 2 /\
    mqtt_connected (shared c') = mqtt_connected (shared sample_config) /\
    total_rows (shared c') = 3.
Proof.
  destruct (step three_rows (PublisherStep noon 0%Z) sample_config)
    as [[c' out]|] eqn:Hstep; [|vm_compute in Hstep; discriminate Hstep].
  exists c', out. split; [reflexivity|].
  destruct (threads_write_only_their_fields _ _ _ _ _ Hstep)
    as [[Hc _] [Ht _]].
  split; [|split; [exact Hc|]].
  - vm_compute in Hstep. injection Hstep as <- _. reflexivity.
  - rewrite Ht. vm_compute. reflexivity.
Defined.

Lemma reachable_net_short (df : DataFrame) (st : State) (c : config) :
  reachable df st c -> net_short c.
Proof.
  intros Hr. induction Hr as [|c a c' out Hr IH Hstep]; [exact I|].
  pose proof (step_frame _ _ _ _ _ Hstep) as [Hf _].
  unfold net_short in *. destruct a as [now rc|ev|i]; cbn [frame] in Hf.
  - destruct Hf as [_ [_ [_ [Hn _]]]]. rewrite Hn. exact IH.
  - cbn [step] in Hstep. unfold network_step, acquire in Hstep.
    destruct (net c) as [|ws|[|w ws]].
    + injection Hstep as <- _. cbn.
      destruct ev as [rc|rc|]; cbn; [destruct (rc_value rc =? 0)%Z|..];
        cbn; lia.
    + destruct (lock c); [discriminate Hstep|].
      injection Hstep as <- _. exact IH.
    + injection Hstep as <- _. exact I.
    + injection Hstep as <- _. cbn in *. lia.
  - destruct Hf as [_ [_ [Hn _]]]. rewrite Hn. exact IH.
Qed.

Lemma inside_holds_lock (df : DataFrame) (c : config) (t : tid) :
  invariant df c -> inside t c -> lock c = Some t.
Proof.
  intros [Hpl Hnl Hhl _ _ _ _]. destruct t as [| |i]; cbn [inside].
  - exact Hpl.
  - intros [ws Hw]. exact (Hnl ws Hw).
  - intros [k Hk]. exact (Hhl i k Hk).
Qed.

Lemma lock_held_inside (df : DataFrame) (st : State) (c : config) (t : tid) :
  discipline df st c -> lock c = Some t -> inside t c.
Proof.
  intros [Hdp Hdn Hdh _ _ _ _ _]. destruct t as [| |i]; cbn [inside].
  - exact Hdp.
  - exact Hdn.
  - exact (Hdh i).
Qed.

(** X8. Mutual exclusion. In every configuration the threads can reach, a
    thread is inside one of its [with _state_lock] blocks exactly when the
    lock is recorded as its own; so no two of the publisher, the network
    thread and the request handlers are ever inside a lock block
    together. *)
Theorem lock_mutual_exclusion
    (df : DataFrame) (st : State) (c : config)
    (Hp : last_payload st = None) (Hi : row_index st = 0)
    (Hr : reachable df st c) :
  (forall t, inside t c <-> lock c = Some t) /\
  (forall t1 t2, inside t1 c -> inside t2 c -> t1 = t2).
Proof.
  pose proof (reachable_invariant df st c Hp Hi Hr) as Hinv.
  pose proof (reachable_discipline df st c Hp Hi Hr) as Hdis.
  split.
  - intros t. split.
    + apply (inside_holds_lock df). exact Hinv.
    + apply (lock_held_inside df st). exact Hdis.
  - intros t1 t2 H1 H2.
    apply (inside_holds_lock df c t1 Hinv) in H1.
    apply (inside_holds_lock df c t2 Hinv) in H2.
    congruence.
Qed.

Lemma lock_mutual_exclusion_witness :
  inside Publisher sample_config /\
  forall i, ~ inside (Handler i) sample_config.
Proof.
  destruct (lock_mutual_exclusion three_rows (online three_rows)
              sample_config eq_refl eq_refl sample_config_reachable)
    as [Hiff Hex].
  assert (Hpub : inside Publisher sample_config)
    by (apply Hiff; vm_compute; reflexivity).
  split; [exact Hpub|].
  intros i Hin. specialize (Hex _ _ Hpub Hin). discriminate Hex.
Defined.

(** X9. Nothing but memory is touched under the lock: a step a thread
    takes while it holds the lock logs nothing, publishes nothing and
    does not sleep. *)
Theorem lock_blocks_do_no_io
    (df : DataFrame) (st : State) (c c' : config) (a : action)
    (out : list event)
    (Hp : last_payload st = None) (Hi : row_index st = 0)
    (Hr : reachable df st c)
    (Hstep : step df a c = Some (c', out))
    (Hl : lock c = Some (actor a)) :
  out = [].
Proof.
  pose proof (reachable_discipline df st c Hp Hi Hr) as Hdis.
  pose proof (lock_held_inside df st c _ Hdis Hl) as Hin.
  destruct a as [now rc|ev|i]; cbn [step actor inside] in *.
  - unfold publisher_step, acquire, release in Hstep.
    destruct (p_pc (pub c)); cbn [holds_lock] in Hin;
      try discriminate Hin; injection Hstep as _ <-; reflexivity.
  - destruct Hin as [ws Hw]. unfold network_step in Hstep.
    rewrite Hw in Hstep.
    destruct ws; injection Hstep as _ <-; reflexivity.
  - destruct Hin as [k Hk]. unfold handler_step in Hstep.
    rewrite Hk in Hstep.
    destruct (k <? 6); injection Hstep as _ <-; reflexivity.
Qed.

Lemma lock_blocks_do_no_io_witness :
  exists c',
    step three_rows (PublisherStep noon 0%Z) sample_config = Some (c', []).
Proof.
  destruct (step three_rows (PublisherStep noon 0%Z) sample_config)
    as [[c' out]|] eqn:Hstep; [|vm_compute in Hstep; discriminate Hstep].
  exists c'. f_equal. f_equal.
  apply (lock_blocks_do_no_io three_rows (online three_rows) sample_config
           c' (PublisherStep noon 0%Z) out eq_refl eq_refl
           sample_config_reachable Hstep).
  vm_compute. reflexivity.
Defined.

(** X10. No torn reads. The snapshot a request handler responds with is,
    in all six entries, the shared state of one configuration the threads
    really were in, namely one in which that handler held the lock. *)
Theorem snapshot_is_a_copy_of_one_instant
    (df : DataFrame) (st : State) (c : config) (i : nat)
    (Hp : last_payload st = None) (Hi : row_index st = 0)
    (Hr : reachable df st c)
    (Hs : h_pc (handlers c i) = Responding) :
  exists c0,
    reachable df st c0 /\ lock c0 = Some (Handler i) /\
    h_data (handlers c i) = shared c0.
Proof.
  pose proof (reachable_discipline df st c Hp Hi Hr) as Hdis.
  exact (d_served df st c Hdis i Hs).
Qed.

Lemma snapshot_is_a_copy_of_one_instant_witness :
  exists c0,
    reachable three_rows (online three_rows) c0 /\
    lock c0 = Some (Handler 0) /\
    h_data (handlers sample_config 0) = shared c0.
Proof.
  apply (snapshot_is_a_copy_of_one_instant three_rows (online three_rows)
           sample_config 0 eq_refl eq_refl sample_config_reachable).
  vm_compute. reflexivity.
Defined.

Lemma unlocked_link_ok (df : DataFrame) (st : State) (c : config) :
  last_payload st = None -> row_index st = 0 -> link_ok st ->
  reachable df st c -> lock c <> Some Network -> link_ok (shared c).
Proof.
  intros Hp Hi Hlink Hr Hfree.
  pose proof (reachable_invariant df st c Hp Hi Hr) as [_ Hnl _ _ _ _ _].
  pose proof (reachable_discipline df st c Hp Hi Hr) as Hdis.
  pose proof (d_link df st c Hdis Hlink) as Hpend.
  unfold link_pending in Hpend. destruct (net c) as [|ws|ws] eqn:Hn.
  - exact Hpend.
  - destruct Hpend as [H _]. exact H.
  - contradiction Hfree. exact (Hnl ws eq_refl).
Qed.

(** X11. The status never shows "connected" together with an error. Start
    the threads on a state that satisfies this (as the state left by the
    load and by the blocking connect does); then the shared state
    satisfies it whenever the network thread is not inside its lock
    block, and so does every snapshot a request handler responds with:
    if mqtt_connected is true, last_error is None. *)
Theorem status_never_connected_with_error
    (df : DataFrame) (st : State) (c : config)
    (Hp : last_payload st = None) (Hi : row_index st = 0)
    (Hlink : link_ok st)
    (Hr : reachable df st c) :
  (lock c <> Some Network -> link_ok (shared c)) /\
  (forall i, h_pc (handlers c i) = Responding ->
             link_ok (h_data (handlers c i))).
Proof.
  split.
  - apply (unlocked_link_ok df st c Hp Hi Hlink Hr).
  - intros i Hs.
    pose proof (reachable_discipline df st c Hp Hi Hr) as Hdis.
    destruct (d_served df st c Hdis i Hs) as [c0 [Hr0 [Hl0 Hd0]]].
    rewrite Hd0. apply (unlocked_link_ok df st c0 Hp Hi Hlink Hr0).
    rewrite Hl0. discriminate.
Qed.

Lemma status_never_connected_with_error_witness :
  link_ok (h_data (handlers sample_config 0)) /\
  mqtt_connected (h_data (handlers sample_config 0)) = true /\
  last_error (h_data (handlers sample_config 0)) = None.
Proof.
  assert (H : link_ok (h_data (handlers sample_config 0))).
  { apply (status_never_connected_with_error three_rows (online three_rows)
             sample_config eq_refl eq_refl (fun _ => eq_refl)
             sample_config_reachable).
    vm_compute. reflexivity. }
  split; [exact H|].
  assert (Hc : mqtt_connected (h_data (handlers sample_config 0)) = true)
    by (vm_compute; reflexivity).
  split; [exact Hc|exact (H Hc)].
Defined.

Lemma iloc_ok_bound (df : DataFrame) (idx : nat) (row : Row) :
  iloc df idx = Ok row -> idx < len df.
Proof.
  unfold iloc, len.
  destruct (nth_error (records df) idx) as [rec|] eqn:Hnth; [|discriminate].
  intros _. apply nth_error_Some. congruence.
Qed.

Lemma as_of_tick_bound (df : DataFrame) (T : nat) (pl : option Payload)
    (index : nat) :
  as_of_tick df T pl index ->
  index <= len df /\ (pl <> None -> 1 <= index).
Proof.
  intros [[_ [Hn ->]]|[t [now [row [p [_ [-> [Hrow _]]]]]]]].
  - split; [lia|]. intros H. contradiction.
  - pose proof (iloc_ok_bound df _ row Hrow). split; lia.
Qed.

(** X12. "Row i of N" never overshoots. When the threads start on the
    state the load leaves (no payload yet, total_rows = the dataset
    length), every snapshot a request handler responds with reports
    total_rows = the dataset length and a row_index between 0 and
    total_rows, at least 1 once it carries a payload. *)
Theorem snapshot_reports_rows_within_bounds
    (df : DataFrame) (st : State) (c : config) (i : nat)
    (Hp : last_payload st = None) (Hi : row_index st = 0)
    (Ht : total_rows st = len df)
    (Hr : reachable df st c)
    (Hs : h_pc (handlers c i) = Responding) :
  let d := h_data (handlers c i) in
  total_rows d = len df /\
  row_index d <= total_rows d /\
  (last_payload d <> None -> 1 <= row_index d).
Proof.
  intros d. subst d.
  pose proof (reachable_discipline df st c Hp Hi Hr) as Hdis.
  destruct (d_served df st c Hdis i Hs) as [c0 [Hr0 [_ Hd0]]].
  pose proof (reachable_discipline df st c0 Hp Hi Hr0) as Hdis0.
  assert (Hrows : total_rows (h_data (handlers c i)) = len df).
  { rewrite Hd0, (d_rows df st c0 Hdis0). exact Ht. }
  split; [exact Hrows|]. rewrite Hrows.
  pose proof (reachable_invariant df st c Hp Hi Hr) as Hinv.
  pose proof (inv_handlers df c Hinv i) as Hh.
  unfold handler_ok in Hh. rewrite Hs in Hh. destruct Hh as [_ Has].
  exact (as_of_tick_bound _ _ _ _ Has).
Qed.

Lemma snapshot_reports_rows_within_bounds_witness :
  total_rows (h_data (handlers sample_config 0)) = 3 /\
  row_index (h_data (handlers sample_config 0)) <= 3.
Proof.
  destruct (snapshot_reports_rows_within_bounds three_rows
              (online three_rows) sample_config 0 eq_refl eq_refl eq_refl
              sample_config_reachable ltac:(vm_compute; reflexivity))
    as [H1 [H2 _]].
  split; [exact H1|]. rewrite H1 in H2. exact H2.
Defined.

Lemma repeat_actor (a : action) (n : nat) :
  Forall (fun b => actor b = actor a) (repeat a n).
Proof.
  apply Forall_forall. intros b Hb. apply repeat_spec in Hb. subst b.
  reflexivity.
Qed.

Lemma handler_finishes (df : DataFrame) (i n : nat) :
  forall (k : nat) (c : config),
    h_pc (handlers c i) = Reading k -> k + n = 6 ->
    exists c',
      run df (repeat (HandlerStep i) (S n)) c = Some (c', []) /\
      lock c' = None.
Proof.
  induction n as [|n IH]; intros k c Hk Hsum.
  - assert (k = 6) by lia. subst k. cbn [repeat].
    erewrite run_cons
      by (cbn [step]; unfold handler_step; rewrite Hk; reflexivity).
    cbn [run app]. eexists. split; reflexivity.
  - assert (Hlt : (k <? 6) = true) by (apply Nat.ltb_lt; lia).
    change (repeat (HandlerStep i) (S (S n)))
      with (HandlerStep i :: repeat (HandlerStep i) (S n)).
    erewrite run_cons
      by (cbn [step]; unfold handler_step; rewrite Hk, Hlt; reflexivity).
    destruct (IH (S k)
                (with_handler i (copy_entry k c (handlers c i)) c))
      as [c' [Hrun Hl]].
    + cbn [with_handler handlers]. rewrite Nat.eqb_refl.
      apply copy_entry_pc.
    + lia.
    + rewrite Hrun. exists c'. split; [reflexivity|exact Hl].
Qed.

Lemma network_finishes (df : DataFrame) (ev : net_event)
    (ws : list write) :
  forall c : config,
    net c = Writing ws ->
    exists c',
      run df (repeat (NetworkStep ev) (S (List.length ws))) c
        = Some (c', []) /\
      lock c' = None.
Proof.
  induction ws as [|w ws IH]; intros c Hn.
  - cbn [List.length repeat].
    erewrite run_cons
      by (cbn [step]; unfold network_step; rewrite Hn; reflexivity).
    cbn [run app]. eexists. split; reflexivity.
  - change (repeat (NetworkStep ev) (S (List.length (w :: ws))))
      with (NetworkStep ev :: repeat (NetworkStep ev) (S (List.length ws))).
    erewrite run_cons
      by (cbn [step]; unfold network_step; rewrite Hn; reflexivity).
    destruct (IH (with_net (Writing ws)
                    (with_shared (apply_write w (shared c)) c)))
      as [c' [Hrun Hl]]; [reflexivity|].
    rewrite Hrun. exists c'. split; [reflexivity|exact Hl].
Qed.

Lemma publisher_finishes (df : DataFrame) (now : datetime) (rc : Z)
    (c : config) :
  holds_lock (p_pc (pub c)) = true ->
  exists n c',
    n <= 3 /\
    run df (repeat (PublisherStep now rc) n) c = Some (c', []) /\
    lock c' = None.
Proof.
  destruct c as [st l [pc idx pl conn ticks] n hs pt it].
  cbn [pub p_pc]. destruct pc; cbn [holds_lock]; try discriminate; intros _.
  - exists 2. eexists. split; [lia|]. cbn [repeat].
    do 2 (erewrite run_cons by (publisher_moves; reflexivity)).
    cbn [run app]. split; reflexivity.
  - exists 1. eexists. split; [lia|]. cbn [repeat].
    do 1 (erewrite run_cons by (publisher_moves; reflexivity)).
    cbn [run app]. split; reflexivity.
  - exists 3. eexists. split; [lia|]. cbn [repeat].
    do 3 (erewrite run_cons by (publisher_moves; reflexivity)).
    cbn [run app]. split; reflexivity.
  - exists 2. eexists. split; [lia|]. cbn [repeat].
    do 2 (erewrite run_cons by (publisher_moves; reflexivity)).
    cbn [run app]. split; reflexivity.
  - exists 1. eexists. split; [lia|]. cbn [repeat].
    do 1 (erewrite run_cons by (publisher_moves; reflexivity)).
    cbn [run app]. split; reflexivity.
Qed.

(** X13. The lock is never kept. Whoever holds the lock in a reachable
    configuration can go on by itself, whatever the other threads do or
    wait for, and has released the lock after at most 7 of its own steps,
    none of which logs, publishes or sleeps. *)
Theorem lock_is_released_by_its_holder
    (df : DataFrame) (st : State) (c : config) (t : tid)
    (Hp : last_payload st = None) (Hi : row_index st = 0)
    (Hr : reachable df st c)
    (Hl : lock c = Some t) :
  exists sched c',
    Forall (fun a => actor a = t) sched /\ List.length sched <= 7 /\
    run df sched c = Some (c', []) /\ lock c' = None.
Proof.
  pose proof (reachable_discipline df st c Hp Hi Hr) as Hdis.
  pose proof (lock_held_inside df st c t Hdis Hl) as Hin.
  destruct t as [| |i]; cbn [inside] in Hin.
  - destruct (publisher_finishes df noon 0%Z c Hin) as [n [c' [Hn [Hrun Hf]]]].
    exists (repeat (PublisherStep noon 0%Z) n), c'.
    split; [apply (repeat_actor (PublisherStep noon 0%Z))|].
    rewrite repeat_length. split; [lia|]. split; assumption.
  - destruct Hin as [ws Hw].
    pose proof (reachable_net_short df st c Hr) as Hshort.
    unfold net_short in Hshort. rewrite Hw in Hshort.
    destruct (network_finishes df OnPublish ws c Hw) as [c' [Hrun Hf]].
    exists (repeat (NetworkStep OnPublish) (S (List.length ws))), c'.
    split; [apply (repeat_actor (NetworkStep OnPublish))|].
    rewrite repeat_length. split; [lia|]. split; assumption.
  - destruct Hin as [k Hk].
    destruct (d_copy df st c Hdis i k Hk) as [Hle _].
    destruct (handler_finishes df i (6 - k) k c Hk ltac:(lia))
      as [c' [Hrun Hf]].
    exists (repeat (HandlerStep i) (S (6 - k))), c'.
    split; [apply (repeat_actor (HandlerStep i))|].
    rewrite repeat_length. split; [lia|]. split; assumption.
Qed.

Lemma lock_is_released_by_its_holder_witness :
  exists sched c',
    Forall (fun a => actor a = Publisher) sched /\
    List.length sched <= 7 /\
    run three_rows sched sample_config = Some (c', []) /\ lock c' = None.
Proof.
  apply (lock_is_released_by_its_holder three_rows (online three_rows)
           sample_config Publisher eq_refl eq_refl sample_config_reachable).
  vm_compute. reflexivity.
Defined.

(** X14. On a non-empty dataset the publisher thread never dies and never
    waits for anything but the lock: in every reachable configuration its
    cursor is inside the dataset, no exception has ended it, and it can
    take its next step as soon as the lock is free or its own. *)
Theorem publisher_never_dies
    (df : DataFrame) (st : State) (c : config) (now : datetime) (rc : Z)
    (Hp : last_payload st = None) (Hi : row_index st = 0)
    (HL : 1 <= len df)
    (Hr : reachable df st c) :
  p_idx (pub c) < len df /\
  (forall e, p_pc (pub c) <> Dead e) /\
  (lock c = None \/ lock c = Some Publisher ->
   exists c' out, publisher_step df now rc c = Some (c', out)).
Proof.
  pose proof (reachable_discipline df st c Hp Hi Hr) as Hdis.
  destruct (d_alive df st c Hdis HL) as [Hidx [Hnd Hpay]].
  split; [exact Hidx|]. split; [exact Hnd|].
  intros Hfree.
  assert (Hacq : holds_lock (p_pc (pub c)) = false -> lock c = None).
  { intros Hno. destruct Hfree as [H|H]; [exact H|].
    pose proof (d_pub df st c Hdis H). congruence. }
  unfold publisher_step, acquire.
  destruct (p_pc (pub c)) eqn:Hpc; cbn [holds_lock has_payload] in *.
  - destruct (bind (iloc df (p_idx (pub c))) _); eexists _, _; reflexivity.
  - rewrite (Hacq eq_refl). eexists _, _. reflexivity.
  - eexists _, _. reflexivity.
  - eexists _, _. reflexivity.
  - destruct (p_payload (pub c)) as [pl|];
      [eexists _, _; reflexivity|contradiction (Hpay eq_refl); reflexivity].
  - rewrite (Hacq eq_refl). eexists _, _. reflexivity.
  - eexists _, _. reflexivity.
  - eexists _, _. reflexivity.
  - eexists _, _. reflexivity.
  - destruct (py_mod _ _); eexists _, _; reflexivity.
  - contradiction (Hnd e). reflexivity.
Qed.

Lemma publisher_never_dies_witness :
  p_idx (pub sample_config) < 3 /\
  exists c' out,
    publisher_step three_rows noon 0%Z sample_config = Some (c', out).
Proof.
  destruct (publisher_never_dies three_rows (online three_rows)
              sample_config noon 0%Z eq_refl eq_refl ltac:(cbn; lia)
              sample_config_reachable) as [Hidx [_ Hgo]].
  split; [exact Hidx|]. apply Hgo. right. vm_compute. reflexivity.
Defined.

Lemma as_of_tick_empty (df : DataFrame) (T : nat) (pl : option Payload)
    (index : nat) :
  len df = 0 -> as_of_tick df T pl index -> pl = None /\ index = 0.
Proof.
  intros HL Has. destruct (as_of_tick_bound df T pl index Has) as [Hle Hpos].
  split; [|lia].
  destruct pl as [p|]; [|reflexivity].
  assert (1 <= index) by (apply Hpos; discriminate). lia.
Qed.

(** X15. On a dataset without rows the publisher thread ends at its first
    row access and nothing is ever replayed: in every reachable
    configuration the publisher is at its first statement or dead, the
    shared state and every snapshot served hold no payload and row index
    0, and no step publishes or sleeps. *)
Theorem empty_dataset_never_shows_payload
    (df : DataFrame) (st : State) (c : config)
    (Hp : last_payload st = None) (Hi : row_index st = 0)
    (HL : len df = 0)
    (Hr : reachable df st c) :
  (p_pc (pub c) = AtFetch \/ exists e, p_pc (pub c) = Dead e) /\
  last_payload (shared c) = None /\ row_index (shared c) = 0 /\
  (forall i, h_pc (handlers c i) = Responding ->
     last_payload (h_data (handlers c i)) = None /\
     row_index (h_data (handlers c i)) = 0) /\
  (forall a c' out, step df a c = Some (c', out) ->
     filter is_publish out = [] /\ filter is_sleep out = []).
Proof.
  pose proof (reachable_invariant df st c Hp Hi Hr)
    as [_ _ _ _ Hpay Hst Hh].
  assert (Hno : has_payload (p_pc (pub c)) = false).
  { destruct (has_payload (p_pc (pub c))) eqn:Hhas; [|reflexivity].
    destruct (Hpay eq_refl) as [now [row [p [Hrow _]]]].
    apply iloc_ok_bound in Hrow. lia. }
  assert (Hpc : p_pc (pub c) = AtFetch \/ exists e, p_pc (pub c) = Dead e).
  { destruct (p_pc (pub c)); try discriminate Hno;
      [left; reflexivity|right; eexists; reflexivity]. }
  split; [exact Hpc|].
  assert (Hshared : last_payload (shared c) = None /\ row_index (shared c) = 0).
  { unfold stamps in Hst.
    destruct Hpc as [Hpc|[e Hpc]]; rewrite Hpc in Hst.
    - destruct Hst as [_ [_ Has]]. exact (as_of_tick_empty _ _ _ _ HL Has).
    - destruct Hst as [_ Has]. exact (as_of_tick_empty _ _ _ _ HL Has). }
  split; [apply Hshared|]. split; [apply Hshared|]. split.
  - intros i Hs. specialize (Hh i). unfold handler_ok in Hh.
    rewrite Hs in Hh. destruct Hh as [_ Has].
    exact (as_of_tick_empty _ _ _ _ HL Has).
  - intros a c' out Hstep. destruct a as [now rc|ev|i]; cbn [step] in Hstep.
    + unfold publisher_step in Hstep.
      destruct Hpc as [Hpc|[e Hpc]]; rewrite Hpc in Hstep;
        [|discriminate Hstep].
      destruct (bind _ _); injection Hstep as _ <-; split; reflexivity.
    + unfold network_step, acquire in Hstep.
      destruct (net c) as [|ws|[|w ws]];
        try (destruct (lock c); [discriminate Hstep|]);
        injection Hstep as _ <-; try (split; reflexivity).
      destruct ev as [r|r|]; cbn; [destruct (rc_value r =? 0)%Z|..];
        split; reflexivity.
    + unfold handler_step, acquire in Hstep.
      destruct (h_pc (handlers c i)) as [|k|];
        try (destruct (lock c); [discriminate Hstep|]);
        try (destruct (k <? 6));
        injection Hstep as _ <-; split; reflexivity.
Qed.

Lemma stalled_config_reachable : reachable no_rows _state stalled_config.
Proof.
  unfold stalled_config.
  destruct (run no_rows
              [PublisherStep noon 0%Z; HandlerStep 0; NetworkStep OnPublish]
              (init _state)) as [[c out]|] eqn:Hrun.
  - exact (run_reachable _ _ _ _ _ _ (reachable_init _ _) Hrun).
  - apply reachable_init.
Qed.

Lemma empty_dataset_never_shows_payload_witness :
  p_pc (pub stalled_config) = Dead IndexError /\
  last_payload (shared stalled_config) = None /\
  row_index (shared stalled_config) = 0.
Proof.
  destruct (empty_dataset_never_shows_payload no_rows _state stalled_config
              eq_refl eq_refl eq_refl stalled_config_reachable)
    as [_ [Hlp [Hri _]]].
  split; [vm_compute; reflexivity|]. split; [exact Hlp|exact Hri].
Defined.

Lemma network_callback_run
    (df : DataFrame) (ev : net_event) (c : config)
    (Hn : net c = Waiting) (Hl : lock c = None) :
  exists c',
    run df (repeat (NetworkStep ev) (3 + List.length (writes_of ev))) c
      = Some (c', snd (callback ev (shared c))) /\
    shared c' = fst (callback ev (shared c)) /\
    net c' = Waiting /\ lock c' = None /\
    pub c' = pub c /\ handlers c' = handlers c.
Proof.
  destruct c as [st l p n hs pt it]. cbn [net lock shared pub handlers] in *.
  subst n l.
  assert (Hwrites : forall ws s,
            run df (repeat (NetworkStep ev) (S (List.length ws)))
              {| shared := s; lock := Some Network; pub := p;
                 net := Writing ws; handlers := hs;
                 payload_tick := pt; index_tick := it |}
            = Some ({| shared := apply_writes ws s; lock := None; pub := p;
                       net := Waiting; handlers := hs;
                       payload_tick := pt; index_tick := it |}, [])).
  { induction ws as [|w ws IH]; intros s.
    - reflexivity.
    - change (repeat (NetworkStep ev) (S (List.length (w :: ws))))
        with (NetworkStep ev
              :: repeat (NetworkStep ev) (S (List.length ws))).
      erewrite run_cons by reflexivity.
      unfold with_net, with_shared.
      cbn [shared lock pub net handlers payload_tick index_tick].
      rewrite IH. reflexivity. }
  change (3 + List.length (writes_of ev))
    with (S (S (S (List.length (writes_of ev))))).
  cbn [repeat].
  erewrite run_cons by reflexivity.
  erewrite run_cons by reflexivity.
  unfold with_net, with_lock.
  cbn [shared lock pub net handlers payload_tick index_tick].
  change (NetworkStep ev :: repeat (NetworkStep ev)
                              (List.length (writes_of ev)))
    with (repeat (NetworkStep ev) (S (List.length (writes_of ev)))).
  rewrite Hwrites. cbn [app]. rewrite app_nil_r.
  eexists. split.
  - f_equal. f_equal.
    destruct ev as [rc|rc|]; cbn [callback log_of];
      [unfold _on_connect; destruct (rc_value rc =? 0)%Z|..]; reflexivity.
  - split; [|repeat split; reflexivity].
    cbn [shared].
    destruct ev as [rc|rc|]; cbn [callback writes_of];
      [unfold _on_connect; destruct (rc_value rc =? 0)%Z|..]; reflexivity.
Qed.

(** X16. The network thread, taken through one callback with nobody else
    moving (enter, acquire, the assignments one by one, release), leaves
    the shared state and the log exactly as the callback function says,
    and touches neither the lock's final state nor the publisher. *)
Theorem network_alone_is_callback
    (df : DataFrame) (ev : net_event) (c : config)
    (Hn : net c = Waiting) (Hl : lock c = None) :
  exists c',
    run df (repeat (NetworkStep ev) (3 + List.length (writes_of ev))) c
      = Some (c', snd (callback ev (shared c))) /\
    shared c' = fst (callback ev (shared c)) /\
    net c' = Waiting /\ lock c' = None /\
    pub c' = pub c /\ handlers c' = handlers c.
Proof. exact (network_callback_run df ev c Hn Hl). Qed.

Lemma network_alone_is_callback_witness :
  exists c',
    run three_rows (repeat (NetworkStep OnPublish) 4)
      (init (online three_rows)) = Some (c', []) /\
    publish_count (shared c') = 1.
Proof.
  destruct (network_alone_is_callback three_rows OnPublish
              (init (online three_rows)) eq_refl eq_refl)
    as [c' [Hrun [Hs _]]].
  exists c'. split; [exact Hrun|]. rewrite Hs. reflexivity.
Defined.

(** ** The two views of the program agree *)

Lemma run_app (df : DataFrame) (s1 s2 : list action) :
  forall c,
    run df (s1 ++ s2) c =
    match run df s1 c with
    | Some (c1, out1) =>
        match run df s2 c1 with
        | Some (c2, out2) => Some (c2, out1 ++ out2)
        | None => None
        end
    | None => None
    end.
Proof.
  induction s1 as [|a s1 IH]; intros c.
  - cbn [app run]. destruct (run df s2 c) as [[c2 out2]|]; reflexivity.
  - cbn [app run]. destruct (step df a c) as [[c1 out1]|]; [|reflexivity].
    rewrite IH. destruct (run df s1 c1) as [[c2 out2]|]; [|reflexivity].
    destruct (run df s2 c2) as [[c3 out3]|]; [|reflexivity].
    rewrite app_assoc. reflexivity.
Qed.

Lemma callbacks_run (df : DataFrame) (evs : list net_event) :
  forall c,
    net c = Waiting -> lock c = None ->
    exists c',
      run df (flat_map callback_steps evs) c
        = Some (c', snd (callbacks evs (shared c))) /\
      shared c' = fst (callbacks evs (shared c)) /\
      net c' = Waiting /\ lock c' = None /\ pub c' = pub c.
Proof.
  induction evs as [|ev evs IH]; intros c Hn Hl.
  - exists c. cbn. repeat split; assumption.
  - cbn [flat_map callbacks]. rewrite run_app.
    destruct (network_callback_run df ev c Hn Hl)
      as [c1 [Hrun [Hs [Hn1 [Hl1 [Hp1 _]]]]]].
    unfold callback_steps at 1. rewrite Hrun.
    destruct (IH c1 Hn1 Hl1) as [c2 [Hrun2 [Hs2 [Hn2 [Hl2 Hp2]]]]].
    rewrite Hrun2, Hs in *.
    destruct (callback ev (shared c)) as [st1 out1]. cbn [fst snd] in *.
    destruct (callbacks evs st1) as [st2 out2]. cbn [fst snd] in *.
    exists c2. repeat split; try assumption. congruence.
Qed.

Lemma publisher_run_keeps_net (df : DataFrame) (now : datetime) (rc : Z)
    (n : nat) :
  forall c c' out,
    run df (repeat (PublisherStep now rc) n) c = Some (c', out) ->
    net c' = net c.
Proof.
  induction n as [|n IH]; intros c c' out Hrun.
  - injection Hrun as <- _. reflexivity.
  - cbn [repeat run] in Hrun.
    destruct (step df (PublisherStep now rc) c) as [[c1 out1]|] eqn:Hstep;
      [|discriminate Hrun].
    destruct (run df (repeat (PublisherStep now rc) n) c1)
      as [[c2 out2]|] eqn:Hrest; [|discriminate Hrun].
    injection Hrun as <- _.
    rewrite (IH c1 c2 out2 Hrest).
    destruct (step_frame df _ c c1 out1 Hstep) as [[_ [_ [_ [Hn _]]]] _].
    exact Hn.
Qed.

(** X17. Every sequential run is a run of the threads. Take the threads
    between two iterations (publisher at its first statement, network
    thread waiting, lock free). Whatever [replay] computes for a list of
    ticks, the thread machine reaches under the schedule that delivers
    each tick's callbacks and then lets the publisher run its iteration:
    the same shared state, the same cursor, the same log, publish and
    sleep calls in the same order, one more completed iteration per
    tick. *)
Theorem replay_is_a_run_of_the_threads
    (df : DataFrame) (envs : list tick_env) (c : config)
    (st' : State) (idx' : nat) (out : list event)
    (Hpc : p_pc (pub c) = AtFetch) (Hn : net c = Waiting)
    (Hl : lock c = None)
    (Hrun : replay df envs (shared c) (p_idx (pub c)) = Ok (st', idx', out)) :
  exists c',
    run df (schedule_of envs) c = Some (c', out) /\
    shared c' = st' /\ p_idx (pub c') = idx' /\
    p_ticks (pub c') = p_ticks (pub c) + List.length envs /\
    p_pc (pub c') = AtFetch /\ net c' = Waiting /\ lock c' = None.
Proof.
  revert c st' idx' out Hpc Hn Hl Hrun.
  induction envs as [|env rest IH]; intros c st' idx' out Hpc Hn Hl Hrun.
  - cbn in Hrun. injection Hrun as <- <- <-. exists c.
    cbn. repeat split; try assumption. lia.
  - cbn [replay] in Hrun.
    destruct (callbacks_run df (before env) c Hn Hl)
      as [c0 [Hrun0 [Hs0 [Hn0 [Hl0 Hp0]]]]].
    destruct (callbacks (before env) (shared c)) as [st0 out0].
    cbn [fst snd] in *.
    destruct (tick df (now env) (publish_rc env) st0 (p_idx (pub c)))
      as [[[st1 idx1] out1]|e] eqn:Htick; [|discriminate Hrun].
    cbn [bind] in Hrun.
    destruct (replay df rest st1 idx1) as [[[st2 idx2] out2]|e] eqn:Hrest;
      [|discriminate Hrun].
    cbn [bind] in Hrun. injection Hrun as <- <- <-.
    rewrite <- Hs0, <- Hp0 in Htick.
    destruct (publisher_alone_is_tick df (now env) (publish_rc env) c0
                st1 idx1 out1 ltac:(rewrite Hp0; exact Hpc) Hl0 Htick)
      as [c1 [Hrun1 [Hs1 [Hi1 [Hpc1 [Ht1 Hl1]]]]]].
    pose proof (publisher_run_keeps_net df _ _ _ _ _ _ Hrun1) as Hn1.
    rewrite <- Hs1, <- Hi1 in Hrest.
    destruct (IH c1 st2 idx2 out2 Hpc1 ltac:(congruence) Hl1 Hrest)
      as [c2 [Hrun2 [Hs2 [Hi2 [Ht2 [Hpc2 [Hn2 Hl2]]]]]]].
    exists c2. cbn [schedule_of flat_map]. rewrite !run_app.
    rewrite Hrun0, Hrun1.
    change (flat_map (fun env0 => flat_map callback_steps (before env0) ++
                                  alone (now env0) (publish_rc env0)) rest)
      with (schedule_of rest).
    rewrite Hrun2.
    split; [rewrite app_assoc; reflexivity|].
    repeat split; try assumption.
    rewrite Ht2, Ht1, Hp0. cbn [List.length]. lia.
Qed.

Lemma replay_is_a_run_of_the_threads_witness :
  exists st' out c',
    replay three_rows connect_then_tick (set_total_rows 3 _state) 0
      = Ok (st', 2, out) /\
    run three_rows (schedule_of connect_then_tick)
      (init (set_total_rows 3 _state)) = Some (c', out) /\
    shared c' = st' /\ publish_count st' = 1 /\ row_index st' = 2 /\
    List.length (filter is_publish out) = 2.
Proof.
  destruct (replay three_rows connect_then_tick (set_total_rows 3 _state) 0)
    as [[[st' idx'] out]|e] eqn:Hrun;
    [|vm_compute in Hrun; discriminate Hrun].
  assert (Hidx : idx' = 2)
    by (vm_compute in Hrun; injection Hrun as _ <- _; reflexivity).
  subst idx'.
  destruct (replay_is_a_run_of_the_threads three_rows connect_then_tick
              (init (set_total_rows 3 _state)) st' 2 out
              eq_refl eq_refl eq_refl Hrun)
    as [c' [Hm [Hs _]]].
  exists st', out, c'. split; [reflexivity|]. split; [exact Hm|].
  split; [exact Hs|].
  vm_compute in Hrun. injection Hrun as <- <-. repeat split.
Defined.

(** X18. In step with the tick count, under any interleaving. Whenever the
    publisher stands between two iterations after N completed ones, its
    cursor is N mod L, and the shared state holds nothing yet if N = 0
    and otherwise row_index = ((N - 1) mod L) + 1 together with the
    payload built from row (N - 1) mod L. *)
Theorem row_index_follows_the_iterations
    (df : DataFrame) (st : State) (c : config)
    (Hp : last_payload st = None) (Hi : row_index st = 0)
    (Hr : reachable df st c)
    (Hpc : p_pc (pub c) = AtFetch) :
  let N := p_ticks (pub c) in
  p_idx (pub c) = N mod len df /\
  (N = 0 -> last_payload (shared c) = None /\ row_index (shared c) = 0) /\
  (1 <= N ->
   row_index (shared c) = (N - 1) mod len df + 1 /\
   exists now row p,
     iloc df ((N - 1) mod len df) = Ok row /\
     build_payload now row = Ok p /\ last_payload (shared c) = Some p).
Proof.
  intros N. subst N.
  pose proof (reachable_invariant df st c Hp Hi Hr)
    as [_ _ _ Hcur _ Hst _].
  unfold stamps in Hst. rewrite Hpc in Hcur, Hst.
  destruct Hst as [_ [_ Has]].
  split; [exact Hcur|].
  destruct Has as [[H0 [Hn Hz]]|[t [now [row [p [Ht [Hidx [Hrow [Hb Hl]]]]]]]]].
  - split; [intros _; split; assumption|]. intros H1. lia.
  - split; [intros H0; lia|]. intros _.
    replace (p_ticks (pub c) - 1) with t by lia.
    split; [exact Hidx|]. exists now, row, p. repeat split; assumption.
Qed.

Lemma after_four_ticks_reachable :
  reachable three_rows (online three_rows) after_four_ticks.
Proof.
  unfold after_four_ticks.
  destruct (run three_rows (schedule_of (repeat quiet 4))
              (init (online three_rows))) as [[c out]|] eqn:Hrun.
  - exact (run_reachable _ _ _ _ _ _ (reachable_init _ _) Hrun).
  - apply reachable_init.
Qed.

Lemma row_index_follows_the_iterations_witness :
  p_ticks (pub after_four_ticks) = 4 /\
  p_idx (pub after_four_ticks) = 1 /\
  row_index (shared after_four_ticks) = 1.
Proof.
  assert (Hpc : p_pc (pub after_four_ticks) = AtFetch)
    by (vm_compute; reflexivity).
  assert (Ht : p_ticks (pub after_four_ticks) = 4)
    by (vm_compute; reflexivity).
  destruct (row_index_follows_the_iterations three_rows (online three_rows)
              after_four_ticks eq_refl eq_refl after_four_ticks_reachable
              Hpc) as [Hidx [_ Hri]].
  rewrite Ht in Hidx, Hri. split; [exact Ht|]. split; [exact Hidx|].
  destruct (Hri ltac:(lia)) as [H _]. exact H.
Defined.

(** X19. Every message published is the payload of the row under the
    cursor. If a step from a reachable configuration calls publish, it is
    a step of the publisher, outside its lock blocks, taken after it read
    the connection flag as true; the topic is the telemetry topic, the QoS
    is 1, and the payload is the one built from the row at the
    publisher's cursor. *)
Theorem published_messages_are_row_payloads
    (df : DataFrame) (st : State) (c c' : config) (a : action)
    (out : list event) (topic : string) (pl : Payload) (qos : nat)
    (Hp : last_payload st = None) (Hi : row_index st = 0)
    (Hr : reachable df st c)
    (Hstep : step df a c = Some (c', out))
    (Hin : In (Publish topic pl qos) out) :
  actor a = Publisher /\ topic = MQTT_TOPIC /\ qos = 1 /\
  p_connected (pub c) = true /\ holds_lock (p_pc (pub c)) = false /\
  exists now row,
    iloc df (p_idx (pub c)) = Ok row /\ build_payload now row = Ok pl.
Proof.
  pose proof (reachable_invariant df st c Hp Hi Hr)
    as [_ _ _ _ Hpay _ _].
  destruct a as [now rc|ev|i]; cbn [step actor] in *.
  - unfold publisher_step, acquire in Hstep.
    destruct (p_pc (pub c)) eqn:Hpc; cbn [has_payload holds_lock] in *;
      try (destruct (bind _ _));
      try (destruct (lock c); [discriminate Hstep|]);
      try (destruct (py_mod _ _));
      try (injection Hstep as _ <-; destruct Hin as [H|[]];
           discriminate H);
      try (injection Hstep as _ <-; destruct Hin);
      try discriminate Hstep.
    destruct (p_payload (pub c)) as [p0|] eqn:Hp0; [|discriminate Hstep].
    injection Hstep as _ <-.
    destruct (p_connected (pub c)).
    + destruct Hin as [H|[H|[]]];
        [|destruct (rc =? MQTT_ERR_SUCCESS)%Z; discriminate H].
      injection H as <- <- <-.
      split; [reflexivity|]. split; [reflexivity|]. split; [reflexivity|].
      split; [reflexivity|]. split; [reflexivity|].
      destruct (Hpay eq_refl) as [t [row [p [Hrow [Hb Hpl]]]]].
      exists t, row. split; [exact Hrow|]. congruence.
    + destruct Hin as [H|[]]. discriminate H.
  - unfold network_step, acquire in Hstep.
    destruct (net c) as [|ws|[|w ws]];
      try (destruct (lock c); [discriminate Hstep|]);
      injection Hstep as _ <-; try (destruct Hin; fail).
    destruct ev as [r|r|]; cbn in Hin;
      [destruct (rc_value r =? 0)%Z|..];
      try (destruct Hin as [H|[]]; discriminate H); destruct Hin.
  - unfold handler_step, acquire in Hstep.
    destruct (h_pc (handlers c i)) as [|k|];
      try (destruct (lock c); [discriminate Hstep|]);
      try (destruct (k <? 6));
      injection Hstep as _ <-; destruct Hin.
Qed.

Lemma ready_config_reachable :
  reachable three_rows (online three_rows) ready_config.
Proof.
  unfold ready_config.
  destruct (run three_rows (repeat (PublisherStep noon 0%Z) 4)
              (init (online three_rows))) as [[c out]|] eqn:Hrun.
  - exact (run_reachable _ _ _ _ _ _ (reachable_init _ _) Hrun).
  - apply reachable_init.
Qed.

Lemma published_messages_are_row_payloads_witness :
  exists c' out pl row,
    step three_rows (PublisherStep noon 0%Z) ready_config = Some (c', out) /\
    In (Publish "vpp/telemetry/main_bus" pl 1) out /\
    iloc three_rows 0 = Ok row /\
    exists now, build_payload now row = Ok pl.
Proof.
  destruct (step three_rows (PublisherStep noon 0%Z) ready_config)
    as [[c' out]|] eqn:Hstep; [|vm_compute in Hstep; discriminate Hstep].
  assert (Hin : In (Publish "vpp/telemetry/main_bus"
                      (built noon (combine (columns three_rows)
                                     [CStr "2024-01-01 00:00:00" None;
                                      CNum (lit 2301 1) "230.1"])) 1) out).
  { vm_compute in Hstep. injection Hstep as _ <-. left. vm_compute.
    reflexivity. }
  destruct (published_messages_are_row_payloads three_rows
              (online three_rows) ready_config c' (PublisherStep noon 0%Z)
              out _ _ _ eq_refl eq_refl ready_config_reachable Hstep Hin)
    as [_ [_ [_ [_ [_ [now [row [Hrow Hb]]]]]]]].
  change (p_idx (pub ready_config)) with 0 in Hrow.
  eexists c', out, _, row. split; [reflexivity|]. split; [exact Hin|].
  split; [exact Hrow|]. exists now. exact Hb.
Defined.

(** ** Further edge behaviour *)

(** X20. A refusal stays on display until the broker's acknowledgement
    comes. When [_connect_mqtt] returns after at least one refused
    attempt, last_error still holds the text of the last refusal and the
    state still shows not connected; the connect callback with reason
    code 0 then sets connected and clears the error, while a disconnect
    callback never touches last_error. *)
Theorem refusal_shown_until_acknowledged
    (broker : nat -> result unit) (st : State) (k fuel : nat)
    (Hos : forall n e, broker n = Raise e -> is_OSError e = true)
    (Href : forall n, n < S k -> broker n <> Ok tt)
    (Hok : broker (S k) = Ok tt) (Hlt : S k < fuel) :
  exists st' out,
    _connect_mqtt fuel broker 0 st = (Returned, st', out) /\
    last_error st' = Some (refusal broker k) /\
    mqtt_connected st' = mqtt_connected st /\
    (forall rc, rc_value rc = 0%Z ->
       mqtt_connected (fst (_on_connect rc st')) = true /\
       last_error (fst (_on_connect rc st')) = None) /\
    (forall rc, rc_value rc <> 0%Z ->
       mqtt_connected (fst (_on_connect rc st')) = false /\
       last_error (fst (_on_connect rc st')) =
         Some ("Connect failed: rc=" ++ rc_text rc)%string) /\
    (forall rc,
       mqtt_connected (fst (_on_disconnect rc st')) = false /\
       last_error (fst (_on_disconnect rc st')) = last_error st').
Proof.
  rewrite (connect_returns_at_first_accept broker st (S k) fuel
             Hos Href Hok Hlt).
  eexists _, _. split; [reflexivity|].
  cbn [after_refusals Nat.add]. repeat split.
  - unfold _on_connect. rewrite H. reflexivity.
  - unfold _on_connect. rewrite H. reflexivity.
  - unfold _on_connect. apply Z.eqb_neq in H. rewrite H. reflexivity.
  - unfold _on_connect. apply Z.eqb_neq in H. rewrite H. reflexivity.
Qed.

Lemma refusal_shown_until_acknowledged_witness :
  exists st' out,
    _connect_mqtt 5 broker_late 0 _state = (Returned, st', out) /\
    last_error st' = Some "[Errno 111] Connection refused" /\
    mqtt_connected st' = false.
Proof.
  destruct (refusal_shown_until_acknowledged broker_late _state 1 5
              broker_late_refuses)
    as [st' [out [Hrun [He [Hc _]]]]].
  - intros n Hn. unfold broker_late.
    destruct (Nat.ltb_spec n 2); [discriminate|lia].
  - reflexivity.
  - lia.
  - exists st', out. split; [exact Hrun|]. split; [exact He|exact Hc].
Defined.

Lemma iloc_out_of_range (df : DataFrame) (idx : nat) :
  len df <= idx -> iloc df idx = Raise IndexError.
Proof.
  intros Hle. unfold iloc, len in *.
  destruct (nth_error (records df) idx) as [rec|] eqn:Hnth; [|reflexivity].
  assert (idx < List.length (records df))
    by (apply nth_error_Some; congruence).
  lia.
Qed.

(** X21. A cursor outside the dataset ends the tick with IndexError
    before anything is built, published or stored; in particular the
    publisher thread on a dataset without rows raises IndexError at its
    first tick, whatever callbacks arrived before it. *)
Theorem tick_outside_the_dataset_raises
    (df : DataFrame) (now : datetime) (rc : Z) (st : State) (idx : nat)
    (Hout : len df <= idx) :
  tick df now rc st idx = Raise IndexError /\
  (forall env envs, replay df (env :: envs) st idx = Raise IndexError).
Proof.
  assert (Htick : forall n r s, tick df n r s idx = Raise IndexError).
  { intros n r s. unfold tick.
    rewrite (iloc_out_of_range df idx Hout). reflexivity. }
  split; [apply Htick|].
  intros env envs. cbn [replay].
  destruct (callbacks (before env) st) as [st0 out0].
  rewrite Htick. reflexivity.
Qed.

Lemma tick_outside_the_dataset_raises_witness :
  tick three_rows noon 0%Z (online three_rows) 3 = Raise IndexError /\
  publisher_thread {| columns := ["Timestamp"]; records := [] |}
    [quiet; quiet] _state = Raise IndexError.
Proof.
  split.
  - apply (tick_outside_the_dataset_raises three_rows noon 0%Z
             (online three_rows) 3). cbn. lia.
  - apply (proj2 (tick_outside_the_dataset_raises
                    {| columns := ["Timestamp"]; records := [] |}
                    noon 0%Z _state 0 ltac:(cbn; lia))).
Defined.

Lemma float_at_getitem (row1 row2 : Row) (col : string) (d : float) :
  getitem row1 col = getitem row2 col ->
  float_at row1 col d = float_at row2 col d.
Proof.
  intros H. unfold float_at, _safe_float. rewrite H. reflexivity.
Qed.

Lemma str_at_getitem (row1 row2 : Row) (col : string) (d : string) :
  getitem row1 col = getitem row2 col ->
  str_at row1 col d = str_at row2 col d.
Proof.
  intros H. unfold str_at, _safe_str. rewrite H. reflexivity.
Qed.

(** X22. Columns do not mix. Each numeric entry of the payload depends on
    the row only through the cell under its own column label: two rows
    that agree on that label give the same entry, whatever their other
    cells, and the same header.timestamp if they agree on "Timestamp"
    and are built at the same clock reading. *)
Theorem entries_depend_on_their_own_column
    (row1 row2 : Row) (now1 now2 : datetime) (p1 p2 : Payload) (k : key)
    (H1 : build_payload now1 row1 = Ok p1)
    (H2 : build_payload now2 row2 = Ok p2)
    (Hcol : getitem row1 (COL_MAP k) = getitem row2 (COL_MAP k)) :
  entry k p1 = entry k p2 /\
  (k = timestamp -> now1 = now2 ->
   header_timestamp (header p1) = header_timestamp (header p2)).
Proof.
  rewrite build_payload_ok in H1, H2.
  injection H1 as <-. injection H2 as <-.
  pose proof (float_at_getitem row1 row2 (COL_MAP k) zero Hcol) as Hf.
  pose proof (str_at_getitem row1 row2 (COL_MAP k) "" Hcol) as Hs.
  split.
  - destruct k;
      cbn [entry built grid_state energy_flow voltage_v current_a
           grid_power_factor voltage_fluctuation load_kw solar_gen_kw
           wind_gen_kw grid_supply_kw reactive_power_kvar];
      try reflexivity; rewrite Hf; reflexivity.
  - intros -> <-. cbn [built header header_timestamp].
    rewrite Hs. reflexivity.
Qed.

Lemma entries_depend_on_their_own_column_witness :
  exists p1 p2,
    build_payload noon sample_row = Ok p1 /\
    build_payload midnight
      [("Solar Power (kW)", CNum (lit 1 0) "1.0"); ("Other", CStr "x" None)]
      = Ok p2 /\
    solar_gen_kw (energy_flow p1) = solar_gen_kw (energy_flow p2).
Proof.
  exists (built noon sample_row),
         (built midnight [("Solar Power (kW)", CNum (lit 1 0) "1.0");
                          ("Other", CStr "x" None)]).
  split; [apply build_payload_ok|]. split; [apply build_payload_ok|].
  assert (H : entry solar (built noon sample_row) =
              entry solar (built midnight
                [("Solar Power (kW)", CNum (lit 1 0) "1.0");
                 ("Other", CStr "x" None)])).
  { apply (entries_depend_on_their_own_column sample_row _ noon midnight
             _ _ solar (build_payload_ok _ _) (build_payload_ok _ _)).
    vm_compute. reflexivity. }
  exact (f_equal (fun o => match o with Some v => v | None => zero end) H).
Defined.
